(** * URL shortener: the in-memory store, the shortcode allocator and the
      HTTP handlers that sit on top of them.

    The development embeds

    - [backend/src/models/InMemoryStore.js] (class [InMemoryStore]),
    - the [UrlService] class (generateShortcode, generateUniqueShortcode,
      validateAndNormalizeUrl, calculateExpiryDate, createShortUrl, ...),
    - the [UrlController] class (createShortUrl, redirectToUrl,
      getUrlAnalytics),
    - the file [Logger], the queue and the retry loop of
      [LoggingMiddleware], [globalErrorHandler] and the utilities
      [isValidUrl], [generateRandomString], [isValidShortcode],

    as functions in a small state-and-exception monad, and then states the
    properties of the store's expiry discipline, the click log and the
    allocator's retry loop as theorems about these functions.

    Modelling conventions.

    - A JavaScript [Date] is its time value: a [Z] number of milliseconds.
      [a > b] on two dates compares the time values.  Every date is a valid
      date: an Invalid Date (a time value beyond 8.64e15 ms, see
      [validTime]) has no representation.
    - Every [new Date()] / [Date.now()] of the modelled code is one read of
      the wall clock.  The clock is an oracle [clock : nat -> Z]: the k-th
      read returns [clock k]; the state counts the reads made so far.
    - [crypto.randomBytes(1)[0]] is one draw from an oracle
      [entropy : nat -> byte]; the state counts the draws.
    - The two [Map]s of the store are finite maps keyed by strings.
    - A thrown [Error] is the outcome [Throw message]; mutations made before
      the throw are kept, as in JavaScript.
    - Calls to the logging middleware ([logger.Log], [logger.logError])
      have no effect on the store and are left out; a clock read that the
      handler itself makes while building their arguments is kept.  The
      file logger's call that opens [globalErrorHandler] is modelled.
    - A handler runs from start to end without another request touching
      the store in between; [async]/[await] is sequential composition. *)

From Stdlib Require Import ZArith String Ascii List Lia.
From Stdlib.Strings Require Import Byte.
From stdpp Require Import gmap strings list fin_maps sorting.

Local Open Scope Z_scope.

(** ** Data model *)

(** A click object as built by [InMemoryStore.addClick]. *)
Record Click : Type := mkClick {
  timestamp : Z;
  userAgent : string;
  ip : string;
  referer : string
}.

(** The [urlEntry] object literal of [InMemoryStore.create]. *)
Record UrlEntry : Type := mkUrlEntry {
  id : string;
  shortcode : string;
  originalUrl : string;
  expiresAt : Z;
  createdAt : Z;
  clicks : list Click
}.

(** The value stored in the [analytics] map. *)
Record Analytics : Type := mkAnalytics {
  totalClicks : nat;
  uniqueClicks : nat
}.

(** The argument of [InMemoryStore.create]; [None] stands for a missing
    (falsy) [expiresAt]. *)
Record CreateData : Type := mkCreateData {
  data_shortcode : string;
  data_originalUrl : string;
  data_expiresAt : option Z
}.

(** The [clickData] argument of [addClick]: each field may be undefined. *)
Record ClickData : Type := mkClickData {
  cd_userAgent : option string;
  cd_ip : option string;
  cd_referer : option string
}.

(** The object returned by [InMemoryStore.getAnalytics]. *)
Record AnalyticsReport : Type := mkReport {
  r_shortcode : string;
  r_originalUrl : string;
  r_createdAt : Z;
  r_expiresAt : Z;
  r_totalClicks : nat;
  r_uniqueClicks : nat;
  r_clicks : list Click
}.

(** The singleton store together with the counters of the two oracles. *)
Record State : Type := mkState {
  urls : gmap string UrlEntry;
  analytics : gmap string Analytics;
  clockReads : nat;
  bytesDrawn : nat
}.

(** ** The monad: state plus exceptions *)

Inductive Outcome (A : Type) : Type :=
| Return (value : A)
| Throw (message : string).
Arguments Return {A} value.
Arguments Throw {A} message.

Definition Js (A : Type) : Type := State -> Outcome A * State.

Definition ret {A : Type} (a : A) : Js A := fun s => (Return a, s).

Definition throw {A : Type} (message : string) : Js A :=
  fun s => (Throw message, s).

Definition bind {A B : Type} (m : Js A) (k : A -> Js B) : Js B :=
  fun s =>
    match m s with
    | (Return a, s') => k a s'
    | (Throw message, s') => (Throw message, s')
    end.

(** [try { m } catch (error) { handler error.message }] *)
Definition tryCatch {A : Type} (m : Js A) (handler : string -> Js A) : Js A :=
  fun s =>
    match m s with
    | (Return a, s') => (Return a, s')
    | (Throw message, s') => handler message s'
    end.

Notation "'let!' x ':=' m 'in' k" := (bind m (fun x => k))
  (at level 10, x pattern, m at level 100, k at level 200).
Notation "m ';;;' k" := (bind m (fun _ => k))
  (at level 100, k at level 200, right associativity).

(** Primitive accesses to the two maps. *)
Definition urlsGet (key : string) : Js (option UrlEntry) :=
  fun s => (Return (urls s !! key), s).

Definition urlsHas (key : string) : Js bool :=
  fun s => (Return (bool_decide (is_Some (urls s !! key))), s).

Definition urlsSet (key : string) (v : UrlEntry) : Js unit :=
  fun s => (Return tt,
            mkState (<[key := v]> (urls s)) (analytics s)
                    (clockReads s) (bytesDrawn s)).

Definition urlsDelete (key : string) : Js unit :=
  fun s => (Return tt,
            mkState (delete key (urls s)) (analytics s)
                    (clockReads s) (bytesDrawn s)).

Definition urlsEntries : Js (list (string * UrlEntry)) :=
  fun s => (Return (map_to_list (urls s)), s).

Definition analyticsGet (key : string) : Js (option Analytics) :=
  fun s => (Return (analytics s !! key), s).

Definition analyticsSet (key : string) (v : Analytics) : Js unit :=
  fun s => (Return tt,
            mkState (urls s) (<[key := v]> (analytics s))
                    (clockReads s) (bytesDrawn s)).

Definition analyticsDelete (key : string) : Js unit :=
  fun s => (Return tt,
            mkState (urls s) (delete key (analytics s))
                    (clockReads s) (bytesDrawn s)).

(** [x || ''] on a possibly undefined string. *)
Definition orEmpty (x : option string) : string :=
  match x with
  | Some v => v
  | None => ""%string
  end.

(** [new Set(clicks.map(c => c.ip)).size] *)
Definition uniqueIpCount (cs : list Click) : nat :=
  size (list_to_set (ip <$> cs) : gset string).

(** [expired.forEach(f)] *)
Fixpoint forEach {A : Type} (l : list A) (f : A -> Js unit) : Js unit :=
  match l with
  | [] => ret tt
  | x :: rest => f x ;;; forEach rest f
  end.

(** [new Date()] (and [Date.now()]): one read of the wall clock, whose k-th
    read returns [clock k]. *)
Definition newDate (clock : nat -> Z) : Js Z :=
  fun s => (Return (clock (clockReads s)),
            mkState (urls s) (analytics s) (S (clockReads s)) (bytesDrawn s)).

(** [crypto.randomBytes(1)[0]]: one draw from the random source, whose k-th
    byte is [entropy k]. *)
Definition cryptoRandomByte (entropy : nat -> byte) : Js byte :=
  fun s => (Return (entropy (bytesDrawn s)),
            mkState (urls s) (analytics s) (clockReads s) (S (bytesDrawn s))).

(** The object returned by [InMemoryStore.getStats]. *)
Record Stats : Type := mkStats {
  totalUrls : nat;
  stats_totalClicks : nat
}.

(** [Array.from(this.urls.values())].  A JavaScript [Map] lists its values
    in insertion order; the finite map lists them in an order of its own,
    so what is said about such a list is said up to reordering. *)
Definition urlsValues : Js (list UrlEntry) :=
  fun s => (Return ((map_to_list (urls s)).*2), s).

(** [this.urls.size] *)
Definition urlsSize : Js nat :=
  fun s => (Return (size (urls s)), s).

(** [Array.from(this.analytics.values())] *)
Definition analyticsValues : Js (list Analytics) :=
  fun s => (Return ((map_to_list (analytics s)).*2), s).

(** ** InMemoryStore *)

Module InMemoryStore.

Section Store.

(** The wall clock: the k-th read returns [clock k]. *)
Variable clock : nat -> Z.

(** *** InMemoryStore.create *)
Definition create (data : CreateData) : Js UrlEntry :=
  let key := data_shortcode data in
  let url := data_originalUrl data in
  let! present := urlsHas key in
  if (present : bool) then throw "Shortcode already exists"
  else
    let! expires :=
      match data_expiresAt data with
      | Some e => ret e
      | None => let! now := newDate clock in ret (now + 30 * 60 * 1000)
      end in
    let! created := newDate clock in
    let urlEntry := mkUrlEntry key key url expires created [] in
    urlsSet key urlEntry ;;;
    analyticsSet key (mkAnalytics 0 0) ;;;
    ret urlEntry.

(** *** InMemoryStore.findByShortcode *)
Definition findByShortcode (key : string) : Js (option UrlEntry) :=
  let! found := urlsGet key in
  match found with
  | None => ret None
  | Some url =>
      let! now := newDate clock in
      if bool_decide (now > expiresAt url) then
        urlsDelete key ;;;
        analyticsDelete key ;;;
        ret None
      else ret (Some url)
  end.

(** *** InMemoryStore.addClick

    [url.clicks.push(click)] mutates the stored entry in place, so the
    push is visible in the map even when the following
    [analytics.totalClicks++] throws on a missing analytics entry. *)
Definition addClick (key : string) (clickData : ClickData) : Js bool :=
  let! found := urlsGet key in
  match found with
  | None => ret false
  | Some url =>
      let! now := newDate clock in
      if bool_decide (now > expiresAt url) then
        urlsDelete key ;;;
        analyticsDelete key ;;;
        ret false
      else
        let! stamp := newDate clock in
        let click := mkClick stamp
                             (orEmpty (cd_userAgent clickData))
                             (orEmpty (cd_ip clickData))
                             (orEmpty (cd_referer clickData)) in
        let pushed := mkUrlEntry (id url) (shortcode url)
                                 (originalUrl url) (expiresAt url)
                                 (createdAt url) (clicks url ++ [click]) in
        urlsSet key pushed ;;;
        let! stats := analyticsGet key in
        match stats with
        | None =>
            throw "Cannot read properties of undefined (reading 'totalClicks')"
        | Some a =>
            analyticsSet key
              (mkAnalytics (S (totalClicks a))
                           (uniqueIpCount (clicks pushed))) ;;;
            ret true
        end
  end.

(** *** InMemoryStore.getAnalytics *)
Definition getAnalytics (key : string) : Js (option AnalyticsReport) :=
  let! found := urlsGet key in
  match found with
  | None => ret None
  | Some url =>
      let! now := newDate clock in
      if bool_decide (now > expiresAt url) then
        urlsDelete key ;;;
        analyticsDelete key ;;;
        ret None
      else
        let! stats := analyticsGet key in
        match stats with
        | None =>
            throw "Cannot read properties of undefined (reading 'totalClicks')"
        | Some a =>
            ret (Some (mkReport key (originalUrl url) (createdAt url)
                                (expiresAt url) (totalClicks a)
                                (uniqueClicks a) (clicks url)))
        end
  end.

(** *** InMemoryStore.cleanupExpired *)
Definition cleanupExpired : Js nat :=
  let! now := newDate clock in
  let! entries := urlsEntries in
  let expired :=
    (filter (fun e : string * UrlEntry => now > expiresAt e.2) entries).*1 in
  forEach expired (fun key =>
    urlsDelete key ;;; analyticsDelete key) ;;;
  ret (length expired).

(** *** InMemoryStore.getAll *)
Definition getAll : Js (list UrlEntry) :=
  urlsValues.

(** *** InMemoryStore.getStats *)
Definition getStats : Js Stats :=
  let! count := urlsSize in
  let! values := analyticsValues in
  ret (mkStats count
         (foldl (fun sum a => (sum + totalClicks a)%nat) 0%nat values)).

End Store.

End InMemoryStore.

Import InMemoryStore.

(** ** UrlService *)

(** What the service needs from the platform's [URL] class. *)
Record UrlObject : Type := mkUrlObject {
  protocol : string;
  href : string
}.

(** The argument of [UrlService.createShortUrl]; [None] is [undefined].
    [validity] is a whole number of minutes. *)
Record ShortUrlData : Type := mkShortUrlData {
  sd_url : string;
  sd_validity : option Z;
  sd_shortcode : option string
}.

(** The object returned by [UrlService.createShortUrl].  The two ISO-8601
    strings are represented by the time values they print. *)
Record ShortUrl : Type := mkShortUrl {
  su_shortcode : string;
  su_originalUrl : string;
  su_shortUrl : string;
  su_expiresAt : Z;
  su_createdAt : Z
}.

(** The time values a [Date] can hold: [new Date(t)] is a valid date
    exactly when [t] is at most 8.64e15 ms from the epoch. *)
Definition validTime (t : Z) : Prop :=
  -8640000000000000 <= t <= 8640000000000000.

(** [s[i]] used in a string concatenation. *)
Definition charAt (s : string) (i : nat) : string :=
  match String.get i s with
  | Some c => String c EmptyString
  | None => "undefined"%string
  end.

(** [haystack.includes(needle)] *)
Fixpoint includes (haystack needle : string) : bool :=
  String.prefix needle haystack ||
  match haystack with
  | EmptyString => false
  | String _ rest => includes rest needle
  end.

Definition isAlnum (c : ascii) : bool :=
  let n := nat_of_ascii c in
  ((97 <=? n) && (n <=? 122) || (65 <=? n) && (n <=? 90) ||
   (48 <=? n) && (n <=? 57))%nat.

Fixpoint allAlnum (s : string) : bool :=
  match s with
  | EmptyString => true
  | String c rest => isAlnum c && allAlnum rest
  end.

(** [/^[a-zA-Z0-9]{3,20}$/.test(s)] *)
Definition shortcodeFormat (s : string) : bool :=
  ((3 <=? String.length s) && (String.length s <=? 20))%nat && allAlnum s.

(** Truthiness of an optional string: [undefined] and [''] are falsy. *)
Definition truthy (x : option string) : bool :=
  match x with
  | Some (String _ _) => true
  | _ => false
  end.

Definition chars : string :=
  "abcdefghijklmnopqrstuvwxyzABCDEFGHIJKLMNOPQRSTUVWXYZ0123456789".

Module UrlService.

Section Service.

Variable clock : nat -> Z.
(** The random source: the k-th byte drawn is [entropy k]. *)
Variable entropy : nat -> byte.
(** [new URL(url)]: [None] when the constructor throws. *)
Variable URL : string -> option UrlObject.
(** [process.env.BASE_URL] *)
Variable BASE_URL : string.

(** The [for] loop of [generateShortcode], [remaining = length - i]. *)
Fixpoint generateShortcodeLoop (remaining : nat) (result : string)
  : Js string :=
  match remaining with
  | O => ret result
  | S n =>
      let! randomByte := cryptoRandomByte entropy in
      generateShortcodeLoop n
        (result +:+ charAt chars
           (Byte.to_nat randomByte mod String.length chars)%nat)
  end.

(** *** UrlService.generateShortcode *)
Definition generateShortcode (length : nat) : Js string :=
  generateShortcodeLoop length "".

(** The [for] loop of [generateUniqueShortcode],
    [remaining = maxAttempts - attempt]. *)
Fixpoint generateUniqueShortcodeLoop (remaining : nat) : Js string :=
  match remaining with
  | O => throw "Unable to generate unique shortcode after maximum attempts"
  | S n =>
      let! code := generateShortcode 6 in
      let! existing := findByShortcode clock code in
      match existing with
      | None => ret code
      | Some _ => generateUniqueShortcodeLoop n
      end
  end.

(** *** UrlService.generateUniqueShortcode *)
Definition generateUniqueShortcode (maxAttempts : nat) : Js string :=
  generateUniqueShortcodeLoop maxAttempts.

(** *** UrlService.validateAndNormalizeUrl *)
Definition validateAndNormalizeUrl (url : string) : Js string :=
  tryCatch
    (match URL url with
     | None => throw "Invalid URL"
     | Some urlObj =>
         if bool_decide (protocol urlObj ∈ ["http:"; "https:"]%string) then
           ret (href urlObj)
         else throw "Only HTTP and HTTPS URLs are allowed"
     end)
    (fun _ => throw "Invalid URL format").

(** *** UrlService.calculateExpiryDate

    The time value of the result is computed in exact integers.  A
    JavaScript [Date] holds a time value of at most 8.64e15 ms in absolute
    value ([validTime]); beyond it [new Date(t)] is an Invalid Date, which
    [createShortUrl] hands to the store and on which its
    [expiresAt.toISOString()] then throws a RangeError.  The embedding
    covers the calls whose expiry date is a valid date. *)
Definition calculateExpiryDate (validityMinutes : Z) : Js Z :=
  let! now := newDate clock in
  ret (now + validityMinutes * 60 * 1000).

(** *** UrlService.createShortUrl *)
Definition createShortUrl (data : ShortUrlData) : Js ShortUrl :=
  let url := sd_url data in
  let validity := default 30 (sd_validity data) in
  let customShortcode := sd_shortcode data in
  let! normalizedUrl := validateAndNormalizeUrl url in
  let! code :=
    if truthy customShortcode then
      let custom := orEmpty customShortcode in
      if negb (shortcodeFormat custom) then
        throw "Custom shortcode must be alphanumeric and between 3-20 characters"
      else
        let! existing := findByShortcode clock custom in
        match existing with
        | Some _ => throw "Custom shortcode already exists"
        | None => ret custom
        end
    else generateUniqueShortcode 10 in
  let! expires := calculateExpiryDate validity in
  let! urlDoc := create clock (mkCreateData code normalizedUrl (Some expires)) in
  ret (mkShortUrl code normalizedUrl (BASE_URL +:+ "/" +:+ code)
                  expires (createdAt urlDoc)).

(** *** UrlService.getUrlByShortcode *)
Definition getUrlByShortcode (code : string) : Js (option UrlEntry) :=
  let! urlDoc := findByShortcode clock code in
  match urlDoc with
  | None => ret None
  | Some u => ret (Some u)
  end.

(** *** UrlService.getUrlAnalytics *)
Definition getUrlAnalytics (code : string) : Js (option AnalyticsReport) :=
  let! report := getAnalytics clock code in
  match report with
  | None => ret None
  | Some a => ret (Some a)
  end.

(** *** UrlService.recordClick (the second definition, which is the one
    the class keeps) *)
Definition recordClick (code : string) (clickData : ClickData) : Js bool :=
  addClick clock code clickData.

(** *** UrlService.cleanupExpiredUrls *)
Definition cleanupExpiredUrls : Js nat := cleanupExpired clock.

End Service.

End UrlService.

Import UrlService.

(** ** UrlController *)

(** The [validity] member of a request body.  Numbers are whole minutes;
    [VOther] is any JSON value that is not a number. *)
Inductive Validity : Type :=
| VUndefined
| VNumber (minutes : Z)
| VOther.

(** [req.body] of [POST /shorturls], for the bodies whose [url] and
    [shortcode] are JSON strings or absent.  A member of another JSON type
    (a number, an array, an object) has no counterpart here. *)
Record CreateBody : Type := mkCreateBody {
  body_url : option string;
  body_validity : Validity;
  body_shortcode : option string
}.

(** The request of [GET /:shortcode]. *)
Record RedirectRequest : Type := mkRedirectRequest {
  params_shortcode : string;
  req_ip : option string;
  req_userAgent : option string;
  req_referer : option string
}.

Inductive Payload : Type :=
| ErrorJson (error message : string)
| ShortUrlJson (result : ShortUrl)
| AnalyticsJson (report : AnalyticsReport)
| Location (url : string).

Record Response : Type := mkResponse {
  status : nat;
  payload : Payload
}.

(** The validity gate of [UrlController.createShortUrl]:
    [typeof validity !== 'number' || validity <= 0 || validity > 10080]. *)
Definition validityRejected (v : Validity) : bool :=
  match v with
  | VUndefined => false
  | VNumber n => bool_decide (n <= 0) || bool_decide (n > 10080)
  | VOther => true
  end.

Definition validityArgument (v : Validity) : option Z :=
  match v with
  | VNumber n => Some n
  | _ => None
  end.

Module UrlController.

Section Controller.

Variable clock : nat -> Z.
Variable entropy : nat -> byte.
Variable URL : string -> option UrlObject.
Variable BASE_URL : string.

(** *** UrlController.createShortUrl, POST /shorturls *)
Definition createShortUrl (body : CreateBody) : Js Response :=
  tryCatch
    (if negb (truthy (body_url body)) then
       ret (mkResponse 400 (ErrorJson "Bad Request" "URL is required"))
     else if validityRejected (body_validity body) then
       ret (mkResponse 400 (ErrorJson "Bad Request"
         "Validity must be a positive number (in minutes) and not exceed 10080 minutes (1 week)"))
     else
       let! result :=
         UrlService.createShortUrl clock entropy URL BASE_URL
           (mkShortUrlData (orEmpty (body_url body))
                           (validityArgument (body_validity body))
                           (body_shortcode body)) in
       ret (mkResponse 201 (ShortUrlJson result)))
    (fun message =>
       if includes message "already exists" then
         ret (mkResponse 409 (ErrorJson "Conflict" message))
       else if includes message "shortcode" || includes message "URL" then
         ret (mkResponse 400 (ErrorJson "Bad Request" message))
       else
         ret (mkResponse 500 (ErrorJson "Internal Server Error"
                                        "Failed to create short URL"))).

(** *** UrlController.redirectToUrl, GET /:shortcode *)
Definition redirectToUrl (req : RedirectRequest) : Js Response :=
  tryCatch
    (let code := params_shortcode req in
     if negb (truthy (Some code)) then
       ret (mkResponse 400 (ErrorJson "Bad Request" "Shortcode is required"))
     else
       let! urlData := UrlService.getUrlByShortcode clock code in
       match urlData with
       | None =>
           ret (mkResponse 404 (ErrorJson "Not Found" "Short URL not found"))
       | Some urlData =>
           let! now := newDate clock in
           if bool_decide (now > expiresAt urlData) then
             (* currentTime: new Date().toISOString(), for the log entry *)
             let! currentTime := newDate clock in
             ret (mkResponse 410 (ErrorJson "Gone" "Short URL has expired"))
           else
             UrlService.recordClick clock code
               (mkClickData (req_userAgent req) (req_ip req)
                            (req_referer req)) ;;;
             ret (mkResponse 302 (Location (originalUrl urlData)))
       end)
    (fun _ =>
       ret (mkResponse 500 (ErrorJson "Internal Server Error"
                                      "Failed to redirect"))).

(** *** UrlController.getUrlAnalytics, GET /shorturls/:shortcode/analytics *)
Definition getUrlAnalytics (code : string) : Js Response :=
  tryCatch
    (if negb (truthy (Some code)) then
       ret (mkResponse 400 (ErrorJson "Bad Request" "Shortcode is required"))
     else
       let! report := UrlService.getUrlAnalytics clock code in
       match report with
       | None =>
           ret (mkResponse 404 (ErrorJson "Not Found" "Short URL not found"))
       | Some a => ret (mkResponse 200 (AnalyticsJson a))
       end)
    (fun _ =>
       ret (mkResponse 500 (ErrorJson "Internal Server Error"
                                      "Failed to retrieve analytics"))).

End Controller.

End UrlController.

(** ** Runs of store operations *)

Inductive Op : Type :=
| OpCreate (data : CreateData)
| OpFind (key : string)
| OpAddClick (key : string) (clickData : ClickData)
| OpGetAnalytics (key : string)
| OpCleanup.

Definition emptyStore : State := mkState ∅ ∅ 0 0.

Section Runs.

Variable clock : nat -> Z.

(** The state left by one store call, whatever it returned or threw. *)
Definition step (s : State) (o : Op) : State :=
  match o with
  | OpCreate data => (create clock data s).2
  | OpFind key => (findByShortcode clock key s).2
  | OpAddClick key clickData => (addClick clock key clickData s).2
  | OpGetAnalytics key => (getAnalytics clock key s).2
  | OpCleanup => (cleanupExpired clock s).2
  end.

Definition run (ops : list Op) (s : State) : State := fold_left step ops s.

End Runs.

(** ** Vocabulary of the statements *)

(** The state after the eviction of [key] at a lookup. *)
Definition evicted (key : string) (s : State) : State :=
  mkState (delete key (urls s)) (delete key (analytics s))
          (S (clockReads s)) (bytesDrawn s).

(** The state after a lookup that only read the clock. *)
Definition ticked (s : State) : State :=
  mkState (urls s) (analytics s) (S (clockReads s)) (bytesDrawn s).

(** The click object pushed by an [addClick] whose timestamp read is the
    [t]-th read of the clock. *)
Definition clickOf (clock : nat -> Z) (t : nat) (cd : ClickData) : Click :=
  mkClick (clock t) (orEmpty (cd_userAgent cd)) (orEmpty (cd_ip cd))
          (orEmpty (cd_referer cd)).

Definition pushClick (u : UrlEntry) (c : Click) : UrlEntry :=
  mkUrlEntry (id u) (shortcode u) (originalUrl u) (expiresAt u)
             (createdAt u) (clicks u ++ [c]).

(** The body of the [forEach] of [cleanupExpired]. *)
Definition evict (key : string) : Js unit :=
  urlsDelete key ;;; analyticsDelete key.

(** The keys collected by the [for ... of] loop of [cleanupExpired]. *)
Definition expiredKeys (now : Z) (m : gmap string UrlEntry) : list string :=
  (filter (fun e : string * UrlEntry => now > expiresAt e.2)
          (map_to_list m)).*1.

(** The store invariant: the two maps have the same keys, and each
    analytics entry agrees with the click log of its record. *)
Definition storeInv (s : State) : Prop :=
  (forall k, is_Some (urls s !! k) <-> is_Some (analytics s !! k)) /\
  (forall k u a,
      urls s !! k = Some u -> analytics s !! k = Some a ->
      totalClicks a = length (clicks u) /\
      uniqueClicks a = uniqueIpCount (clicks u)).

(** ** Example environment used by the concrete checks *)

(** A clock that advances one millisecond per read, starting at [t0]. *)
Definition tickingClock (t0 : Z) (n : nat) : Z := t0 + Z.of_nat n.

(** A clock that stands still at [t0]. *)
Definition frozenClock (t0 : Z) (n : nat) : Z := t0.

Definition click (address : string) : ClickData :=
  mkClickData (Some "curl/8"%string) (Some address) None.

Definition sampleEntry : UrlEntry :=
  mkUrlEntry "abc123" "abc123" "https://example.com/" 5000 1000 [].

Definition sampleStore : State :=
  mkState {[ "abc123"%string := sampleEntry ]}
          {[ "abc123"%string := mkAnalytics 0 0 ]} 0 0.

Definition sampleOps : list Op :=
  [ OpCreate (mkCreateData "abc123" "https://example.com/" (Some 5000));
    OpAddClick "abc123" (click "10.0.0.1");
    OpAddClick "abc123" (click "10.0.0.2");
    OpAddClick "abc123" (click "10.0.0.1");
    OpFind "nope";
    OpCleanup ].

(** [N] sequential [addClick] calls on one shortcode, keeping each answer. *)
Fixpoint addClicks (clock : nat -> Z) (key : string) (cds : list ClickData)
    (s : State) : list (Outcome bool) * State :=
  match cds with
  | [] => ([], s)
  | cd :: rest =>
      let (answer, s1) := addClick clock key cd s in
      let (answers, s2) := addClicks clock key rest s1 in
      (answer :: answers, s2)
  end.

(** The clicks pushed by successful [addClick] calls made in the order of
    [cds], the first of them starting at clock read [t]: each call reads the
    clock twice, for the expiry check and for the timestamp. *)
Fixpoint clicksInCallOrder (clock : nat -> Z) (t : nat) (cds : list ClickData)
  : list Click :=
  match cds with
  | [] => []
  | cd :: rest => clickOf clock (S t) cd :: clicksInCallOrder clock (S (S t)) rest
  end.

(** [o] is a findByShortcode, addClick or getAnalytics call for [key]. *)
Definition isLookupOf (key : string) (o : Op) : Prop :=
  match o with
  | OpFind k | OpGetAnalytics k | OpAddClick k _ => k = key
  | OpCreate _ | OpCleanup => False
  end.

(** [o] is a create call for [key]. *)
Definition isCreateOf (key : string) (o : Op) : Prop :=
  match o with
  | OpCreate data => data_shortcode data = key
  | _ => False
  end.

(** The lookup [o], made in state [s], answers not found ([null], [false]). *)
Definition answersNotFound (clock : nat -> Z) (o : Op) (s : State) : Prop :=
  match o with
  | OpFind k => (findByShortcode clock k s).1 = Return None
  | OpAddClick k cd => (addClick clock k cd s).1 = Return false
  | OpGetAnalytics k => (getAnalytics clock k s).1 = Return None
  | OpCreate _ | OpCleanup => False
  end.

(** The clock never runs backwards. *)
Definition monotone (clock : nat -> Z) : Prop :=
  forall i j, (i <= j)%nat -> clock i <= clock j.

(** Since the [n]-th clock read, the record of [key] is absent or still
    carries the expiry [e]. *)
Definition lapsed (key : string) (e : Z) (n : nat) (s : State) : Prop :=
  (n <= clockReads s)%nat /\
  (urls s !! key = None \/
   exists u, urls s !! key = Some u /\ expiresAt u = e).

(** The shortcode built by [generateShortcode] from the random bytes
    numbered [d], [d+1], ..., appended to [result]. *)
Fixpoint drawCode (entropy : nat -> byte) (d n : nat) (result : string)
  : string :=
  match n with
  | O => result
  | S m =>
      drawCode entropy (S d) m
        (result +:+ charAt chars
           (Byte.to_nat (entropy d) mod String.length chars)%nat)
  end.

(** The state after [n] more random bytes have been drawn. *)
Definition drawn (n : nat) (s : State) : State :=
  mkState (urls s) (analytics s) (clockReads s) (bytesDrawn s + n).

(** A stand-in for the platform's URL parser in the concrete checks: it
    accepts what starts with a scheme it knows and leaves the text as is. *)
Definition sampleURL (url : string) : option UrlObject :=
  if String.prefix "https://" url then Some (mkUrlObject "https:" url)
  else if String.prefix "http://" url then Some (mkUrlObject "http:" url)
  else if String.prefix "ftp://" url then Some (mkUrlObject "ftp:" url)
  else None.

Definition sampleBase : string := "http://localhost:5000".

(** A random source that always yields the byte [0], hence the code
    ["aaaaaa"]. *)
Definition stuckEntropy (n : nat) : byte := x00.

Definition visit (code : string) : RedirectRequest :=
  mkRedirectRequest code (Some "10.0.0.1"%string) (Some "curl/8"%string) None.

(** A store in which the only code [stuckEntropy] can produce is live. *)
Definition crowdedStore : State :=
  mkState {[ "aaaaaa"%string :=
               mkUrlEntry "aaaaaa" "aaaaaa" "https://example.com/"
                          9000000 1000 [] ]}
          {[ "aaaaaa"%string := mkAnalytics 0 0 ]} 0 0.

(** The state after [attempts] colliding attempts of the allocator: one
    clock read and six random bytes each. *)
Definition exhausted (attempts : nat) (s : State) : State :=
  mkState (urls s) (analytics s) (clockReads s + attempts)
          (bytesDrawn s + 6 * attempts).

(** The validity window, in minutes, that a request body asks for. *)
Definition windowMinutes (v : Validity) : Z := default 30 (validityArgument v).

(** The request body of the concrete checks. *)
Definition sampleBody (v : Validity) : CreateBody :=
  mkCreateBody (Some "https://example.com/"%string) v (Some "abc12"%string).

(** ** Vocabulary of the further properties *)

(** A record whose [expiresAt] lies before [now]. *)
Definition expiredAt (now : Z) (e : string * UrlEntry) : Prop :=
  now > expiresAt e.2.

#[global] Instance expiredAt_dec (now : Z) (e : string * UrlEntry) :
  Decision (expiredAt now e) := decide (now > expiresAt e.2).

(** A store with one stale record, one live record and one record that
    expires exactly at 5000. *)
Definition mixedStore : State :=
  mkState
    {[ "old001"%string :=
         mkUrlEntry "old001" "old001" "https://example.com/a" 2000 1000 [];
       "new001"%string :=
         mkUrlEntry "new001" "new001" "https://example.com/b" 9000 1000 [];
       "edge01"%string :=
         mkUrlEntry "edge01" "edge01" "https://example.com/c" 5000 1000 [] ]}
    {[ "old001"%string := mkAnalytics 0 0;
       "new001"%string := mkAnalytics 0 0;
       "edge01"%string := mkAnalytics 0 0 ]} 0 0.

(** [chars[randomByte % chars.length]], the symbol a random byte selects in
    [generateShortcode]. *)
Definition symbolOf (b : byte) : string :=
  charAt chars (Byte.to_nat b mod String.length chars)%nat.

(** The 256 values of a byte. *)
Definition byteValues : list byte := omap Byte.of_nat (seq 0 256).

(** How many byte values select the [i]-th symbol of [chars]. *)
Definition preimages (i : nat) : nat :=
  length (filter (fun b => symbolOf b = charAt chars i) byteValues).

(** The four messages [UrlService.createShortUrl] can throw. *)
Definition serviceMessages : list string :=
  [ "Invalid URL format";
    "Custom shortcode must be alphanumeric and between 3-20 characters";
    "Custom shortcode already exists";
    "Unable to generate unique shortcode after maximum attempts" ]%string.

(** [new URL(url)] succeeds with an http or https scheme. *)
Definition acceptedUrl (URL : string -> option UrlObject) (url : string)
  : Prop :=
  exists urlObj, URL url = Some urlObj /\
                 protocol urlObj ∈ ["http:"; "https:"]%string.

(** The [clickData] that [redirectToUrl] passes to [recordClick]. *)
Definition clickDataOf (req : RedirectRequest) : ClickData :=
  mkClickData (req_userAgent req) (req_ip req) (req_referer req).

(** The state after a successful [addClick] on [key] whose expiry check is
    the [t]-th read of the clock. *)
Definition clicked (clock : nat -> Z) (key : string) (u : UrlEntry)
    (a : Analytics) (cd : ClickData) (t : nat) (s : State) : State :=
  let u' := pushClick u (clickOf clock (S t) cd) in
  mkState (<[key := u']> (urls s))
          (<[key := mkAnalytics (S (totalClicks a))
                                (uniqueIpCount (clicks u'))]> (analytics s))
          (S (S t)) (bytesDrawn s).

(** [u'] is [u] with possibly more clicks appended: every other field is
    the same and the old clicks are a prefix of the new ones. *)
Definition grownFrom (u u' : UrlEntry) : Prop :=
  id u' = id u /\ shortcode u' = shortcode u /\
  originalUrl u' = originalUrl u /\ expiresAt u' = expiresAt u /\
  createdAt u' = createdAt u /\ clicks u `prefix_of` clicks u'.

(** Between [s] and [s'] the record stored under [key], if it is still
    stored, has only grown. *)
Definition onlyGrown (key : string) (s s' : State) : Prop :=
  forall u', urls s' !! key = Some u' ->
             exists u, urls s !! key = Some u /\ grownFrom u u'.

(** The instants of a record, in the order the record lists them:
    [createdAt], then the timestamps of its clicks. *)
Definition instants (u : UrlEntry) : list Z :=
  createdAt u :: (timestamp <$> clicks u).

(** Every instant of every stored record was read from the clock, and the
    instants of each record were read in the order they are listed. *)
Definition readInOrder (clock : nat -> Z) (s : State) : Prop :=
  forall k u, urls s !! k = Some u ->
    exists reads : list nat,
      instants u = clock <$> reads /\
      StronglySorted lt reads /\
      Forall (fun t => (t < clockReads s)%nat) reads.

(** Every stored record sits under its own shortcode. *)
Definition keyed (s : State) : Prop :=
  forall k u, urls s !! k = Some u -> shortcode u = k /\ id u = k.

(** * LoggingMiddleware (the logging-middleware package)

    The queue and the retry loop of the class.  [logEntry] objects are kept
    abstract: the code below only reads their [level].  Console output is
    left out, and so is the [localStorage] branch, which a Node process
    never takes.  [flushLogs] is an [async] function: what runs up to its
    [await] is [flushLogsBegin]; what runs after a failed
    [sendLogsWithRetry] is [flushLogsFailed]. *)

Module LoggingMiddleware.

(** The members of [this.config] read by the queue and the retry loop. *)
Record Config : Type := mkConfig {
  batchSize : nat;
  retryAttempts : nat;
  retryDelay : nat
}.

(** How a [sendLogsWithRetry] call ended: whether the promise resolved, how
    many POSTs it made and the delays, in milliseconds, it slept between
    them. *)
Record Delivery : Type := mkDelivery {
  resolved : bool;
  posts : nat;
  delays : list nat
}.

Section Middleware.

Context {Entry : Type}.
(** [logEntry.level] *)
Variable level : Entry -> string.
Variable config : Config.

(** [flushLogs], up to the [await]: nothing happens on an empty queue;
    otherwise the queue is copied into [logsToSend] and emptied.  The
    result is the new queue and the batch handed to [sendLogsWithRetry]. *)
Definition flushLogsBegin (logQueue : list Entry)
  : list Entry * option (list Entry) :=
  if bool_decide (length logQueue = 0%nat) then (logQueue, None)
  else ([], Some logQueue).

(** [flushLogs], the [catch] block: [this.logQueue.unshift(...logsToSend)]. *)
Definition flushLogsFailed (logsToSend logQueue : list Entry) : list Entry :=
  logsToSend ++ logQueue.

(** [processLogEntry] *)
Definition processLogEntry (logEntry : Entry) (logQueue : list Entry)
  : list Entry * option (list Entry) :=
  let logQueue := logQueue ++ [logEntry] in
  if bool_decide (level logEntry = "fatal"%string) then
    flushLogsBegin logQueue
  else if bool_decide (batchSize config <= length logQueue)%nat then
    flushLogsBegin logQueue
  else (logQueue, None).

(** [getQueueSize] *)
Definition getQueueSize (logQueue : list Entry) : nat := length logQueue.

(** Whether the k-th POST of one flush resolves (k counted from 0). *)
Variable post : nat -> bool.

(** [sendLogsWithRetry(batchRequest, attempt)].  [remaining] is
    [retryAttempts - attempt], on which the recursion descends:
    [attempt < retryAttempts] holds exactly when it is not zero. *)
Fixpoint sendLogsWithRetryFrom (remaining attempt : nat) : Delivery :=
  if post (attempt - 1)%nat then mkDelivery true attempt []
  else
    match remaining with
    | O => mkDelivery false attempt []
    | S fewer =>
        let rest := sendLogsWithRetryFrom fewer (S attempt) in
        mkDelivery (resolved rest) (posts rest)
                   ((retryDelay config * attempt)%nat :: delays rest)
    end.

Definition sendLogsWithRetry : Delivery :=
  sendLogsWithRetryFrom (retryAttempts config - 1)%nat 1.

End Middleware.

(** What can happen to a logger, one event at a time: an entry is logged,
    the flush timer fires, or the [i]-th flush still in flight settles. *)
Inductive Event (Entry : Type) : Type :=
| Logged (logEntry : Entry)
| TimerFired
| Settled (i : nat) (ok : bool).
Arguments Logged {Entry} logEntry.
Arguments TimerFired {Entry}.
Arguments Settled {Entry} i ok.

(** The logger's queue, the batches handed to flushes that have not settled
    yet, and the entries of the batches whose flush resolved. *)
Record Books (Entry : Type) : Type := mkBooks {
  logQueue : list Entry;
  inFlight : list (list Entry);
  acknowledged : list Entry
}.
Arguments mkBooks {Entry} logQueue inFlight acknowledged.
Arguments logQueue {Entry} b.
Arguments inFlight {Entry} b.
Arguments acknowledged {Entry} b.

Section EventLoop.

Context {Entry : Type}.
Variable level : Entry -> string.
Variable config : Config.

Definition started (batch : option (list Entry)) : list (list Entry) :=
  match batch with
  | Some logsToSend => [logsToSend]
  | None => []
  end.

Definition handle (b : Books Entry) (ev : Event Entry) : Books Entry :=
  match ev with
  | Logged logEntry =>
      let (queue, batch) := processLogEntry level config logEntry (logQueue b) in
      mkBooks queue (inFlight b ++ started batch) (acknowledged b)
  | TimerFired =>
      let (queue, batch) := flushLogsBegin (logQueue b) in
      mkBooks queue (inFlight b ++ started batch) (acknowledged b)
  | Settled i ok =>
      match inFlight b !! i with
      | None => b
      | Some logsToSend =>
          if ok then
            mkBooks (logQueue b) (delete i (inFlight b))
                    (acknowledged b ++ logsToSend)
          else
            mkBooks (flushLogsFailed logsToSend (logQueue b))
                    (delete i (inFlight b)) (acknowledged b)
      end
  end.

Definition handleAll (events : list (Event Entry)) (b : Books Entry)
  : Books Entry :=
  fold_left handle events b.

(** The entries logged by a sequence of events, in order. *)
Definition loggedEntries (events : list (Event Entry)) : list Entry :=
  omap (fun ev => match ev with Logged e => Some e | _ => None end) events.

End EventLoop.

End LoggingMiddleware.

(** Everything the logger still answers for: the acknowledged entries, the
    batches in flight and the queue. *)
Definition bookkeeping {Entry : Type} (b : LoggingMiddleware.Books Entry)
  : list Entry :=
  LoggingMiddleware.acknowledged b ++
  concat (LoggingMiddleware.inFlight b) ++
  LoggingMiddleware.logQueue b.

(** A network on which only the POST numbered [k] resolves. *)
Definition onlyPost (k : nat) (i : nat) : bool := (i =? k)%nat.

(** A network on which no POST resolves. *)
Definition noPost (i : nat) : bool := false.

(** * Logger (middleware/logger.js)

    The file logger.  The disk is a map from file names (inside the log
    directory) to contents; [fs.appendFileSync] appends to the content, an
    absent file counting as empty.  What [JSON.stringify] prints for
    [{timestamp, level, message, ...metadata}] is a parameter. *)

Module Logger.

Record Disk : Type := mkDisk {
  files : gmap string string;
  diskClockReads : nat
}.

Section Files.

Context {Metadata : Type}.
Variable clock : nat -> Z.
(** [JSON.stringify({timestamp, level, message, ...metadata})], the
    timestamp being the ISO rendering of the given instant. *)
Variable stringify : Z -> string -> string -> Metadata -> string.

(** [formatMessage]: one read of the clock. *)
Definition formatMessage (level message : string) (metadata : Metadata)
    (d : Disk) : string * Disk :=
  let timestamp := clock (diskClockReads d) in
  (stringify timestamp level message metadata +:+ String "010"%char "",
   mkDisk (files d) (S (diskClockReads d))).

(** [writeToFile] *)
Definition writeToFile (filename content : string) (d : Disk) : Disk :=
  mkDisk (<[filename := default ""%string (files d !! filename) +:+ content]>
            (files d))
         (diskClockReads d).

Definition info (message : string) (metadata : Metadata) (d : Disk) : Disk :=
  let (logMessage, d) := formatMessage "INFO" message metadata d in
  writeToFile "app.log" logMessage d.

Definition error (message : string) (metadata : Metadata) (d : Disk) : Disk :=
  let (logMessage, d) := formatMessage "ERROR" message metadata d in
  let d := writeToFile "error.log" logMessage d in
  writeToFile "app.log" logMessage d.

Definition warn (message : string) (metadata : Metadata) (d : Disk) : Disk :=
  let (logMessage, d) := formatMessage "WARN" message metadata d in
  writeToFile "app.log" logMessage d.

Definition debug (message : string) (metadata : Metadata) (d : Disk) : Disk :=
  let (logMessage, d) := formatMessage "DEBUG" message metadata d in
  writeToFile "debug.log" logMessage d.

End Files.

End Logger.

(** One call of the file logger. *)
Inductive LoggerCall (Metadata : Type) : Type :=
| CallInfo (message : string) (metadata : Metadata)
| CallError (message : string) (metadata : Metadata)
| CallWarn (message : string) (metadata : Metadata)
| CallDebug (message : string) (metadata : Metadata).
Arguments CallInfo {Metadata} message metadata.
Arguments CallError {Metadata} message metadata.
Arguments CallWarn {Metadata} message metadata.
Arguments CallDebug {Metadata} message metadata.

Section LoggerRuns.

Context {Metadata : Type}.
Variable clock : nat -> Z.
Variable stringify : Z -> string -> string -> Metadata -> string.

Definition perform (d : Logger.Disk) (c : LoggerCall Metadata) : Logger.Disk :=
  match c with
  | CallInfo message metadata => Logger.info clock stringify message metadata d
  | CallError message metadata => Logger.error clock stringify message metadata d
  | CallWarn message metadata => Logger.warn clock stringify message metadata d
  | CallDebug message metadata => Logger.debug clock stringify message metadata d
  end.

Definition performAll (calls : list (LoggerCall Metadata)) (d : Logger.Disk)
  : Logger.Disk :=
  fold_left perform calls d.

(** The line a call writes when its clock read is the [t]-th. *)
Definition lineOf (t : nat) (c : LoggerCall Metadata) : string :=
  match c with
  | CallInfo message metadata => stringify (clock t) "INFO" message metadata
  | CallError message metadata => stringify (clock t) "ERROR" message metadata
  | CallWarn message metadata => stringify (clock t) "WARN" message metadata
  | CallDebug message metadata => stringify (clock t) "DEBUG" message metadata
  end +:+ String "010"%char "".

(** The files a call writes to, in the order it writes to them. *)
Definition targets (c : LoggerCall Metadata) : list string :=
  match c with
  | CallInfo _ _ | CallWarn _ _ => ["app.log"]
  | CallError _ _ => ["error.log"; "app.log"]
  | CallDebug _ _ => ["debug.log"]
  end%string.

(** What the calls [calls], the first of which reads the clock at [t],
    write to the file [filename], in order. *)
Fixpoint written (filename : string) (t : nat)
    (calls : list (LoggerCall Metadata)) : string :=
  match calls with
  | [] => ""
  | c :: rest =>
      (if bool_decide (filename ∈ targets c) then lineOf t c else "") +:+
      written filename (S t) rest
  end.

End LoggerRuns.

Definition emptyDisk : Logger.Disk := Logger.mkDisk ∅ 0.

(** The content of a file, an absent file counting as empty. *)
Definition contentOf (filename : string) (d : Logger.Disk) : string :=
  default ""%string (Logger.files d !! filename).

(** * The error handlers (middleware/errorHandler.js)

    The members of an error object that [globalErrorHandler] reads.  [None]
    is [undefined]; numbers are integers.  The handler's state is that of
    the file logger it calls: the log files and the clock. *)

Record ErrorObject : Type := mkErrorObject {
  err_name : string;
  err_message : string;
  err_stack : string;
  (** the [message] of each member of [err.errors] *)
  err_errors : option (list string);
  err_code : option Z;
  (** the members of [err.keyValue], in the order of [Object.keys] *)
  err_keyValue : option (list (string * string));
  (** [err instanceof SyntaxError] *)
  err_isSyntaxError : bool;
  (** ['body' in err] *)
  err_hasBody : bool;
  err_statusCode : option Z;
  err_status : option Z
}.

Inductive ErrorDetails : Type :=
| NoDetails
| ValidationDetails (errors : list string)
| DebugDetails (stack name : string).

(** The JSON body of an error answer; [eb_timestamp] is the instant whose
    ISO rendering is sent. *)
Record ErrorBody : Type := mkErrorBody {
  eb_error : string;
  eb_message : string;
  eb_details : ErrorDetails;
  eb_timestamp : Z
}.

Record ErrorResponse : Type := mkErrorResponse {
  er_status : Z;
  er_body : ErrorBody
}.

(** [a || b] on numbers: [undefined] and [0] are falsy. *)
Definition orNumber (a : option Z) (b : Z) : Z :=
  match a with
  | Some v => if bool_decide (v = 0) then b else v
  | None => b
  end.

(** [a || b] on strings: [''] is falsy. *)
Definition orString (a b : string) : string :=
  match a with
  | EmptyString => b
  | _ => a
  end.

(** A member of an object printed in a template literal. *)
Definition printed (x : option string) : string :=
  match x with
  | Some v => v
  | None => "undefined"%string
  end.

(** The members of the request that [globalErrorHandler] logs. *)
Record ErrorRequest : Type := mkErrorRequest {
  ereq_requestId : option string;
  ereq_url : string;
  ereq_method : string
}.

(** The metadata of the log entry that opens [globalErrorHandler]. *)
Record ErrorMetadata : Type := mkErrorMetadata {
  md_requestId : option string;
  md_error : string;
  md_stack : string;
  md_url : string;
  md_method : string
}.

(** [new Date()] beside the file logger: one more read of the clock that
    [Logger.formatMessage] reads. *)
Definition diskNewDate (clock : nat -> Z) (d : Logger.Disk)
  : Z * Logger.Disk :=
  (clock (Logger.diskClockReads d),
   Logger.mkDisk (Logger.files d) (S (Logger.diskClockReads d))).

Module ErrorHandler.

Section Handlers.

Variable clock : nat -> Z.
(** [JSON.stringify] of the file logger, see [Logger]. *)
Variable stringify : Z -> string -> string -> ErrorMetadata -> string.
(** [process.env.NODE_ENV] *)
Variable NODE_ENV : option string.

(** [res.status(status).json({error, message, details, timestamp: new
    Date().toISOString()})] *)
Definition respond (status : Z) (error message : string)
    (details : ErrorDetails) (d : Logger.Disk)
  : Outcome ErrorResponse * Logger.Disk :=
  let (now, d) := diskNewDate clock d in
  (Return (mkErrorResponse status (mkErrorBody error message details now)), d).

(** *** globalErrorHandler *)
Definition globalErrorHandler (req : ErrorRequest) (err : ErrorObject)
    (d : Logger.Disk) : Outcome ErrorResponse * Logger.Disk :=
  let d :=
    Logger.error clock stringify "Global error handler triggered"
      (mkErrorMetadata (ereq_requestId req) (err_message err) (err_stack err)
                       (ereq_url req) (ereq_method req)) d in
  if bool_decide (err_name err = "ValidationError"%string) then
    match err_errors err with
    | None => (Throw "Cannot convert undefined or null to object", d)
    | Some errors =>
        respond 400 "Validation Error" "Invalid input data"
                (ValidationDetails errors) d
    end
  else if bool_decide (err_code err = Some 11000) then
    match err_keyValue err with
    | None => (Throw "Cannot convert undefined or null to object", d)
    | Some keyValue =>
        let field := fst <$> head keyValue in
        let value := snd <$> head keyValue in
        respond 409 "Conflict"
                (printed field +:+ " '" +:+ printed value +:+
                 "' already exists")
                NoDetails d
    end
  else if bool_decide (err_name err = "JsonWebTokenError"%string) then
    respond 401 "Unauthorized" "Invalid token" NoDetails d
  else if bool_decide (err_name err = "TokenExpiredError"%string) then
    respond 401 "Unauthorized" "Token expired" NoDetails d
  else if err_isSyntaxError err && bool_decide (err_status err = Some 400)
          && err_hasBody err then
    respond 400 "Bad Request" "Invalid JSON format" NoDetails d
  else
    let statusCode := orNumber (err_statusCode err)
                        (orNumber (err_status err) 500) in
    let message := orString (err_message err) "Internal Server Error" in
    let error := if bool_decide (statusCode >= 500)
                 then "Internal Server Error"%string else "Error"%string in
    let shown :=
      if bool_decide (statusCode >= 500) &&
         bool_decide (NODE_ENV = Some "production"%string)
      then "Something went wrong on our end"%string else message in
    let details :=
      if bool_decide (NODE_ENV = Some "development"%string)
      then DebugDetails (err_stack err) (err_name err) else NoDetails in
    respond statusCode error shown details d.

End Handlers.

End ErrorHandler.

(** * Utilities (utils) *)

Module Utils.

Section Helpers.

Variable entropy : nat -> byte.
Variable URL : string -> option UrlObject.

(** *** isValidUrl *)
Definition isValidUrl (url : string) : bool :=
  match URL url with
  | Some urlObj => bool_decide (protocol urlObj ∈ ["http:"; "https:"]%string)
  | None => false
  end.

(** [chars[randomByte % chars.length]] used in a string concatenation; on
    an empty [chars] the index is [NaN] and the member is [undefined]. *)
Definition pick (chars : string) (randomByte : byte) : string :=
  if bool_decide (String.length chars = 0%nat) then "undefined"%string
  else charAt chars (Byte.to_nat randomByte mod String.length chars)%nat.

(** The [for] loop of [generateRandomString], [remaining = length - i]. *)
Fixpoint generateRandomStringLoop (chars : string) (remaining : nat)
    (result : string) : Js string :=
  match remaining with
  | O => ret result
  | S n =>
      let! randomByte := cryptoRandomByte entropy in
      generateRandomStringLoop chars n (result +:+ pick chars randomByte)
  end.

(** *** generateRandomString; the defaults of the source are [length = 8]
    and the alphabet [chars] of the service. *)
Definition generateRandomString (length : nat) (chars : string) : Js string :=
  generateRandomStringLoop chars length "".

(** *** isValidShortcode, on a string *)
Definition isValidShortcode (code : string) : bool := shortcodeFormat code.

End Helpers.

End Utils.

(** The characters of a string. *)
Fixpoint characters (s : string) : list ascii :=
  match s with
  | EmptyString => []
  | String c rest => c :: characters rest
  end.

(** [n] copies of a string, one after the other. *)
Fixpoint repeated (n : nat) (s : string) : string :=
  match n with
  | O => ""
  | S m => s +:+ repeated m s
  end.

(** An error as a failed database query might raise it. *)
Definition sampleError : ErrorObject :=
  mkErrorObject "MongoServerError" "connect ECONNREFUSED db.internal:27017"
                "at Connection.connect (db.js:42)" None None None
                false false None None.

(** The request during which [sampleError] was raised. *)
Definition sampleErrorRequest : ErrorRequest :=
  mkErrorRequest (Some "req-1"%string) "/shorturls" "POST".

(** A rendering of log entries that prints the level, the message, and the
    error with its stack. *)
Definition sampleStringify (t : Z) (level message : string)
    (metadata : ErrorMetadata) : string :=
  level +:+ " " +:+ message +:+ ": " +:+ md_error metadata +:+ " " +:+
  md_stack metadata.

(** The log line of the handler's opening call. *)
Definition errorLine (clock : nat -> Z)
    (stringify : Z -> string -> string -> ErrorMetadata -> string)
    (req : ErrorRequest) (err : ErrorObject) (d : Logger.Disk) : string :=
  stringify (clock (Logger.diskClockReads d)) "ERROR"
            "Global error handler triggered"
            (mkErrorMetadata (ereq_requestId req) (err_message err)
                             (err_stack err) (ereq_url req) (ereq_method req))
  +:+ String "010"%char "".

(** * Properties *)

(** Unfolds the monadic plumbing of a store method applied to a state. *)
Ltac js_unfold :=
  unfold bind, ret, throw, tryCatch, urlsGet, urlsHas, urlsSet, urlsDelete,
    urlsEntries, analyticsGet, analyticsSet, analyticsDelete, newDate;
  simpl.

Section StoreFacts.

Variable clock : nat -> Z.

Lemma findByShortcode_missing key s :
  urls s !! key = None -> findByShortcode clock key s = (Return None, s).
Proof. intros H. unfold findByShortcode. js_unfold. now rewrite H. Qed.

Lemma findByShortcode_expired key s u :
  urls s !! key = Some u -> clock (clockReads s) > expiresAt u ->
  findByShortcode clock key s = (Return None, evicted key s).
Proof.
  intros H Hexp. unfold findByShortcode. js_unfold. rewrite H.
  now rewrite bool_decide_eq_true_2.
Qed.

Lemma findByShortcode_live key s u :
  urls s !! key = Some u -> clock (clockReads s) <= expiresAt u ->
  findByShortcode clock key s = (Return (Some u), ticked s).
Proof.
  intros H Hlive. unfold findByShortcode. js_unfold. rewrite H.
  rewrite bool_decide_eq_false_2; [reflexivity | lia].
Qed.

Lemma addClick_missing key cd s :
  urls s !! key = None -> addClick clock key cd s = (Return false, s).
Proof. intros H. unfold addClick. js_unfold. now rewrite H. Qed.

Lemma addClick_expired key cd s u :
  urls s !! key = Some u -> clock (clockReads s) > expiresAt u ->
  addClick clock key cd s = (Return false, evicted key s).
Proof.
  intros H Hexp. unfold addClick. js_unfold. rewrite H.
  now rewrite bool_decide_eq_true_2.
Qed.

Lemma addClick_live key cd s u a :
  urls s !! key = Some u -> analytics s !! key = Some a ->
  clock (clockReads s) <= expiresAt u ->
  addClick clock key cd s =
    (Return true,
     let u' := pushClick u (clickOf clock (S (clockReads s)) cd) in
     mkState (<[key := u']> (urls s))
             (<[key := mkAnalytics (S (totalClicks a))
                                   (uniqueIpCount (clicks u'))]> (analytics s))
             (S (S (clockReads s))) (bytesDrawn s)).
Proof.
  intros H Ha Hlive. unfold addClick. js_unfold. rewrite H.
  rewrite bool_decide_eq_false_2 by lia. simpl. now rewrite Ha.
Qed.

Lemma getAnalytics_missing key s :
  urls s !! key = None -> getAnalytics clock key s = (Return None, s).
Proof. intros H. unfold getAnalytics. js_unfold. now rewrite H. Qed.

Lemma getAnalytics_expired key s u :
  urls s !! key = Some u -> clock (clockReads s) > expiresAt u ->
  getAnalytics clock key s = (Return None, evicted key s).
Proof.
  intros H Hexp. unfold getAnalytics. js_unfold. rewrite H.
  now rewrite bool_decide_eq_true_2.
Qed.

Lemma getAnalytics_live key s u a :
  urls s !! key = Some u -> analytics s !! key = Some a ->
  clock (clockReads s) <= expiresAt u ->
  getAnalytics clock key s =
    (Return (Some (mkReport key (originalUrl u) (createdAt u) (expiresAt u)
                            (totalClicks a) (uniqueClicks a) (clicks u))),
     ticked s).
Proof.
  intros H Ha Hlive. unfold getAnalytics. js_unfold. rewrite H.
  rewrite bool_decide_eq_false_2 by lia. simpl. now rewrite Ha.
Qed.

Lemma create_present data s u :
  urls s !! data_shortcode data = Some u ->
  create clock data s = (Throw "Shortcode already exists", s).
Proof.
  intros H. unfold create. js_unfold.
  rewrite bool_decide_eq_true_2; [reflexivity | eauto].
Qed.

Lemma create_fresh key url e s :
  urls s !! key = None ->
  create clock (mkCreateData key url (Some e)) s =
    (Return (mkUrlEntry key key url e (clock (clockReads s)) []),
     mkState (<[key := mkUrlEntry key key url e (clock (clockReads s)) []]>
                (urls s))
             (<[key := mkAnalytics 0 0]> (analytics s))
             (S (clockReads s)) (bytesDrawn s)).
Proof.
  intros H. unfold create. js_unfold.
  rewrite bool_decide_eq_false_2; [reflexivity |].
  rewrite H. intros [? ?]; discriminate.
Qed.

Lemma create_fresh_default key url s :
  urls s !! key = None ->
  create clock (mkCreateData key url None) s =
    (let e := mkUrlEntry key key url
                (clock (clockReads s) + 30 * 60 * 1000)
                (clock (S (clockReads s))) [] in
     (Return e,
      mkState (<[key := e]> (urls s))
              (<[key := mkAnalytics 0 0]> (analytics s))
              (S (S (clockReads s))) (bytesDrawn s))).
Proof.
  intros H. unfold create. js_unfold.
  rewrite bool_decide_eq_false_2; [reflexivity |].
  rewrite H. intros [? ?]; discriminate.
Qed.

End StoreFacts.

(** ** The sweep *)

Section Sweep.

Variable clock : nat -> Z.

Lemma forEach_evict (l : list string) (s : State) :
  exists s',
    forEach l evict s = (Return tt, s') /\
    clockReads s' = clockReads s /\
    bytesDrawn s' = bytesDrawn s /\
    forall k,
      urls s' !! k = (if decide (k ∈ l) then None else urls s !! k) /\
      analytics s' !! k =
        (if decide (k ∈ l) then None else analytics s !! k).
Proof.
  revert s. induction l as [|x l IH]; intros s.
  - exists s. repeat split; try reflexivity;
      destruct (decide (k ∈ [])) as [Hin|_]; auto; inversion Hin.
  - destruct (IH (mkState (delete x (urls s)) (delete x (analytics s))
                          (clockReads s) (bytesDrawn s)))
      as (s' & Hrun & Hc & Hb & Hlook).
    exists s'. split.
    { simpl. unfold bind at 1. unfold evict at 1. js_unfold. exact Hrun. }
    split; [exact Hc|]. split; [exact Hb|].
    intros k. destruct (Hlook k) as [Hu Ha]. simpl in Hu, Ha.
    rewrite Hu, Ha.
    destruct (decide (k ∈ l)) as [Hin|Hnin].
    + rewrite !decide_True by (now apply list_elem_of_further). auto.
    + destruct (decide (k = x)) as [->|Hne].
      * rewrite !decide_True by (apply list_elem_of_here).
        now rewrite !lookup_delete_eq.
      * rewrite !decide_False
          by (intros [->|?]%elem_of_cons; [congruence | contradiction]).
        now rewrite !lookup_delete_ne by congruence.
Qed.

Lemma elem_of_expiredKeys now m k :
  k ∈ expiredKeys now m <->
  exists u, m !! k = Some u /\ now > expiresAt u.
Proof.
  unfold expiredKeys. rewrite list_elem_of_fmap. split.
  - intros ([k' u] & -> & Hin). apply list_elem_of_filter in Hin as [Hexp Hin].
    apply elem_of_map_to_list in Hin. exists u. auto.
  - intros (u & Hk & Hexp). exists (k, u). split; [reflexivity|].
    apply list_elem_of_filter. split; [exact Hexp|].
    now apply elem_of_map_to_list.
Qed.

Lemma cleanupExpired_spec s :
  exists s',
    cleanupExpired clock s =
      (Return (length (expiredKeys (clock (clockReads s)) (urls s))), s') /\
    clockReads s' = S (clockReads s) /\
    bytesDrawn s' = bytesDrawn s /\
    forall k,
      urls s' !! k =
        (if decide (k ∈ expiredKeys (clock (clockReads s)) (urls s))
         then None else urls s !! k) /\
      analytics s' !! k =
        (if decide (k ∈ expiredKeys (clock (clockReads s)) (urls s))
         then None else analytics s !! k).
Proof.
  destruct (forEach_evict (expiredKeys (clock (clockReads s)) (urls s))
                          (ticked s))
    as (s' & Hrun & Hc & Hb & Hlook).
  exists s'. split; [|split; [exact Hc|split; [exact Hb|exact Hlook]]].
  change (cleanupExpired clock s)
    with ((forEach (expiredKeys (clock (clockReads s)) (urls s)) evict ;;;
           ret (length (expiredKeys (clock (clockReads s)) (urls s))))
            (ticked s)).
  unfold bind at 1. rewrite Hrun. reflexivity.
Qed.

End Sweep.

(** ** The store invariant *)

Lemma storeInv_empty : storeInv emptyStore.
Proof.
  split.
  - intros k. simpl. rewrite !lookup_empty. split; intros [? ?]; discriminate.
  - intros k u a H. simpl in H. rewrite lookup_empty in H. discriminate.
Qed.

Lemma storeInv_counters s c b :
  storeInv s -> storeInv (mkState (urls s) (analytics s) c b).
Proof. intros H. exact H. Qed.

Lemma storeInv_delete s key c b :
  storeInv s ->
  storeInv (mkState (delete key (urls s)) (delete key (analytics s)) c b).
Proof.
  intros [Hdom Hcnt]. split; simpl.
  - intros k. destruct (decide (k = key)) as [->|Hne].
    + rewrite !lookup_delete_eq. split; intros [? ?]; discriminate.
    + rewrite !lookup_delete_ne by congruence. apply Hdom.
  - intros k u a. destruct (decide (k = key)) as [->|Hne].
    + rewrite lookup_delete_eq. discriminate.
    + rewrite !lookup_delete_ne by congruence. apply Hcnt.
Qed.

Lemma storeInv_insert s key u a c b :
  storeInv s ->
  totalClicks a = length (clicks u) ->
  uniqueClicks a = uniqueIpCount (clicks u) ->
  storeInv (mkState (<[key := u]> (urls s)) (<[key := a]> (analytics s)) c b).
Proof.
  intros [Hdom Hcnt] Ht Hu. split; simpl.
  - intros k. destruct (decide (k = key)) as [->|Hne].
    + rewrite !lookup_insert_eq. split; eauto.
    + rewrite !lookup_insert_ne by congruence. apply Hdom.
  - intros k u' a'. destruct (decide (k = key)) as [->|Hne].
    + rewrite !lookup_insert_eq. intros [= <-] [= <-]. auto.
    + rewrite !lookup_insert_ne by congruence. apply Hcnt.
Qed.

Lemma storeInv_analytics s key u :
  storeInv s -> urls s !! key = Some u ->
  exists a, analytics s !! key = Some a /\
            totalClicks a = length (clicks u) /\
            uniqueClicks a = uniqueIpCount (clicks u).
Proof.
  intros [Hdom Hcnt] Hu.
  destruct (proj1 (Hdom key)) as [a Ha]; [eauto|].
  exists a. split; [exact Ha|]. eapply Hcnt; eauto.
Qed.

Section Preservation.

Variable clock : nat -> Z.

Lemma create_inv data s : storeInv s -> storeInv (create clock data s).2.
Proof.
  intros Hinv. destruct data as [key url e].
  destruct (urls s !! key) as [u|] eqn:Hk.
  - erewrite create_present by (simpl; eauto). exact Hinv.
  - destruct e as [e|].
    + rewrite create_fresh by exact Hk. simpl.
      now apply storeInv_insert.
    + rewrite create_fresh_default by exact Hk. simpl.
      now apply storeInv_insert.
Qed.

Lemma findByShortcode_inv key s :
  storeInv s -> storeInv (findByShortcode clock key s).2.
Proof.
  intros Hinv. destruct (urls s !! key) as [u|] eqn:Hk.
  - destruct (decide (clock (clockReads s) > expiresAt u)) as [He|Hl].
    + erewrite findByShortcode_expired by eauto.
      now apply storeInv_delete.
    + erewrite findByShortcode_live by (eauto; lia). exact Hinv.
  - now rewrite findByShortcode_missing.
Qed.

Lemma addClick_inv key cd s :
  storeInv s -> storeInv (addClick clock key cd s).2.
Proof.
  intros Hinv. destruct (urls s !! key) as [u|] eqn:Hk.
  - destruct (decide (clock (clockReads s) > expiresAt u)) as [He|Hl].
    + erewrite addClick_expired by eauto. now apply storeInv_delete.
    + destruct (storeInv_analytics s key u Hinv Hk) as (a & Ha & Ht & _).
      erewrite addClick_live by (eauto; lia). simpl.
      apply storeInv_insert; [exact Hinv| |reflexivity].
      simpl. rewrite length_app, Ht. simpl. lia.
  - now rewrite addClick_missing.
Qed.

Lemma getAnalytics_inv key s :
  storeInv s -> storeInv (getAnalytics clock key s).2.
Proof.
  intros Hinv. destruct (urls s !! key) as [u|] eqn:Hk.
  - destruct (decide (clock (clockReads s) > expiresAt u)) as [He|Hl].
    + erewrite getAnalytics_expired by eauto. now apply storeInv_delete.
    + destruct (storeInv_analytics s key u Hinv Hk) as (a & Ha & _).
      erewrite getAnalytics_live by (eauto; lia). exact Hinv.
  - now rewrite getAnalytics_missing.
Qed.

Lemma cleanupExpired_inv s :
  storeInv s -> storeInv (cleanupExpired clock s).2.
Proof.
  intros [Hdom Hcnt].
  destruct (cleanupExpired_spec clock s) as (s' & -> & _ & _ & Hlook).
  simpl. split.
  - intros k. destruct (Hlook k) as [-> ->].
    destruct (decide _); [|apply Hdom].
    split; intros [? ?]; discriminate.
  - intros k u a. destruct (Hlook k) as [-> ->].
    destruct (decide _); [discriminate|apply Hcnt].
Qed.

Lemma step_inv s o : storeInv s -> storeInv (step clock s o).
Proof.
  destruct o; simpl;
    auto using create_inv, findByShortcode_inv, addClick_inv,
               getAnalytics_inv, cleanupExpired_inv.
Qed.

Lemma run_inv ops s : storeInv s -> storeInv (run clock ops s).
Proof.
  revert s. induction ops as [|o ops IH]; intros s Hinv; simpl.
  - exact Hinv.
  - apply IH, step_inv, Hinv.
Qed.

End Preservation.

(** ** Liveness of a stored record *)

(** C4 (as amended): for every stored record, [findByShortcode] returns the
    record if and only if the clock reading of the lookup is not past
    [expiresAt] ([now <= expiresAt]); otherwise it answers [null] and the
    record is gone from both maps.  At the instant [now = expiresAt] the
    record is still returned. *)
Theorem findByShortcode_live_iff (clock : nat -> Z) (s : State) (key : string)
    (u : UrlEntry) :
  urls s !! key = Some u ->
  ((findByShortcode clock key s).1 = Return (Some u) <->
   clock (clockReads s) <= expiresAt u) /\
  ((findByShortcode clock key s).1 = Return None <->
   clock (clockReads s) > expiresAt u) /\
  (clock (clockReads s) > expiresAt u ->
   urls (findByShortcode clock key s).2 !! key = None /\
   analytics (findByShortcode clock key s).2 !! key = None).
Proof.
  intros Hk.
  destruct (decide (clock (clockReads s) > expiresAt u)) as [He|Hl].
  - rewrite (findByShortcode_expired clock key s u Hk He). simpl.
    repeat split; try (intros; discriminate || lia || reflexivity).
    + apply lookup_delete_eq.
    + apply lookup_delete_eq.
  - rewrite (findByShortcode_live clock key s u Hk) by lia. simpl.
    repeat split; try (intros; discriminate || lia || reflexivity).
    all: intros; lia.
Qed.

(** At the very instant 5000 the record expiring at 5000 is still returned. *)
Lemma findByShortcode_live_iff_witness :
  (findByShortcode (frozenClock 5000) "abc123" sampleStore).1
    = Return (Some sampleEntry) <->
  frozenClock 5000 (clockReads sampleStore) <= expiresAt sampleEntry.
Proof.
  apply (findByShortcode_live_iff (frozenClock 5000) sampleStore "abc123"
                                  sampleEntry).
  reflexivity.
Defined.

(** C4 (as stated) fails at the instant [now = expiresAt]: the record is
    returned although [now < expiresAt] does not hold. *)
Lemma findByShortcode_at_expiry_instant :
  ~ ((findByShortcode (frozenClock 5000) "abc123" sampleStore).1
       = Return (Some sampleEntry) <->
     frozenClock 5000 (clockReads sampleStore) < expiresAt sampleEntry).
Proof.
  intros [Hret _].
  assert (H : frozenClock 5000 (clockReads sampleStore) < expiresAt sampleEntry)
    by (apply Hret; vm_compute; reflexivity).
  vm_compute in H. discriminate.
Qed.

(** ** The two maps stay in step *)

(** C10: after any sequence of create, findByShortcode, addClick,
    getAnalytics and cleanupExpired calls on the initially empty store, a
    shortcode is a key of [urls] iff it is a key of [analytics], every
    analytics entry's [totalClicks] is the length of its record's [clicks],
    and therefore [addClick] never throws on a missing analytics entry. *)
Theorem urls_and_analytics_agree (clock : nat -> Z) (ops : list Op) :
  let s := run clock ops emptyStore in
  (forall k, is_Some (urls s !! k) <-> is_Some (analytics s !! k)) /\
  (forall k u a,
      urls s !! k = Some u -> analytics s !! k = Some a ->
      totalClicks a = length (clicks u)) /\
  (forall k cd, exists b s', addClick clock k cd s = (Return b, s')).
Proof.
  intros s.
  assert (Hinv : storeInv s) by apply run_inv, storeInv_empty.
  split; [apply Hinv|]. split.
  - intros k u a Hu Ha. now apply (proj2 Hinv k u a).
  - intros k cd. destruct (urls s !! k) as [u|] eqn:Hk.
    + destruct (decide (clock (clockReads s) > expiresAt u)) as [He|Hl].
      * erewrite addClick_expired by eauto. eauto.
      * destruct (storeInv_analytics s k u Hinv Hk) as (a & Ha & _).
        erewrite addClick_live by (eauto; lia). eauto.
    + rewrite addClick_missing by exact Hk. eauto.
Qed.

(** The maps after [sampleOps]. *)
Lemma urls_and_analytics_agree_witness :
  (is_Some (urls (run (tickingClock 1000) sampleOps emptyStore) !! "abc123")
   <-> is_Some (analytics (run (tickingClock 1000) sampleOps emptyStore)
                  !! "abc123")) /\
  totalClicks (mkAnalytics 3 2)
  = length [ clickOf (tickingClock 1000) 2 (click "10.0.0.1");
             clickOf (tickingClock 1000) 4 (click "10.0.0.2");
             clickOf (tickingClock 1000) 6 (click "10.0.0.1") ] /\
  (exists b s',
      addClick (tickingClock 1000) "abc123" (click "10.0.0.3")
               (run (tickingClock 1000) sampleOps emptyStore)
      = (Return b, s')).
Proof.
  pose proof (urls_and_analytics_agree (tickingClock 1000) sampleOps)
    as (Hkeys & Htotal & Hsafe).
  split; [apply Hkeys|]. split; [|apply Hsafe].
  apply (Htotal "abc123"%string
           (mkUrlEntry "abc123" "abc123" "https://example.com/" 5000 1000
              [ clickOf (tickingClock 1000) 2 (click "10.0.0.1");
                clickOf (tickingClock 1000) 4 (click "10.0.0.2");
                clickOf (tickingClock 1000) 6 (click "10.0.0.1") ])
           (mkAnalytics 3 2)).
  - vm_compute. reflexivity.
  - vm_compute. reflexivity.
Defined.

(** ** Unique clickers *)

(** C6: for every live record of a store reached by store calls,
    [getAnalytics] reports the record's clicks together with a
    [uniqueClicks] equal to the number of distinct [ip] values among them
    (the size of the set of those values). *)
Theorem uniqueClicks_is_distinct_ips (clock : nat -> Z) (ops : list Op)
    (key : string) (u : UrlEntry) :
  let s := run clock ops emptyStore in
  urls s !! key = Some u ->
  clock (clockReads s) <= expiresAt u ->
  exists report,
    getAnalytics clock key s = (Return (Some report), ticked s) /\
    r_clicks report = clicks u /\
    r_totalClicks report = length (clicks u) /\
    r_uniqueClicks report
      = size (list_to_set (ip <$> clicks u) : gset string).
Proof.
  intros s Hk Hl.
  assert (Hinv : storeInv s) by apply run_inv, storeInv_empty.
  destruct (storeInv_analytics s key u Hinv Hk) as (a & Ha & Ht & Hu).
  eexists. split.
  - apply getAnalytics_live; eauto.
  - simpl. auto.
Qed.

(** Three clicks from two addresses count as two unique clickers. *)
Lemma uniqueClicks_is_distinct_ips_witness :
  exists report,
    getAnalytics (tickingClock 1000) "abc123"
      (run (tickingClock 1000) sampleOps emptyStore)
      = (Return (Some report),
         ticked (run (tickingClock 1000) sampleOps emptyStore)) /\
    length (r_clicks report) = 3%nat /\
    r_uniqueClicks report = 2%nat.
Proof.
  destruct (uniqueClicks_is_distinct_ips (tickingClock 1000) sampleOps "abc123"
              (mkUrlEntry "abc123" "abc123" "https://example.com/" 5000 1000
                 [ clickOf (tickingClock 1000) 2 (click "10.0.0.1");
                   clickOf (tickingClock 1000) 4 (click "10.0.0.2");
                   clickOf (tickingClock 1000) 6 (click "10.0.0.1") ]))
    as (report & Hrun & Hclicks & _ & Huniq).
  - vm_compute. reflexivity.
  - vm_compute. discriminate.
  - exists report. split; [exact Hrun|]. split.
    + rewrite Hclicks. reflexivity.
    + rewrite Huniq. vm_compute. reflexivity.
Defined.

(** ** Click accumulation *)

Lemma addClick_false_cases (clock : nat -> Z) (key : string) (cd : ClickData)
    (s : State) :
  (addClick clock key cd s).1 = Return false ->
  (addClick clock key cd s).2 = s \/ (addClick clock key cd s).2 = evicted key s.
Proof.
  destruct (urls s !! key) as [u|] eqn:Hk.
  - destruct (decide (clock (clockReads s) > expiresAt u)) as [He|Hl].
    + rewrite (addClick_expired clock key cd s u Hk He). auto.
    + unfold addClick. js_unfold. rewrite Hk.
      rewrite bool_decide_eq_false_2 by exact Hl. simpl.
      destruct (analytics s !! key); simpl; discriminate.
  - rewrite (addClick_missing clock key cd s Hk). auto.
Qed.

(** C7: [N] sequential successful [addClick] calls on a stored record append
    exactly [N] clicks, in call order, after the clicks already recorded and
    add [N] to [totalClicks] (so a fresh record ends with a count of [N] and
    [N] clicks); an [addClick] that answers [false] leaves every record and
    every analytics entry that is still stored as it was. *)
Theorem addClick_accumulates (clock : nat -> Z) (key : string) :
  (forall (cds : list ClickData) (s : State) (u : UrlEntry) (a : Analytics),
      urls s !! key = Some u ->
      analytics s !! key = Some a ->
      (addClicks clock key cds s).1 = (fun _ => Return true) <$> cds ->
      exists u' a',
        urls (addClicks clock key cds s).2 !! key = Some u' /\
        analytics (addClicks clock key cds s).2 !! key = Some a' /\
        clicks u' = clicks u ++ clicksInCallOrder clock (clockReads s) cds /\
        length (clicks u') = (length (clicks u) + length cds)%nat /\
        totalClicks a' = (totalClicks a + length cds)%nat) /\
  (forall (cd : ClickData) (s : State),
      (addClick clock key cd s).1 = Return false ->
      (forall k e, urls (addClick clock key cd s).2 !! k = Some e ->
                   urls s !! k = Some e) /\
      (forall k a, analytics (addClick clock key cd s).2 !! k = Some a ->
                   analytics s !! k = Some a)).
Proof.
  split.
  - induction cds as [|cd rest IH]; intros s u a Hk Ha Hall.
    + exists u, a. simpl. rewrite app_nil_r, !Nat.add_0_r. auto.
    + simpl in Hall |- *.
      destruct (decide (clock (clockReads s) > expiresAt u)) as [He|Hl].
      { rewrite (addClick_expired clock key cd s u Hk He) in Hall.
        destruct (addClicks clock key rest (evicted key s)).
        simpl in Hall. discriminate. }
      rewrite (addClick_live clock key cd s u a Hk Ha) in Hall |- * by lia.
      cbv zeta in Hall |- *.
      set (u1 := pushClick u (clickOf clock (S (clockReads s)) cd)) in *.
      set (a1 := mkAnalytics (S (totalClicks a)) (uniqueIpCount (clicks u1)))
        in *.
      set (s1 := mkState _ _ _ _) in *.
      specialize (IH s1 u1 a1).
      destruct (addClicks clock key rest s1) as [answers s2] eqn:Hrest.
      simpl in Hall |- *. injection Hall as Hall.
      destruct IH as (u' & a' & Hu' & Ha' & Hclicks & Hlen & Htot).
      * subst s1. simpl. apply lookup_insert_eq.
      * subst s1. simpl. apply lookup_insert_eq.
      * exact Hall.
      * exists u', a'. split; [exact Hu'|]. split; [exact Ha'|].
        subst s1 u1 a1. simpl in *. rewrite <- app_assoc in Hclicks.
        rewrite length_app in Hlen. simpl in *.
        split; [exact Hclicks|]. lia.
  - intros cd s Hfalse.
    destruct (addClick_false_cases clock key cd s Hfalse) as [-> | ->].
    + auto.
    + unfold evicted. simpl. split; intros k x Hx.
      * apply lookup_delete_Some in Hx. tauto.
      * apply lookup_delete_Some in Hx. tauto.
Qed.

(** Three clicks on [sampleStore], recorded in call order. *)
Lemma addClick_accumulates_witness :
  exists u' a',
    urls (addClicks (tickingClock 1000) "abc123"
            [click "10.0.0.1"; click "10.0.0.2"; click "10.0.0.1"]
            sampleStore).2 !! "abc123" = Some u' /\
    ip <$> clicks u' = ["10.0.0.1"; "10.0.0.2"; "10.0.0.1"]%string /\
    totalClicks a' = 3%nat.
Proof.
  destruct (proj1 (addClick_accumulates (tickingClock 1000) "abc123")
              [click "10.0.0.1"; click "10.0.0.2"; click "10.0.0.1"]
              sampleStore sampleEntry (mkAnalytics 0 0))
    as (u' & a' & Hu' & _ & Hclicks & _ & Htot).
  - reflexivity.
  - reflexivity.
  - vm_compute. reflexivity.
  - exists u', a'. split; [exact Hu'|]. split.
    + rewrite Hclicks. reflexivity.
    + exact Htot.
Defined.

(** ** Expiry is permanent *)

Section Expiry.

Variable clock : nat -> Z.

(** What a store call on shortcode [k] can do to the record of another
    shortcode, and to the count of clock reads. *)
Lemma findByShortcode_frame k key s :
  k <> key ->
  urls (findByShortcode clock k s).2 !! key = urls s !! key /\
  (clockReads s <= clockReads (findByShortcode clock k s).2)%nat.
Proof.
  intros Hne. unfold findByShortcode. js_unfold.
  destruct (urls s !! k) as [u|]; simpl; [|auto].
  case_bool_decide; simpl; [|auto].
  rewrite lookup_delete_ne by exact Hne. auto.
Qed.

Lemma addClick_frame k cd key s :
  k <> key ->
  urls (addClick clock k cd s).2 !! key = urls s !! key /\
  (clockReads s <= clockReads (addClick clock k cd s).2)%nat.
Proof.
  intros Hne. unfold addClick. js_unfold.
  destruct (urls s !! k) as [u|]; simpl; [|auto].
  case_bool_decide; simpl.
  - rewrite lookup_delete_ne by exact Hne. auto.
  - destruct (analytics s !! k); simpl;
      rewrite lookup_insert_ne by exact Hne; auto.
Qed.

Lemma getAnalytics_frame k key s :
  k <> key ->
  urls (getAnalytics clock k s).2 !! key = urls s !! key /\
  (clockReads s <= clockReads (getAnalytics clock k s).2)%nat.
Proof.
  intros Hne. unfold getAnalytics. js_unfold.
  destruct (urls s !! k) as [u|]; simpl; [|auto].
  case_bool_decide; simpl.
  - rewrite lookup_delete_ne by exact Hne. auto.
  - destruct (analytics s !! k); simpl; auto.
Qed.

Lemma create_frame data key s :
  data_shortcode data <> key ->
  urls (create clock data s).2 !! key = urls s !! key /\
  (clockReads s <= clockReads (create clock data s).2)%nat.
Proof.
  intros Hne. destruct data as [k url e]. simpl in Hne.
  destruct (urls s !! k) as [u|] eqn:Hk.
  - erewrite create_present by (simpl; eauto). auto.
  - destruct e as [e|].
    + rewrite create_fresh by exact Hk. simpl.
      rewrite lookup_insert_ne by exact Hne. auto.
    + rewrite create_fresh_default by exact Hk. simpl.
      rewrite lookup_insert_ne by exact Hne. auto.
Qed.

Hypothesis clock_monotone : monotone clock.

Lemma lookup_lapsed key e n s o :
  clock n > e -> lapsed key e n s -> isLookupOf key o ->
  answersNotFound clock o s /\
  urls (step clock s o) !! key = None /\
  (n <= clockReads (step clock s o))%nat.
Proof.
  intros Hpast [Hn Hrec] Hlook.
  assert (Hnow : clock (clockReads s) > e).
  { pose proof (clock_monotone n (clockReads s) Hn). lia. }
  destruct o as [d|k|k cd|k|]; simpl in Hlook; try contradiction; subst k;
    simpl; destruct Hrec as [Hnone | (u & Hu & He)].
  - rewrite findByShortcode_missing by exact Hnone. auto.
  - rewrite (findByShortcode_expired clock key s u Hu) by lia. simpl.
    rewrite lookup_delete_eq. auto.
  - rewrite addClick_missing by exact Hnone. auto.
  - rewrite (addClick_expired clock key cd s u Hu) by lia. simpl.
    rewrite lookup_delete_eq. auto.
  - rewrite getAnalytics_missing by exact Hnone. auto.
  - rewrite (getAnalytics_expired clock key s u Hu) by lia. simpl.
    rewrite lookup_delete_eq. auto.
Qed.

Lemma step_lapsed key e n s o :
  clock n > e -> lapsed key e n s -> ~ isCreateOf key o ->
  lapsed key e n (step clock s o).
Proof.
  intros Hpast Hl Hnc.
  assert (Hframe :
    urls (step clock s o) !! key = urls s !! key /\
    (clockReads s <= clockReads (step clock s o))%nat ->
    lapsed key e n (step clock s o)).
  { intros [Heq Hle]. destruct Hl as [Hn Hrec]. split; [lia|].
    rewrite Heq. exact Hrec. }
  destruct o as [d|k|k cd|k|]; simpl in Hnc.
  - apply Hframe. simpl. now apply create_frame.
  - destruct (decide (k = key)) as [->|Hne].
    + destruct (lookup_lapsed key e n s (OpFind key) Hpast Hl eq_refl)
        as (_ & Hnone & Hle).
      split; auto.
    + apply Hframe. simpl. now apply findByShortcode_frame.
  - destruct (decide (k = key)) as [->|Hne].
    + destruct (lookup_lapsed key e n s (OpAddClick key cd) Hpast Hl eq_refl)
        as (_ & Hnone & Hle).
      split; auto.
    + apply Hframe. simpl. now apply addClick_frame.
  - destruct (decide (k = key)) as [->|Hne].
    + destruct (lookup_lapsed key e n s (OpGetAnalytics key) Hpast Hl eq_refl)
        as (_ & Hnone & Hle).
      split; auto.
    + apply Hframe. simpl. now apply getAnalytics_frame.
  - destruct Hl as [Hn Hrec]. simpl.
    destruct (cleanupExpired_spec clock s) as (s' & -> & Hc & _ & Hlook).
    simpl. split; [lia|]. rewrite (proj1 (Hlook key)).
    destruct (decide _); auto.
Qed.

Lemma run_lapsed key e n ops s :
  clock n > e -> lapsed key e n s ->
  Forall (fun o => ~ isCreateOf key o) ops ->
  lapsed key e n (run clock ops s).
Proof.
  intros Hpast Hl Hops. revert s Hl.
  induction Hops as [|o ops Ho _ IH]; intros s Hl; simpl.
  - exact Hl.
  - apply IH, step_lapsed; assumption.
Qed.

End Expiry.

(** C3: with a clock that never runs backwards, once the clock has passed a
    record's [expiresAt], every findByShortcode, addClick and getAnalytics
    call for its shortcode answers not found, however many store calls
    (lookups, sweeps, creations under other shortcodes) have been made in
    between, and the record is absent from [urls] when the call returns; in
    particular the first such call removes it. *)
Theorem expired_record_stays_not_found (clock : nat -> Z) (s : State)
    (key : string) (u : UrlEntry) (ops : list Op) (o : Op) :
  monotone clock ->
  urls s !! key = Some u ->
  clock (clockReads s) > expiresAt u ->
  Forall (fun o' => ~ isCreateOf key o') ops ->
  isLookupOf key o ->
  answersNotFound clock o (run clock ops s) /\
  urls (step clock (run clock ops s) o) !! key = None.
Proof.
  intros Hmono Hk Hpast Hops Hlook.
  assert (Hl : lapsed key (expiresAt u) (clockReads s) s).
  { split; [lia|]. right. eauto. }
  pose proof (run_lapsed clock Hmono key _ _ ops s Hpast Hl Hops) as Hl'.
  destruct (lookup_lapsed clock Hmono key _ _ _ o Hpast Hl' Hlook)
    as (Hnf & Hnone & _).
  auto.
Qed.

Lemma tickingClock_monotone (t0 : Z) : monotone (tickingClock t0).
Proof. intros i j Hij. unfold tickingClock. lia. Qed.

(** After ["abc123"] has expired, a click on it is refused, whatever happened in between. *)
Lemma expired_record_stays_not_found_witness :
  answersNotFound (tickingClock 6000) (OpAddClick "abc123" (click "10.0.0.1"))
    (run (tickingClock 6000)
         [OpFind "abc123"; OpGetAnalytics "abc123"; OpCleanup;
          OpCreate (mkCreateData "other" "https://example.org/" None)]
         sampleStore) /\
  urls (step (tickingClock 6000)
          (run (tickingClock 6000)
               [OpFind "abc123"; OpGetAnalytics "abc123"; OpCleanup;
                OpCreate (mkCreateData "other" "https://example.org/" None)]
               sampleStore)
          (OpAddClick "abc123" (click "10.0.0.1"))) !! "abc123" = None.
Proof.
  apply (expired_record_stays_not_found (tickingClock 6000) sampleStore
           "abc123" sampleEntry).
  - apply tickingClock_monotone.
  - reflexivity.
  - vm_compute. reflexivity.
  - repeat constructor; simpl; try tauto. discriminate.
  - reflexivity.
Defined.

(** ** Plumbing of the service *)

Lemma bind_Return {A B : Type} (m : Js A) (k : A -> Js B) s b s' :
  bind m k s = (Return b, s') ->
  exists a s1, m s = (Return a, s1) /\ k a s1 = (Return b, s').
Proof.
  unfold bind. destruct (m s) as [[a|msg] s1]; intros H.
  - eauto.
  - discriminate.
Qed.

Lemma bind_step {A B : Type} (m : Js A) (k : A -> Js B) s a s1 :
  m s = (Return a, s1) -> bind m k s = k a s1.
Proof. intros H. unfold bind. now rewrite H. Qed.

Lemma shortcodeFormat_truthy code :
  shortcodeFormat code = true -> truthy (Some code) = true.
Proof. destruct code; [discriminate | reflexivity]. Qed.

Section ServiceFacts.

Variable clock : nat -> Z.
Variable entropy : nat -> byte.
Variable URL : string -> option UrlObject.
Variable BASE_URL : string.

Lemma findByShortcode_None code s s1 :
  findByShortcode clock code s = (Return None, s1) ->
  urls s1 !! code = None /\
  (s1 = s \/ exists u, urls s !! code = Some u /\
                       clock (clockReads s) > expiresAt u /\
                       s1 = evicted code s).
Proof.
  destruct (urls s !! code) as [u|] eqn:Hk.
  - destruct (decide (clock (clockReads s) > expiresAt u)) as [He|Hl].
    + rewrite (findByShortcode_expired clock code s u Hk He).
      intros [= <-]. simpl. rewrite lookup_delete_eq. eauto 6.
    + rewrite (findByShortcode_live clock code s u Hk) by lia. discriminate.
  - rewrite (findByShortcode_missing clock code s Hk). intros [= <-]. auto.
Qed.

Lemma validateAndNormalizeUrl_ok url urlObj s :
  URL url = Some urlObj ->
  protocol urlObj ∈ ["http:"; "https:"]%string ->
  validateAndNormalizeUrl URL url s = (Return (href urlObj), s).
Proof.
  intros Hparse Hproto. unfold validateAndNormalizeUrl, tryCatch.
  rewrite Hparse. rewrite bool_decide_eq_true_2 by exact Hproto. reflexivity.
Qed.

Lemma generateShortcodeLoop_spec n result s :
  generateShortcodeLoop entropy n result s =
    (Return (drawCode entropy (bytesDrawn s) n result), drawn n s).
Proof.
  revert result s. induction n as [|n IH]; intros result s; simpl.
  - unfold ret, drawn. rewrite Nat.add_0_r. now destruct s.
  - unfold bind at 1, cryptoRandomByte at 1. rewrite IH. unfold drawn. simpl.
    do 2 f_equal. lia.
Qed.

Lemma generateShortcode_spec n s :
  generateShortcode entropy n s =
    (Return (drawCode entropy (bytesDrawn s) n ""), drawn n s).
Proof. apply generateShortcodeLoop_spec. Qed.

(** The custom-shortcode path of [createShortUrl], once the lookup has
    answered [null]. *)
Lemma createShortUrl_custom url urlObj validity code s s1 :
  URL url = Some urlObj ->
  protocol urlObj ∈ ["http:"; "https:"]%string ->
  shortcodeFormat code = true ->
  findByShortcode clock code s = (Return None, s1) ->
  createShortUrl clock entropy URL BASE_URL
    (mkShortUrlData url validity (Some code)) s =
  (let expires := clock (clockReads s1) + default 30 validity * 60 * 1000 in
   let fresh := mkUrlEntry code code (href urlObj) expires
                           (clock (S (clockReads s1))) [] in
   (Return (mkShortUrl code (href urlObj) (BASE_URL +:+ "/" +:+ code)
                       expires (createdAt fresh)),
    mkState (<[code := fresh]> (urls s1))
            (<[code := mkAnalytics 0 0]> (analytics s1))
            (S (S (clockReads s1))) (bytesDrawn s1))).
Proof.
  intros Hparse Hproto Hfmt Hfind.
  destruct (findByShortcode_None code s s1 Hfind) as [Hfree _].
  unfold createShortUrl. cbn [sd_url sd_validity sd_shortcode orEmpty].
  rewrite (bind_step _ _ _ _ _
             (validateAndNormalizeUrl_ok url urlObj s Hparse Hproto)).
  rewrite (shortcodeFormat_truthy code Hfmt), Hfmt. cbn [negb].
  unfold bind at 1. unfold bind at 1. rewrite Hfind.
  unfold ret at 1. unfold bind at 1.
  unfold calculateExpiryDate. js_unfold.
  pose proof (create_fresh clock code (href urlObj)
                (clock (clockReads s1) + default 30 validity * 60 * 1000)
                (ticked s1) Hfree) as Hcreate.
  unfold ticked in Hcreate. simpl in Hcreate. rewrite Hcreate. reflexivity.
Qed.

End ServiceFacts.

(** ** Reuse of a stale shortcode *)

(** The expiry dates of the validities that POST /shorturls admits are valid
    dates on any clock reading that is itself a valid date at least a week
    before the end of the range. *)
Lemma validTime_within_a_week (t minutes : Z) :
  validTime t ->
  t <= 8640000000000000 - 10080 * 60 * 1000 ->
  0 < minutes <= 10080 ->
  validTime (t + minutes * 60 * 1000).
Proof. unfold validTime. lia. Qed.




(** ** Redirects *)

(** What [GET /:shortcode] answers for a stored record: the lookup reads the
    clock first (read [n]), the handler's own expiry test reads it again
    (read [n+1]). *)
Lemma redirectToUrl_stored (clock : nat -> Z) (s : State)
    (req : RedirectRequest) (u : UrlEntry) :
  truthy (Some (params_shortcode req)) = true ->
  urls s !! params_shortcode req = Some u ->
  let answer := (UrlController.redirectToUrl clock req s).1 in
  (clock (clockReads s) > expiresAt u ->
   answer = Return (mkResponse 404
                      (ErrorJson "Not Found" "Short URL not found"))) /\
  (clock (clockReads s) <= expiresAt u ->
   clock (S (clockReads s)) > expiresAt u ->
   answer = Return (mkResponse 410
                      (ErrorJson "Gone" "Short URL has expired"))).
Proof.
  intros Htruthy Hk. split.
  - intros Hpast. unfold UrlController.redirectToUrl, tryCatch, getUrlByShortcode.
    rewrite Htruthy. cbn [negb].
    unfold bind at 1. unfold bind at 1.
    rewrite (findByShortcode_expired clock _ s u Hk Hpast). reflexivity.
  - intros Hlive Hlapsed. unfold UrlController.redirectToUrl, tryCatch, getUrlByShortcode.
    rewrite Htruthy. cbn [negb].
    unfold bind at 1. unfold bind at 1.
    rewrite (findByShortcode_live clock _ s u Hk Hlive).
    unfold ret at 1. unfold bind at 1. unfold newDate at 1, ticked.
    cbn [clockReads]. rewrite bool_decide_eq_true_2 by exact Hlapsed.
    reflexivity.
Qed.

(** C2: the record of ["abc123"] expired at 5000; a redirect request made
    at 6000 is answered 404, not 410, and the record is evicted. *)
Theorem redirect_to_expired_answers_404 :
  urls sampleStore !! "abc123" = Some sampleEntry /\
  expiresAt sampleEntry < tickingClock 6000 (clockReads sampleStore) /\
  UrlController.redirectToUrl (tickingClock 6000) (visit "abc123") sampleStore
  = (Return (mkResponse 404 (ErrorJson "Not Found" "Short URL not found")),
     evicted "abc123" sampleStore).
Proof. repeat split; vm_compute; reflexivity. Qed.

(** ** The allocator's retry loop *)

Section Allocator.

Variable clock : nat -> Z.
Variable entropy : nat -> byte.

Lemma generateUniqueShortcode_step n s :
  generateUniqueShortcodeLoop clock entropy (S n) s =
    match findByShortcode clock (drawCode entropy (bytesDrawn s) 6 "")
                          (drawn 6 s) with
    | (Return None, s1) =>
        (Return (drawCode entropy (bytesDrawn s) 6 ""), s1)
    | (Return (Some _), s1) => generateUniqueShortcodeLoop clock entropy n s1
    | (Throw message, s1) => (Throw message, s1)
    end.
Proof.
  cbn [generateUniqueShortcodeLoop]. unfold bind at 1.
  rewrite generateShortcode_spec. unfold bind at 1.
  destruct (findByShortcode clock _ (drawn 6 s)) as [[[e|]|msg] s1];
    reflexivity.
Qed.

Lemma generateUniqueShortcode_free n s code s' :
  generateUniqueShortcodeLoop clock entropy n s = (Return code, s') ->
  urls s' !! code = None.
Proof.
  revert s. induction n as [|n IH]; intros s.
  - discriminate.
  - rewrite generateUniqueShortcode_step.
    destruct (findByShortcode clock _ (drawn 6 s)) as [[[e|]|msg] s1] eqn:Hfind.
    + apply IH.
    + intros [= <- <-].
      now destruct (findByShortcode_None clock _ _ _ Hfind).
    + discriminate.
Qed.

Lemma generateUniqueShortcode_exhausted n s :
  (forall i, (i < n)%nat ->
     exists u,
       urls s !! drawCode entropy (bytesDrawn s + 6 * i) 6 "" = Some u /\
       clock (clockReads s + i)%nat <= expiresAt u) ->
  generateUniqueShortcodeLoop clock entropy n s =
    (Throw "Unable to generate unique shortcode after maximum attempts",
     exhausted n s).
Proof.
  revert s. induction n as [|n IH]; intros s Hall.
  - simpl. unfold throw, exhausted. rewrite !Nat.add_0_r. now destruct s.
  - rewrite generateUniqueShortcode_step.
    destruct (Hall 0%nat) as (u & Hu & Hlive); [lia|].
    rewrite Nat.mul_0_r, !Nat.add_0_r in *.
    rewrite (findByShortcode_live clock _ (drawn 6 s) u) by assumption.
    rewrite IH.
    + unfold exhausted, ticked, drawn.
      cbn [urls analytics clockReads bytesDrawn]. do 2 f_equal; lia.
    + intros i Hi. destruct (Hall (S i)) as (v & Hv & Hvlive); [lia|].
      exists v. unfold ticked, drawn.
      cbn [urls analytics clockReads bytesDrawn].
      replace (bytesDrawn s + 6 + 6 * i)%nat
        with (bytesDrawn s + 6 * S i)%nat by lia.
      replace (S (clockReads s) + i)%nat with (clockReads s + S i)%nat by lia.
      auto.
Qed.

End Allocator.

(** C5: a shortcode returned by [generateUniqueShortcode] is not in the
    store when the call returns (so it is not live); and when each of the
    [maxAttempts] generated codes collides with a live record, the call
    throws after exactly [maxAttempts] attempts: [6 * maxAttempts] random
    bytes drawn, [maxAttempts] lookups made, the store left as it was. *)
Theorem generateUniqueShortcode_bounded (clock : nat -> Z)
    (entropy : nat -> byte) (maxAttempts : nat) (s : State) :
  (forall code s',
      generateUniqueShortcode clock entropy maxAttempts s = (Return code, s') ->
      urls s' !! code = None) /\
  ((forall attempt, (attempt < maxAttempts)%nat ->
      exists u,
        urls s !! drawCode entropy (bytesDrawn s + 6 * attempt) 6 "" = Some u /\
        clock (clockReads s + attempt)%nat <= expiresAt u) ->
   generateUniqueShortcode clock entropy maxAttempts s =
     (Throw "Unable to generate unique shortcode after maximum attempts",
      exhausted maxAttempts s)).
Proof.
  split.
  - intros code s'. apply generateUniqueShortcode_free.
  - apply generateUniqueShortcode_exhausted.
Qed.

(** Ten collisions in [crowdedStore] exhaust the allocator; on the empty store what it returns is free. *)
Lemma generateUniqueShortcode_bounded_witness :
  generateUniqueShortcode (tickingClock 1000) stuckEntropy 10 crowdedStore =
    (Throw "Unable to generate unique shortcode after maximum attempts",
     mkState (urls crowdedStore) (analytics crowdedStore) 10 60) /\
  (forall code s',
      generateUniqueShortcode (tickingClock 1000) stuckEntropy 10 emptyStore
        = (Return code, s') ->
      urls s' !! code = None).
Proof.
  split.
  - apply (proj2 (generateUniqueShortcode_bounded (tickingClock 1000)
                    stuckEntropy 10 crowdedStore)).
    intros attempt Hlt.
    exists (mkUrlEntry "aaaaaa" "aaaaaa" "https://example.com/" 9000000 1000 []).
    split; [reflexivity|].
    unfold tickingClock. simpl. lia.
  - apply (proj1 (generateUniqueShortcode_bounded (tickingClock 1000)
                    stuckEntropy 10 emptyStore)).
Defined.

Example generateUniqueShortcode_first_try :
  generateUniqueShortcode (tickingClock 1000) stuckEntropy 10 emptyStore
  = (Return "aaaaaa"%string, mkState ∅ ∅ 0 6).
Proof. vm_compute. reflexivity. Qed.

(** ** Create, then look up *)

Section Created.

Variable clock : nat -> Z.

Lemma create_Return data s e s1 :
  create clock data s = (Return e, s1) ->
  urls s !! data_shortcode data = None /\
  urls s1 !! data_shortcode data = Some e /\
  shortcode e = data_shortcode data /\
  originalUrl e = data_originalUrl data /\
  createdAt e = clock (pred (clockReads s1)) /\
  clicks e = [] /\
  (forall x, data_expiresAt data = Some x ->
             expiresAt e = x /\ clockReads s1 = S (clockReads s)).
Proof.
  destruct data as [key url x]. cbn [data_shortcode data_originalUrl data_expiresAt].
  destruct (urls s !! key) as [u|] eqn:Hk.
  - erewrite create_present by (simpl; eauto). discriminate.
  - destruct x as [x|].
    + rewrite create_fresh by exact Hk. intros [= <- <-]. simpl.
      rewrite lookup_insert_eq. repeat split; auto; congruence.
    + rewrite create_fresh_default by exact Hk. intros [= <- <-]. simpl.
      rewrite lookup_insert_eq. repeat split; auto; discriminate.
Qed.

Variable entropy : nat -> byte.
Variable URL : string -> option UrlObject.
Variable BASE_URL : string.

(** What a successful [createShortUrl] has done: [k] is the clock read of
    [calculateExpiryDate], the next read is [createdAt]. *)
Lemma createShortUrl_Return data s r s1 :
  createShortUrl clock entropy URL BASE_URL data s = (Return r, s1) ->
  exists k,
    su_expiresAt r = clock k + default 30 (sd_validity data) * 60 * 1000 /\
    su_createdAt r = clock (S k) /\
    urls s1 !! su_shortcode r =
      Some (mkUrlEntry (su_shortcode r) (su_shortcode r) (su_originalUrl r)
                       (su_expiresAt r) (su_createdAt r) []).
Proof.
  unfold createShortUrl. intros H.
  apply bind_Return in H as (normalizedUrl & s2 & _ & H).
  apply bind_Return in H as (code & s3 & _ & H).
  apply bind_Return in H as (expires & s4 & Hcalc & H).
  apply bind_Return in H as (urlDoc & s5 & Hcreate & H).
  unfold ret in H. injection H as <- <-.
  unfold calculateExpiryDate, bind, newDate, ret in Hcalc.
  injection Hcalc as <- <-.
  exists (clockReads s3). cbn [su_expiresAt su_createdAt su_shortcode su_originalUrl].
  destruct (urls (ticked s3) !! code) as [u|] eqn:Hk.
  - erewrite create_present in Hcreate by (simpl; eauto). discriminate.
  - unfold ticked in Hk. rewrite create_fresh in Hcreate by exact Hk.
    injection Hcreate as <- <-. simpl. rewrite lookup_insert_eq. auto.
Qed.

End Created.

(** C8: a successful create followed by [findByShortcode] on the assigned
    shortcode, made before the clock passes the new record's [expiresAt],
    returns a record with the same [originalUrl], [createdAt] and
    [expiresAt] and an empty [clicks]; both for the store's [create] and for
    the service's [createShortUrl] on [(url, validity, customCode)]. *)
Theorem create_then_findByShortcode (clock : nat -> Z) :
  (forall data s e s1,
      create clock data s = (Return e, s1) ->
      clock (clockReads s1) <= expiresAt e ->
      findByShortcode clock (data_shortcode data) s1
        = (Return (Some e), ticked s1) /\
      originalUrl e = data_originalUrl data /\
      clicks e = []) /\
  (forall entropy URL BASE_URL data s r s1,
      createShortUrl clock entropy URL BASE_URL data s = (Return r, s1) ->
      clock (clockReads s1) <= su_expiresAt r ->
      exists found,
        findByShortcode clock (su_shortcode r) s1
          = (Return (Some found), ticked s1) /\
        originalUrl found = su_originalUrl r /\
        createdAt found = su_createdAt r /\
        expiresAt found = su_expiresAt r /\
        clicks found = []).
Proof.
  split.
  - intros data s e s1 Hcreate Hlive.
    destruct (create_Return clock data s e s1 Hcreate)
      as (_ & Hstored & _ & Hurl & _ & Hclicks & _).
    split; [|auto]. now apply findByShortcode_live.
  - intros entropy URL BASE_URL data s r s1 Hcreate Hlive.
    destruct (createShortUrl_Return clock entropy URL BASE_URL data s r s1
                Hcreate) as (k & _ & _ & Hstored).
    eexists. split.
    + apply (findByShortcode_live clock _ s1 _ Hstored). exact Hlive.
    + auto.
Qed.

(** A one-minute link on the empty store, looked up right after its creation. *)
Lemma create_then_findByShortcode_witness :
  exists r s1 found,
    createShortUrl (tickingClock 1000) stuckEntropy sampleURL sampleBase
      (mkShortUrlData "https://example.com/" (Some 1) None) emptyStore
      = (Return r, s1) /\
    findByShortcode (tickingClock 1000) (su_shortcode r) s1
      = (Return (Some found), ticked s1) /\
    originalUrl found = su_originalUrl r /\
    createdAt found = su_createdAt r /\
    expiresAt found = su_expiresAt r /\
    clicks found = [].
Proof.
  assert (Hrun :
    createShortUrl (tickingClock 1000) stuckEntropy sampleURL sampleBase
      (mkShortUrlData "https://example.com/" (Some 1) None) emptyStore
    = (Return (mkShortUrl "aaaaaa" "https://example.com/"
                          "http://localhost:5000/aaaaaa" 61000 1001),
       mkState {[ "aaaaaa"%string :=
                    mkUrlEntry "aaaaaa" "aaaaaa" "https://example.com/"
                               61000 1001 [] ]}
               {[ "aaaaaa"%string := mkAnalytics 0 0 ]} 2 6))
    by (vm_compute; reflexivity).
  destruct (proj2 (create_then_findByShortcode (tickingClock 1000))
              stuckEntropy sampleURL sampleBase _ _ _ _ Hrun)
    as (found & Hfind).
  - vm_compute. discriminate.
  - eauto.
Defined.

(** ** The validity window of POST /shorturls *)

Section Posted.

Variable clock : nat -> Z.
Variable entropy : nat -> byte.
Variable URL : string -> option UrlObject.
Variable BASE_URL : string.

Lemma postShortUrl_rejected body s :
  validityRejected (body_validity body) = true ->
  exists message,
    UrlController.createShortUrl clock entropy URL BASE_URL body s
      = (Return (mkResponse 400 (ErrorJson "Bad Request" message)), s).
Proof.
  intros Hrej. unfold UrlController.createShortUrl, tryCatch.
  destruct (negb (truthy (body_url body))).
  - eexists. reflexivity.
  - rewrite Hrej. eexists. reflexivity.
Qed.

Lemma postShortUrl_accepted url urlObj v code s :
  validityRejected v = false ->
  truthy (Some url) = true ->
  URL url = Some urlObj ->
  protocol urlObj ∈ ["http:"; "https:"]%string ->
  shortcodeFormat code = true ->
  urls s !! code = None ->
  UrlController.createShortUrl clock entropy URL BASE_URL
    (mkCreateBody (Some url) v (Some code)) s =
  (let expires := clock (clockReads s) + windowMinutes v * 60 * 1000 in
   let fresh := mkUrlEntry code code (href urlObj) expires
                           (clock (S (clockReads s))) [] in
   (Return (mkResponse 201
              (ShortUrlJson
                 (mkShortUrl code (href urlObj) (BASE_URL +:+ "/" +:+ code)
                             expires (createdAt fresh)))),
    mkState (<[code := fresh]> (urls s))
            (<[code := mkAnalytics 0 0]> (analytics s))
            (S (S (clockReads s))) (bytesDrawn s))).
Proof.
  intros Hok Htruthy Hparse Hproto Hfmt Hfree.
  unfold UrlController.createShortUrl, tryCatch.
  cbn [body_url body_validity body_shortcode orEmpty].
  rewrite Htruthy, Hok. cbn [negb]. unfold bind at 1.
  rewrite (createShortUrl_custom clock entropy URL BASE_URL url urlObj
             (validityArgument v) code s s Hparse Hproto Hfmt
             (findByShortcode_missing clock code s Hfree)).
  reflexivity.
Qed.

Lemma postShortUrl_201 body s r s1 :
  UrlController.createShortUrl clock entropy URL BASE_URL body s
    = (Return (mkResponse 201 (ShortUrlJson r)), s1) ->
  exists k,
    su_expiresAt r = clock k + windowMinutes (body_validity body) * 60 * 1000 /\
    su_createdAt r = clock (S k).
Proof.
  unfold UrlController.createShortUrl, tryCatch.
  destruct (negb (truthy (body_url body))); [discriminate|].
  destruct (validityRejected (body_validity body)); [discriminate|].
  unfold bind at 1.
  destruct (createShortUrl clock entropy URL BASE_URL _ s) as [[r'|msg] s']
    eqn:Hcreate.
  - unfold ret. intros [= <- <-].
    destruct (createShortUrl_Return clock entropy URL BASE_URL _ s r' s'
                Hcreate) as (k & Hexp & Hcreated & _).
    exists k. auto.
  - destruct (includes msg "already exists"); [discriminate|].
    destruct (includes msg "shortcode" || includes msg "URL"); discriminate.
Qed.

End Posted.

(** C9 (as amended): POST /shorturls answers 400 to a validity of 10081 and
    of 0 and leaves the store alone; it accepts a validity of exactly 10080,
    and of an omitted one, for which the window is 30 minutes: with a valid
    URL and a free custom shortcode the answer is 201 and [expiresAt] is the
    clock reading taken by [calculateExpiryDate] plus the window, while
    [createdAt] is the next clock reading; and whatever the shortcode path,
    a 201 answer to a request without validity has
    [expiresAt = t + 30 minutes] with [createdAt] the reading after [t]. *)
Theorem postShortUrl_validity_window (clock : nat -> Z) (entropy : nat -> byte)
    (URL : string -> option UrlObject) (BASE_URL : string) :
  (forall body s,
      body_validity body = VNumber 10081 \/ body_validity body = VNumber 0 ->
      exists message,
        UrlController.createShortUrl clock entropy URL BASE_URL body s
          = (Return (mkResponse 400 (ErrorJson "Bad Request" message)), s)) /\
  (forall v minutes url urlObj code s,
      v = VNumber 10080 /\ minutes = 10080 \/ v = VUndefined /\ minutes = 30 ->
      truthy (Some url) = true ->
      URL url = Some urlObj ->
      protocol urlObj ∈ ["http:"; "https:"]%string ->
      shortcodeFormat code = true ->
      urls s !! code = None ->
      exists s1,
        UrlController.createShortUrl clock entropy URL BASE_URL
          (mkCreateBody (Some url) v (Some code)) s
        = (Return (mkResponse 201
                     (ShortUrlJson
                        (mkShortUrl code (href urlObj)
                           (BASE_URL +:+ "/" +:+ code)
                           (clock (clockReads s) + minutes * 60 * 1000)
                           (clock (S (clockReads s)))))),
           s1)) /\
  (forall body s r s1,
      body_validity body = VUndefined ->
      UrlController.createShortUrl clock entropy URL BASE_URL body s
        = (Return (mkResponse 201 (ShortUrlJson r)), s1) ->
      exists k,
        su_expiresAt r = clock k + 30 * 60 * 1000 /\
        su_createdAt r = clock (S k)).
Proof.
  split; [|split].
  - intros body s Hv. apply postShortUrl_rejected.
    destruct Hv as [-> | ->]; reflexivity.
  - intros v minutes url urlObj code s Hv Htruthy Hparse Hproto Hfmt Hfree.
    eexists.
    rewrite (postShortUrl_accepted clock entropy URL BASE_URL url urlObj v
               code s) by (try assumption; destruct Hv as [[-> _]|[-> _]];
                           reflexivity).
    destruct Hv as [[-> ->]|[-> ->]]; reflexivity.
  - intros body s r s1 Hv Hpost.
    destruct (postShortUrl_201 clock entropy URL BASE_URL body s r s1 Hpost)
      as (k & Hexp & Hcreated).
    rewrite Hv in Hexp. exists k. auto.
Qed.

(** The three cases on the empty store. *)
Lemma postShortUrl_validity_window_witness :
  (exists message,
      UrlController.createShortUrl (tickingClock 1000) stuckEntropy sampleURL sampleBase
        (sampleBody (VNumber 10081)) emptyStore
      = (Return (mkResponse 400 (ErrorJson "Bad Request" message)),
         emptyStore)) /\
  (exists s1,
      UrlController.createShortUrl (tickingClock 1000) stuckEntropy sampleURL sampleBase
        (sampleBody (VNumber 10080)) emptyStore
      = (Return (mkResponse 201
                   (ShortUrlJson
                      (mkShortUrl "abc12" "https://example.com/"
                         (sampleBase +:+ "/" +:+ "abc12")
                         (tickingClock 1000 0 + 10080 * 60 * 1000)
                         (tickingClock 1000 1)))),
         s1)) /\
  (exists k,
      1801000 = tickingClock 1000 k + 30 * 60 * 1000 /\
      1001 = tickingClock 1000 (S k)).
Proof.
  pose proof (postShortUrl_validity_window (tickingClock 1000) stuckEntropy
                sampleURL sampleBase) as (Hrej & Hacc & Hdef).
  split; [|split].
  - apply Hrej. left. reflexivity.
  - apply (Hacc (VNumber 10080) 10080 "https://example.com/"%string
                (mkUrlObject "https:" "https://example.com/") "abc12"%string
                emptyStore).
    + left. split; reflexivity.
    + reflexivity.
    + reflexivity.
    + apply list_elem_of_further, list_elem_of_here.
    + reflexivity.
    + reflexivity.
  - apply (Hdef (sampleBody VUndefined) emptyStore
                (mkShortUrl "abc12" "https://example.com/"
                            "http://localhost:5000/abc12" 1801000 1001)
                (mkState {[ "abc12"%string :=
                             mkUrlEntry "abc12" "abc12" "https://example.com/"
                                        1801000 1001 [] ]}
                         {[ "abc12"%string := mkAnalytics 0 0 ]} 2 0)).
    + reflexivity.
    + vm_compute. reflexivity.
Defined.

(** C9 (as stated) fails in its equation: with a clock that advances between
    the read of [calculateExpiryDate] and the read of [create], a request
    without validity is answered with an [expiresAt] that is not
    [createdAt] plus 30 minutes. *)
Lemma default_window_is_not_measured_from_createdAt :
  exists r s1,
    UrlController.createShortUrl (tickingClock 1000) stuckEntropy sampleURL sampleBase
      (sampleBody VUndefined) emptyStore
    = (Return (mkResponse 201 (ShortUrlJson r)), s1) /\
    su_expiresAt r <> su_createdAt r + 30 * 60 * 1000.
Proof.
  eexists. eexists. split.
  - vm_compute. reflexivity.
  - vm_compute. discriminate.
Qed.

(** * Further properties of the store *)

Section SweepProperties.

Variable clock : nat -> Z.

Lemma expiredKeys_length now (m : gmap string UrlEntry) :
  length (expiredKeys now m) = size (filter (expiredAt now) m).
Proof.
  unfold expiredKeys. rewrite length_fmap.
  rewrite <- length_map_to_list.
  apply Permutation_length, NoDup_Permutation.
  - apply NoDup_filter, NoDup_map_to_list.
  - apply NoDup_map_to_list.
  - intros [k u]. rewrite list_elem_of_filter, !elem_of_map_to_list.
    rewrite map_lookup_filter_Some. unfold expiredAt. simpl. tauto.
Qed.

Lemma cleanupExpired_urls s :
  urls (cleanupExpired clock s).2 =
    filter (fun e => ~ expiredAt (clock (clockReads s)) e) (urls s).
Proof.
  destruct (cleanupExpired_spec clock s) as (s' & -> & _ & _ & Hlook).
  simpl. apply map_eq. intros k. rewrite (proj1 (Hlook k)).
  destruct (decide _) as [Hin|Hnin].
  - apply elem_of_expiredKeys in Hin as (u & Hu & Hexp).
    symmetry. apply map_lookup_filter_None. right.
    intros x Hx. rewrite Hu in Hx. injection Hx as <-.
    unfold expiredAt. simpl. tauto.
  - destruct (urls s !! k) as [u|] eqn:Hu.
    + symmetry. apply map_lookup_filter_Some. split; [exact Hu|].
      unfold expiredAt. simpl. intros Hexp. apply Hnin.
      apply elem_of_expiredKeys. eauto.
    + symmetry. apply map_lookup_filter_None. auto.
Qed.

End SweepProperties.

(** X1: [cleanupExpired] reads the clock once, returns the number of stored
    records whose [expiresAt] lies before that reading, and leaves in
    [urls] exactly the other records, unchanged; the analytics entries of
    the evicted records are deleted and all others are kept. *)
Theorem cleanupExpired_evicts_exactly_the_expired (clock : nat -> Z)
    (s : State) :
  let now := clock (clockReads s) in
  let s' := (cleanupExpired clock s).2 in
  (cleanupExpired clock s).1
    = Return (size (filter (expiredAt now) (urls s))) /\
  urls s' = filter (fun e => ~ expiredAt now e) (urls s) /\
  (forall k,
      analytics s' !! k =
        match urls s !! k with
        | Some u => if decide (now > expiresAt u) then None
                    else analytics s !! k
        | None => analytics s !! k
        end) /\
  (size (urls s') + size (filter (expiredAt now) (urls s)) = size (urls s))%nat /\
  clockReads s' = S (clockReads s).
Proof.
  intros now s'. subst s'.
  pose proof (cleanupExpired_urls clock s) as Hurls.
  destruct (cleanupExpired_spec clock s) as (s' & Hrun & Hc & _ & Hlook).
  rewrite Hrun in *. simpl in *.
  split; [now rewrite expiredKeys_length|].
  split; [exact Hurls|]. split; [|split; [|exact Hc]].
  - intros k. rewrite (proj2 (Hlook k)).
    destruct (decide _) as [Hin|Hnin].
    + apply elem_of_expiredKeys in Hin as (u & -> & Hexp).
      now rewrite decide_True.
    + destruct (urls s !! k) as [u|] eqn:Hu; [|reflexivity].
      rewrite decide_False; [reflexivity|].
      intros Hexp. apply Hnin, elem_of_expiredKeys. eauto.
  - rewrite Hurls.
    rewrite <- (map_filter_union_complement (expiredAt now) (urls s)) at 3.
    rewrite map_size_disj_union by apply map_disjoint_filter_complement.
    subst now. apply Nat.add_comm.
Qed.

(** X2: a second sweep made while the clock has not advanced finds nothing
    to evict: it returns 0 and leaves both maps as the first sweep left
    them. *)
Theorem cleanupExpired_twice (clock : nat -> Z) (s : State) :
  clock (S (clockReads s)) <= clock (clockReads s) ->
  let s1 := (cleanupExpired clock s).2 in
  (cleanupExpired clock s1).1 = Return 0%nat /\
  urls (cleanupExpired clock s1).2 = urls s1 /\
  analytics (cleanupExpired clock s1).2 = analytics s1.
Proof.
  intros Hclock s1.
  assert (Hnone : expiredKeys (clock (clockReads s1)) (urls s1) = []).
  { apply elem_of_nil_inv. intros k Hin.
    apply elem_of_expiredKeys in Hin as (u & Hu & Hexp).
    subst s1. rewrite cleanupExpired_urls in Hu.
    apply map_lookup_filter_Some in Hu as [_ Hlive].
    unfold expiredAt in Hlive. simpl in Hlive.
    destruct (cleanupExpired_spec clock s) as (s' & Hrun & Hc & _).
    rewrite Hrun in Hexp. simpl in Hexp. rewrite Hc in Hexp. lia. }
  destruct (cleanupExpired_spec clock s1) as (s2 & Hrun2 & _ & _ & Hlook).
  rewrite Hrun2. simpl. rewrite Hnone in *. simpl.
  split; [reflexivity|].
  split; apply map_eq; intros k; destruct (Hlook k) as [Hu Ha].
  - rewrite Hu. destruct (decide (k ∈ [])) as [Hin|_]; [inversion Hin|auto].
  - rewrite Ha. destruct (decide (k ∈ [])) as [Hin|_]; [inversion Hin|auto].
Qed.

(** Both reads of [frozenClock 3000] return 3000; [mixedStore] loses its
    one stale record to the first sweep and nothing to the second. *)
Lemma cleanupExpired_twice_witness :
  (cleanupExpired (frozenClock 3000) mixedStore).1 = Return 1%nat /\
  (cleanupExpired (frozenClock 3000)
     (cleanupExpired (frozenClock 3000) mixedStore).2).1 = Return 0%nat.
Proof.
  split; [vm_compute; reflexivity|].
  apply (cleanupExpired_twice (frozenClock 3000) mixedStore).
  vm_compute. discriminate.
Defined.

(** X3: a sweep never changes what a later lookup answers: with a clock
    that does not run backwards, [findByShortcode] after [cleanupExpired]
    answers what it would have answered at that same instant had the sweep
    not run. *)
Theorem cleanupExpired_then_findByShortcode (clock : nat -> Z) (s : State)
    (key : string) :
  clock (clockReads s) <= clock (S (clockReads s)) ->
  (findByShortcode clock key (cleanupExpired clock s).2).1 =
  (findByShortcode (fun _ => clock (S (clockReads s))) key s).1.
Proof.
  intros Hmono.
  pose proof (cleanupExpired_urls clock s) as Hurls.
  destruct (cleanupExpired_spec clock s) as (s' & Hrun & Hc & _ & _).
  rewrite Hrun in *. simpl in *.
  destruct (urls s !! key) as [u|] eqn:Hu.
  - destruct (decide (clock (S (clockReads s)) > expiresAt u)) as [He|Hl].
    + rewrite (findByShortcode_expired (fun _ => clock (S (clockReads s)))
                 key s u Hu He). simpl.
      destruct (urls s' !! key) as [u'|] eqn:Hu'.
      * assert (u' = u).
        { rewrite Hurls in Hu'.
          apply map_lookup_filter_Some in Hu' as [Hu' _]. congruence. }
        subst u'.
        rewrite (findByShortcode_expired clock key s' u Hu')
          by (rewrite Hc; exact He).
        reflexivity.
      * now rewrite (findByShortcode_missing clock key s' Hu').
    + assert (Hu' : urls s' !! key = Some u).
      { rewrite Hurls. apply map_lookup_filter_Some. split; [exact Hu|].
        unfold expiredAt. simpl. lia. }
      rewrite (findByShortcode_live clock key s' u Hu')
        by (rewrite Hc; lia).
      rewrite (findByShortcode_live (fun _ => clock (S (clockReads s)))
                 key s u Hu) by lia.
      reflexivity.
  - assert (Hu' : urls s' !! key = None).
    { rewrite Hurls. apply map_lookup_filter_None. auto. }
    rewrite (findByShortcode_missing clock key s' Hu').
    now rewrite (findByShortcode_missing _ key s Hu).
Qed.

Lemma cleanupExpired_then_findByShortcode_witness :
  (findByShortcode (tickingClock 5000) "edge01"
     (cleanupExpired (tickingClock 5000) mixedStore).2).1 = Return None.
Proof.
  rewrite (cleanupExpired_then_findByShortcode (tickingClock 5000) mixedStore
             "edge01").
  - vm_compute. reflexivity.
  - vm_compute. discriminate.
Defined.

Lemma storeInv_analytics_map (s : State) :
  storeInv s ->
  analytics s =
    (fun u => mkAnalytics (length (clicks u)) (uniqueIpCount (clicks u)))
      <$> urls s.
Proof.
  intros [Hdom Hcnt]. apply map_eq. intros k. rewrite lookup_fmap.
  destruct (urls s !! k) as [u|] eqn:Hu; simpl.
  - destruct (proj1 (Hdom k)) as [a Ha]; [rewrite Hu; eauto|].
    rewrite Ha. destruct (Hcnt k u a Hu Ha) as [<- <-]. now destruct a.
  - destruct (analytics s !! k) as [a|] eqn:Ha; [|reflexivity].
    destruct (proj2 (Hdom k)) as [u Hu']; [rewrite Ha; eauto|congruence].
Qed.

Lemma foldl_add_sum_list_with {A : Type} (f : A -> nat) (l : list A) (n : nat) :
  foldl (fun sum a => (sum + f a)%nat) n l = (n + sum_list_with f l)%nat.
Proof.
  revert n. induction l as [|x l IH]; intros n; simpl.
  - lia.
  - rewrite IH. lia.
Qed.

Lemma sum_list_with_values (l : list (string * UrlEntry)) :
  sum_list_with totalClicks
    ((prod_map Datatypes.id
        (fun u => mkAnalytics (length (clicks u)) (uniqueIpCount (clicks u)))
      <$> l).*2)
  = sum_list_with (fun u => length (clicks u)) (l.*2).
Proof.
  induction l as [|[k u] l IH].
  - reflexivity.
  - rewrite !fmap_cons. cbn [sum_list_with prod_map snd totalClicks].
    now rewrite IH.
Qed.

(** X4: on every store reached by store calls, [getStats] reports as
    [totalUrls] the number of records that [getAll] lists and as
    [totalClicks] the total number of clicks recorded in those records;
    neither call reads the clock or changes the store, so records that have
    expired but have not been evicted yet are listed and counted. *)
Theorem getStats_counts_the_recorded_clicks (clock : nat -> Z)
    (ops : list Op) :
  let s := run clock ops emptyStore in
  exists entries,
    getAll s = (Return entries, s) /\
    entries ≡ₚ (map_to_list (urls s)).*2 /\
    getStats s =
      (Return (mkStats (length entries)
                       (sum_list_with (fun u => length (clicks u)) entries)),
       s).
Proof.
  intros s.
  assert (Hinv : storeInv s) by apply run_inv, storeInv_empty.
  exists ((map_to_list (urls s)).*2). split; [reflexivity|].
  split; [reflexivity|].
  unfold getStats. js_unfold. unfold urlsSize, analyticsValues. simpl.
  unfold ret. do 2 f_equal.
  rewrite foldl_add_sum_list_with. simpl.
  rewrite length_fmap, length_map_to_list. f_equal.
  rewrite (storeInv_analytics_map s Hinv).
  rewrite map_to_list_fmap.
  apply sum_list_with_values.
Qed.

(** * Isolation between shortcodes *)

Section Isolation.

Variable clock : nat -> Z.

Lemma findByShortcode_frame_analytics k key s :
  k <> key ->
  analytics (findByShortcode clock k s).2 !! key = analytics s !! key.
Proof.
  intros Hne. unfold findByShortcode. js_unfold.
  destruct (urls s !! k) as [u|]; simpl; [|auto].
  case_bool_decide; simpl; [|auto].
  now rewrite lookup_delete_ne by exact Hne.
Qed.

Lemma addClick_frame_analytics k cd key s :
  k <> key ->
  analytics (addClick clock k cd s).2 !! key = analytics s !! key.
Proof.
  intros Hne. unfold addClick. js_unfold.
  destruct (urls s !! k) as [u|]; simpl; [|auto].
  case_bool_decide; simpl.
  - now rewrite lookup_delete_ne by exact Hne.
  - destruct (analytics s !! k); simpl; [|reflexivity].
    now rewrite lookup_insert_ne by exact Hne.
Qed.

Lemma getAnalytics_frame_analytics k key s :
  k <> key ->
  analytics (getAnalytics clock k s).2 !! key = analytics s !! key.
Proof.
  intros Hne. unfold getAnalytics. js_unfold.
  destruct (urls s !! k) as [u|]; simpl; [|auto].
  case_bool_decide; simpl.
  - now rewrite lookup_delete_ne by exact Hne.
  - destruct (analytics s !! k); simpl; auto.
Qed.

Lemma create_frame_analytics data key s :
  data_shortcode data <> key ->
  analytics (create clock data s).2 !! key = analytics s !! key.
Proof.
  intros Hne. destruct data as [k url e]. simpl in Hne.
  destruct (urls s !! k) as [u|] eqn:Hk.
  - erewrite create_present by (simpl; eauto). auto.
  - destruct e as [e|].
    + rewrite create_fresh by exact Hk. simpl.
      now rewrite lookup_insert_ne by exact Hne.
    + rewrite create_fresh_default by exact Hk. simpl.
      now rewrite lookup_insert_ne by exact Hne.
Qed.

End Isolation.

(** X5: a create, findByShortcode, addClick or getAnalytics call for one
    shortcode leaves the record and the analytics entry of every other
    shortcode exactly as they were, whatever the call answers or throws. *)
Theorem store_calls_leave_other_shortcodes_alone (clock : nat -> Z)
    (s : State) (o : Op) (touched key : string) :
  match o with
  | OpCreate data => data_shortcode data = touched
  | OpFind k | OpGetAnalytics k | OpAddClick k _ => k = touched
  | OpCleanup => False
  end ->
  touched <> key ->
  urls (step clock s o) !! key = urls s !! key /\
  analytics (step clock s o) !! key = analytics s !! key.
Proof.
  intros Ho Hne. destruct o as [data|k|k cd|k|]; simpl in *;
    try contradiction; subst touched.
  - split; [now apply create_frame | now apply create_frame_analytics].
  - split; [now apply findByShortcode_frame
           | now apply findByShortcode_frame_analytics].
  - split; [now apply addClick_frame | now apply addClick_frame_analytics].
  - split; [now apply getAnalytics_frame
           | now apply getAnalytics_frame_analytics].
Qed.

(** A click on the live ["new001"] and a lookup of the stale ["old001"]
    leave ["edge01"] alone. *)
Lemma store_calls_leave_other_shortcodes_alone_witness :
  urls (step (tickingClock 3000) mixedStore
          (OpAddClick "new001" (click "10.0.0.1"))) !! "edge01"
    = urls mixedStore !! "edge01" /\
  analytics (step (tickingClock 3000) mixedStore (OpFind "old001")) !! "edge01"
    = analytics mixedStore !! "edge01".
Proof.
  split.
  - apply (store_calls_leave_other_shortcodes_alone (tickingClock 3000)
             mixedStore (OpAddClick "new001" (click "10.0.0.1"))
             "new001" "edge01"); [reflexivity | discriminate].
  - apply (store_calls_leave_other_shortcodes_alone (tickingClock 3000)
             mixedStore (OpFind "old001") "old001" "edge01");
      [reflexivity | discriminate].
Defined.

(** X6: [create] succeeds exactly when no record, live or stale, is stored
    under the shortcode.  On a stored shortcode it throws and changes
    nothing; on a free one it stores a record with no clicks and zeroed
    analytics, and a missing [expiresAt] defaults to 30 minutes after the
    reading of [Date.now()], [createdAt] being the reading after that. *)
Theorem create_succeeds_iff_absent (clock : nat -> Z) (data : CreateData)
    (s : State) :
  ((exists e, (create clock data s).1 = Return e) <->
   urls s !! data_shortcode data = None) /\
  (is_Some (urls s !! data_shortcode data) ->
   create clock data s = (Throw "Shortcode already exists", s)) /\
  (urls s !! data_shortcode data = None ->
   exists e,
     (create clock data s).1 = Return e /\
     urls (create clock data s).2 !! data_shortcode data = Some e /\
     analytics (create clock data s).2 !! data_shortcode data
       = Some (mkAnalytics 0 0) /\
     clicks e = [] /\
     originalUrl e = data_originalUrl data /\
     match data_expiresAt data with
     | Some x => expiresAt e = x /\ createdAt e = clock (clockReads s)
     | None => expiresAt e = clock (clockReads s) + 30 * 60 * 1000 /\
               createdAt e = clock (S (clockReads s))
     end).
Proof.
  destruct data as [key url x]. simpl.
  destruct (urls s !! key) as [u|] eqn:Hk.
  - split; [|split].
    + erewrite create_present by (simpl; eauto). simpl.
      split; [intros [e He]; discriminate | discriminate].
    + intros _. eapply create_present. simpl. eauto.
    + discriminate.
  - split; [|split].
    + split; [reflexivity|]. intros _.
      destruct x as [x|];
        [rewrite create_fresh by exact Hk
        |rewrite create_fresh_default by exact Hk]; simpl; eauto.
    + intros [? ?]. discriminate.
    + intros _. destruct x as [x|];
        [rewrite create_fresh by exact Hk
        |rewrite create_fresh_default by exact Hk]; simpl;
        eexists; (split; [reflexivity|]);
        rewrite !lookup_insert_eq; simpl; repeat split; reflexivity.
Qed.

(** On [mixedStore] the stale ["old001"] blocks a create; a new shortcode
    without expiry gets the 30 minute default. *)
Lemma create_succeeds_iff_absent_witness :
  create (tickingClock 3000)
         (mkCreateData "old001" "https://example.org/" None) mixedStore
    = (Throw "Shortcode already exists", mixedStore) /\
  (exists e,
      (create (tickingClock 3000)
              (mkCreateData "fresh1" "https://example.org/" None)
              mixedStore).1 = Return e /\
      expiresAt e = 3000 + 30 * 60 * 1000 /\ createdAt e = 3001).
Proof.
  pose proof (create_succeeds_iff_absent (tickingClock 3000)
                (mkCreateData "old001" "https://example.org/" None)
                mixedStore) as (_ & Hthrow & _).
  pose proof (create_succeeds_iff_absent (tickingClock 3000)
                (mkCreateData "fresh1" "https://example.org/" None)
                mixedStore) as (_ & _ & Hok).
  split.
  - apply Hthrow. vm_compute. eauto.
  - destruct Hok as (e & He & _ & _ & _ & _ & Hexp & Hcreated).
    + vm_compute. reflexivity.
    + exists e. auto.
Defined.

(** * Further properties of the allocator *)

Lemma string_length_append (a b : string) :
  String.length (a +:+ b) = (String.length a + String.length b)%nat.
Proof. induction a as [|c a IH]; simpl; [reflexivity | now rewrite IH]. Qed.

Lemma allAlnum_append (a b : string) :
  allAlnum (a +:+ b) = allAlnum a && allAlnum b.
Proof.
  induction a as [|c a IH]; simpl; [reflexivity|].
  rewrite IH. now rewrite andb_assoc.
Qed.

Lemma chars_symbol (i : nat) :
  (i < 62)%nat ->
  String.length (charAt chars i) = 1%nat /\ allAlnum (charAt chars i) = true.
Proof.
  intros Hi.
  do 62 (destruct i as [|i]; [vm_compute; auto|]). lia.
Qed.

Lemma symbolOf_shape (b : byte) :
  String.length (symbolOf b) = 1%nat /\ allAlnum (symbolOf b) = true.
Proof.
  unfold symbolOf. apply chars_symbol.
  change (String.length chars) with 62%nat.
  apply Nat.mod_upper_bound. discriminate.
Qed.

Lemma drawCode_shape (entropy : nat -> byte) (n d : nat) (result : string) :
  String.length (drawCode entropy d n result) = (String.length result + n)%nat /\
  allAlnum (drawCode entropy d n result) = allAlnum result.
Proof.
  revert d result. induction n as [|n IH]; intros d result.
  - simpl. split; [lia | reflexivity].
  - cbn [drawCode]. fold (symbolOf (entropy d)).
    destruct (IH (S d) (result +:+ symbolOf (entropy d))) as [Hlen Hal].
    destruct (symbolOf_shape (entropy d)) as [Hl1 Ha1].
    rewrite Hlen, Hal, string_length_append, allAlnum_append, Hl1, Ha1.
    split; [lia | apply andb_true_r].
Qed.

(** X7: [generateShortcode(length)] draws exactly [length] random bytes and
    returns a string of exactly [length] characters, all of them ASCII
    letters or digits; for a length from 3 to 20 (6 is what the allocator
    asks for) the result therefore has the format required of custom
    shortcodes.  The store is not touched. *)
Theorem generateShortcode_shape (entropy : nat -> byte) (n : nat) (s : State) :
  exists code,
    generateShortcode entropy n s = (Return code, drawn n s) /\
    String.length code = n /\
    allAlnum code = true /\
    ((3 <= n <= 20)%nat -> shortcodeFormat code = true).
Proof.
  exists (drawCode entropy (bytesDrawn s) n "").
  destruct (drawCode_shape entropy n (bytesDrawn s) "") as [Hlen Hal].
  simpl in Hlen, Hal.
  split; [apply generateShortcode_spec|].
  split; [exact Hlen|]. split; [exact Hal|].
  intros [Hlo Hhi]. unfold shortcodeFormat. rewrite Hlen, Hal.
  rewrite andb_true_r. apply andb_true_intro.
  split; apply Nat.leb_le; assumption.
Qed.

Lemma byteValues_complete (b : byte) : b ∈ byteValues.
Proof.
  unfold byteValues. apply list_elem_of_omap.
  exists (Byte.to_nat b). split.
  - apply elem_of_seq. pose proof (Byte.to_nat_bounded b). lia.
  - apply Byte.of_to_nat.
Qed.

(** X8: the byte-to-symbol mapping of [generateShortcode] is not uniform:
    each of the first eight symbols of the alphabet ([a] to [h]) is selected
    by 5 of the 256 byte values, every other symbol by 4. *)
Theorem generateShortcode_modulo_bias (i : nat) :
  (i < String.length chars)%nat ->
  (forall b, b ∈ byteValues) /\
  NoDup byteValues /\
  preimages i = if (i <? 8)%nat then 5%nat else 4%nat.
Proof.
  intros Hi. split; [apply byteValues_complete|]. split.
  - apply (NoDup_fmap_1 Byte.to_nat).
    replace (Byte.to_nat <$> byteValues) with (seq 0 256)
      by (vm_compute; reflexivity).
    apply NoDup_seq.
  - change (String.length chars) with 62%nat in Hi.
    do 62 (destruct i as [|i]; [vm_compute; reflexivity|]). lia.
Qed.

Lemma generateShortcode_modulo_bias_witness :
  preimages 7 = 5%nat /\ preimages 8 = 4%nat.
Proof.
  split.
  - apply (generateShortcode_modulo_bias 7). vm_compute. lia.
  - apply (generateShortcode_modulo_bias 8). vm_compute. lia.
Defined.

(** * Further properties of UrlService.createShortUrl *)

Section CreateShortUrlFacts.

Variable clock : nat -> Z.
Variable entropy : nat -> byte.
Variable URL : string -> option UrlObject.
Variable BASE_URL : string.

Lemma validateAndNormalizeUrl_rejects url s :
  ~ acceptedUrl URL url ->
  validateAndNormalizeUrl URL url s = (Throw "Invalid URL format", s).
Proof.
  intros Hbad. unfold validateAndNormalizeUrl, tryCatch.
  destruct (URL url) as [urlObj|] eqn:Hparse; [|reflexivity].
  rewrite bool_decide_eq_false_2; [reflexivity|].
  intros Hproto. apply Hbad. exists urlObj. auto.
Qed.

Lemma validateAndNormalizeUrl_cases url s :
  (exists urlObj, URL url = Some urlObj /\
     protocol urlObj ∈ ["http:"; "https:"]%string /\
     validateAndNormalizeUrl URL url s = (Return (href urlObj), s)) \/
  (~ acceptedUrl URL url /\
   validateAndNormalizeUrl URL url s = (Throw "Invalid URL format", s)).
Proof.
  destruct (URL url) as [urlObj|] eqn:Hparse.
  - destruct (decide (protocol urlObj ∈ ["http:"; "https:"]%string))
      as [Hin|Hnin].
    + left. exists urlObj. split; [reflexivity|]. split; [exact Hin|].
      now apply validateAndNormalizeUrl_ok.
    + right. assert (Hbad : ~ acceptedUrl URL url).
      { intros (o & Ho & Hp). congruence. }
      split; [exact Hbad|]. now apply validateAndNormalizeUrl_rejects.
  - right. assert (Hbad : ~ acceptedUrl URL url).
    { intros (o & Ho & Hp). congruence. }
    split; [exact Hbad|]. now apply validateAndNormalizeUrl_rejects.
Qed.

Lemma createShortUrl_invalid_url data s :
  ~ acceptedUrl URL (sd_url data) ->
  createShortUrl clock entropy URL BASE_URL data s
    = (Throw "Invalid URL format", s).
Proof.
  intros Hbad. unfold createShortUrl. unfold bind at 1.
  now rewrite validateAndNormalizeUrl_rejects.
Qed.

Lemma createShortUrl_malformed url validity code s :
  acceptedUrl URL url ->
  truthy (Some code) = true ->
  shortcodeFormat code = false ->
  createShortUrl clock entropy URL BASE_URL
    (mkShortUrlData url validity (Some code)) s
  = (Throw "Custom shortcode must be alphanumeric and between 3-20 characters",
     s).
Proof.
  intros (urlObj & Hparse & Hproto) Htruthy Hfmt.
  unfold createShortUrl. cbn [sd_url sd_validity sd_shortcode orEmpty].
  rewrite (bind_step _ _ _ _ _
             (validateAndNormalizeUrl_ok URL url urlObj s Hparse Hproto)).
  rewrite Htruthy, Hfmt. reflexivity.
Qed.

Lemma createShortUrl_custom_live url validity code s u :
  acceptedUrl URL url ->
  shortcodeFormat code = true ->
  urls s !! code = Some u ->
  clock (clockReads s) <= expiresAt u ->
  createShortUrl clock entropy URL BASE_URL
    (mkShortUrlData url validity (Some code)) s
  = (Throw "Custom shortcode already exists", ticked s).
Proof.
  intros (urlObj & Hparse & Hproto) Hfmt Hu Hlive.
  unfold createShortUrl. cbn [sd_url sd_validity sd_shortcode orEmpty].
  rewrite (bind_step _ _ _ _ _
             (validateAndNormalizeUrl_ok URL url urlObj s Hparse Hproto)).
  rewrite (shortcodeFormat_truthy code Hfmt), Hfmt. cbn [negb].
  unfold bind at 1. unfold bind at 1.
  rewrite (findByShortcode_live clock code s u Hu Hlive). reflexivity.
Qed.

Lemma createShortUrl_exhausted url validity custom s :
  acceptedUrl URL url ->
  truthy custom = false ->
  (forall attempt, (attempt < 10)%nat ->
     exists u,
       urls s !! drawCode entropy (bytesDrawn s + 6 * attempt) 6 "" = Some u /\
       clock (clockReads s + attempt)%nat <= expiresAt u) ->
  createShortUrl clock entropy URL BASE_URL
    (mkShortUrlData url validity custom) s
  = (Throw "Unable to generate unique shortcode after maximum attempts",
     exhausted 10 s).
Proof.
  intros (urlObj & Hparse & Hproto) Hfalsy Hall.
  unfold createShortUrl. cbn [sd_url sd_validity sd_shortcode].
  rewrite (bind_step _ _ _ _ _
             (validateAndNormalizeUrl_ok URL url urlObj s Hparse Hproto)).
  rewrite Hfalsy. unfold bind at 1. unfold generateUniqueShortcode.
  now rewrite (generateUniqueShortcode_exhausted clock entropy 10 s Hall).
Qed.

Lemma findByShortcode_returns key s :
  exists answer s1, findByShortcode clock key s = (Return answer, s1).
Proof.
  unfold findByShortcode. js_unfold.
  destruct (urls s !! key); simpl; [case_bool_decide|]; simpl; eauto.
Qed.

Lemma generateUniqueShortcode_outcome n s :
  (exists code s',
      generateUniqueShortcodeLoop clock entropy n s = (Return code, s') /\
      urls s' !! code = None /\ shortcodeFormat code = true) \/
  (exists s',
      generateUniqueShortcodeLoop clock entropy n s
        = (Throw "Unable to generate unique shortcode after maximum attempts",
           s')).
Proof.
  revert s. induction n as [|n IH]; intros s.
  - right. eexists. reflexivity.
  - rewrite generateUniqueShortcode_step.
    destruct (findByShortcode_returns (drawCode entropy (bytesDrawn s) 6 "")
                (drawn 6 s)) as ([e|] & s1 & Hfind); rewrite Hfind.
    + apply IH.
    + left. eexists. eexists. split; [reflexivity|]. split.
      * now destruct (findByShortcode_None clock _ _ _ Hfind).
      * destruct (generateShortcode_shape entropy 6 s)
          as (code & Hgen & _ & _ & Hfmt).
        rewrite generateShortcode_spec in Hgen. injection Hgen as <-.
        apply Hfmt. lia.
Qed.

(** Every way [createShortUrl] can end. *)
Lemma createShortUrl_outcome data s :
  match createShortUrl clock entropy URL BASE_URL data s with
  | (Return r, _) => shortcodeFormat (su_shortcode r) = true
  | (Throw message, _) => message ∈ serviceMessages
  end.
Proof.
  destruct data as [url validity custom].
  unfold createShortUrl. cbn [sd_url sd_validity sd_shortcode].
  destruct (validateAndNormalizeUrl_cases url s)
    as [(urlObj & _ & _ & Hok) | (_ & Hbad)].
  2:{ unfold bind at 1. rewrite Hbad. unfold serviceMessages. set_solver. }
  rewrite (bind_step _ _ _ _ _ Hok).
  assert (Hfinish : forall code s3,
    urls s3 !! code = None ->
    exists s',
      (let! expires := calculateExpiryDate clock (default 30 validity) in
       let! urlDoc :=
         create clock (mkCreateData code (href urlObj) (Some expires)) in
       ret (mkShortUrl code (href urlObj) (BASE_URL +:+ "/" +:+ code)
                       expires (createdAt urlDoc))) s3
      = (Return (mkShortUrl code (href urlObj) (BASE_URL +:+ "/" +:+ code)
                   (clock (clockReads s3) + default 30 validity * 60 * 1000)
                   (clock (S (clockReads s3)))), s')).
  { intros code s3 Hfree. unfold calculateExpiryDate. js_unfold.
    pose proof (create_fresh clock code (href urlObj)
                  (clock (clockReads s3) + default 30 validity * 60 * 1000)
                  (ticked s3) Hfree) as Hcreate.
    unfold ticked in Hcreate. simpl in Hcreate. rewrite Hcreate.
    eexists. reflexivity. }
  destruct (truthy custom) eqn:Htruthy.
  - destruct (shortcodeFormat (orEmpty custom)) eqn:Hfmt; cbn [negb].
    + destruct (findByShortcode_returns (orEmpty custom) s)
        as ([e|] & s1 & Hfind);
        unfold bind at 1; rewrite (bind_step _ _ _ _ _ Hfind).
      * unfold throw. unfold serviceMessages. set_solver.
      * unfold ret at 1.
        destruct (findByShortcode_None clock _ _ _ Hfind) as [Hfree _].
        destruct (Hfinish _ _ Hfree) as (s' & ->). exact Hfmt.
    + unfold bind at 1. unfold throw. unfold serviceMessages. set_solver.
  - unfold bind at 1. unfold generateUniqueShortcode.
    destruct (generateUniqueShortcode_outcome 10 s)
      as [(code & s1 & Hgen & Hfree & Hfmt) | (s1 & Hgen)]; rewrite Hgen.
    + destruct (Hfinish _ _ Hfree) as (s' & ->). exact Hfmt.
    + unfold serviceMessages. set_solver.
Qed.

End CreateShortUrlFacts.

(** X9: every shortcode that [UrlService.createShortUrl] assigns, custom or
    generated, matches the shortcode format (3 to 20 ASCII letters or
    digits), and the record stored under it carries the assigned
    shortcode. *)
Theorem createShortUrl_assigns_well_formed_shortcodes (clock : nat -> Z)
    (entropy : nat -> byte) (URL : string -> option UrlObject)
    (BASE_URL : string) (data : ShortUrlData) (s : State) (r : ShortUrl)
    (s' : State) :
  createShortUrl clock entropy URL BASE_URL data s = (Return r, s') ->
  shortcodeFormat (su_shortcode r) = true /\
  exists e, urls s' !! su_shortcode r = Some e /\
            shortcode e = su_shortcode r.
Proof.
  intros Hrun. split.
  - pose proof (createShortUrl_outcome clock entropy URL BASE_URL data s)
      as Hout.
    now rewrite Hrun in Hout.
  - destruct (createShortUrl_Return clock entropy URL BASE_URL data s r s' Hrun)
      as (k & _ & _ & Hstored).
    eexists. split; [exact Hstored|reflexivity].
Qed.

Lemma createShortUrl_assigns_well_formed_shortcodes_witness :
  shortcodeFormat "aaaaaa" = true /\
  exists e,
    urls (createShortUrl (tickingClock 1000) stuckEntropy sampleURL sampleBase
            (mkShortUrlData "https://example.com/" (Some 1) None)
            emptyStore).2 !! "aaaaaa" = Some e /\
    shortcode e = "aaaaaa"%string.
Proof.
  apply (createShortUrl_assigns_well_formed_shortcodes (tickingClock 1000)
           stuckEntropy sampleURL sampleBase
           (mkShortUrlData "https://example.com/" (Some 1) None) emptyStore
           (mkShortUrl "aaaaaa" "https://example.com/"
                       "http://localhost:5000/aaaaaa" 61000 1001)).
  vm_compute. reflexivity.
Defined.

(** * Further properties of POST /shorturls *)

(** Membership in a list written out in full. *)
Ltac in_list :=
  repeat first [apply list_elem_of_here | apply list_elem_of_further].

(** The [catch] block of the handler, on each message of the service. *)
Lemma post_catch_status message :
  message ∈ serviceMessages ->
  (if includes message "already exists" then 409%nat
   else if includes message "shortcode" || includes message "URL" then 400%nat
   else 500%nat) ∈ [400%nat; 409%nat] /\
  (message = "Unable to generate unique shortcode after maximum attempts"%string ->
   includes message "already exists" = false /\
   includes message "shortcode" = true).
Proof.
  unfold serviceMessages. intros Hin.
  repeat (apply elem_of_cons in Hin as [-> | Hin]);
    [ .. | inversion Hin ];
    (split; [vm_compute; in_list | intros; try discriminate; auto]).
Qed.

Section PostFacts.

Variable clock : nat -> Z.
Variable entropy : nat -> byte.
Variable URL : string -> option UrlObject.
Variable BASE_URL : string.

Lemma post_runs_service body s :
  truthy (body_url body) = true ->
  validityRejected (body_validity body) = false ->
  UrlController.createShortUrl clock entropy URL BASE_URL body s =
    match createShortUrl clock entropy URL BASE_URL
            (mkShortUrlData (orEmpty (body_url body))
                            (validityArgument (body_validity body))
                            (body_shortcode body)) s with
    | (Return r, s') => (Return (mkResponse 201 (ShortUrlJson r)), s')
    | (Throw message, s') =>
        (Return
           (if includes message "already exists" then
              mkResponse 409 (ErrorJson "Conflict" message)
            else if includes message "shortcode" || includes message "URL" then
              mkResponse 400 (ErrorJson "Bad Request" message)
            else
              mkResponse 500 (ErrorJson "Internal Server Error"
                                        "Failed to create short URL")), s')
    end.
Proof.
  intros Hurl Hval. unfold UrlController.createShortUrl, tryCatch.
  rewrite Hurl, Hval. cbn [negb]. unfold bind at 1.
  destruct (createShortUrl clock entropy URL BASE_URL _ s) as [[r|msg] s'].
  - reflexivity.
  - destruct (includes msg "already exists"); [reflexivity|].
    destruct (includes msg "shortcode" || includes msg "URL"); reflexivity.
Qed.

End PostFacts.

(** X10: POST /shorturls answers 400 and leaves the store untouched when
    the request is malformed: a missing or empty [url] is answered
    'URL is required' before the validity is even looked at; a URL that the
    parser rejects or whose scheme is not http/https is answered
    'Invalid URL format'; a custom shortcode that is not 3 to 20 letters or
    digits is answered with the format message. *)
Theorem post_rejects_malformed_requests (clock : nat -> Z)
    (entropy : nat -> byte) (URL : string -> option UrlObject)
    (BASE_URL : string) (body : CreateBody) (s : State) :
  (truthy (body_url body) = false ->
   UrlController.createShortUrl clock entropy URL BASE_URL body s
   = (Return (mkResponse 400 (ErrorJson "Bad Request" "URL is required")), s)) /\
  (truthy (body_url body) = true ->
   validityRejected (body_validity body) = false ->
   ~ acceptedUrl URL (orEmpty (body_url body)) ->
   UrlController.createShortUrl clock entropy URL BASE_URL body s
   = (Return (mkResponse 400 (ErrorJson "Bad Request" "Invalid URL format")),
      s)) /\
  (truthy (body_url body) = true ->
   validityRejected (body_validity body) = false ->
   acceptedUrl URL (orEmpty (body_url body)) ->
   truthy (body_shortcode body) = true ->
   shortcodeFormat (orEmpty (body_shortcode body)) = false ->
   UrlController.createShortUrl clock entropy URL BASE_URL body s
   = (Return (mkResponse 400
                (ErrorJson "Bad Request"
                   "Custom shortcode must be alphanumeric and between 3-20 characters")),
      s)).
Proof.
  split; [|split].
  - intros Hurl. unfold UrlController.createShortUrl, tryCatch.
    now rewrite Hurl.
  - intros Hurl Hval Hbad. rewrite post_runs_service by assumption.
    now rewrite createShortUrl_invalid_url by exact Hbad.
  - intros Hurl Hval Hok Hcustom Hfmt.
    rewrite post_runs_service by assumption.
    destruct (body_shortcode body) as [code|] eqn:Hcode; [|discriminate].
    simpl in Hfmt.
    now rewrite (createShortUrl_malformed clock entropy URL BASE_URL _ _ code s
                   Hok Hcustom Hfmt).
Qed.

Lemma post_rejects_malformed_requests_witness :
  UrlController.createShortUrl (tickingClock 1000) stuckEntropy sampleURL
    sampleBase (mkCreateBody None (VNumber 0) None) sampleStore
  = (Return (mkResponse 400 (ErrorJson "Bad Request" "URL is required")),
     sampleStore) /\
  UrlController.createShortUrl (tickingClock 1000) stuckEntropy sampleURL
    sampleBase (mkCreateBody (Some "ftp://example.com/"%string) VUndefined None)
    sampleStore
  = (Return (mkResponse 400 (ErrorJson "Bad Request" "Invalid URL format")),
     sampleStore) /\
  UrlController.createShortUrl (tickingClock 1000) stuckEntropy sampleURL
    sampleBase
    (mkCreateBody (Some "https://example.com/"%string) VUndefined
                  (Some "ab_12"%string))
    sampleStore
  = (Return (mkResponse 400
               (ErrorJson "Bad Request"
                  "Custom shortcode must be alphanumeric and between 3-20 characters")),
     sampleStore).
Proof.
  split; [|split].
  - apply (post_rejects_malformed_requests (tickingClock 1000) stuckEntropy
             sampleURL sampleBase (mkCreateBody None (VNumber 0) None)).
    reflexivity.
  - apply (post_rejects_malformed_requests (tickingClock 1000) stuckEntropy
             sampleURL sampleBase
             (mkCreateBody (Some "ftp://example.com/"%string) VUndefined None));
      try reflexivity.
    intros (o & Ho & Hp). vm_compute in Ho. injection Ho as <-.
    simpl in Hp.
    apply elem_of_cons in Hp as [Hp|Hp]; [discriminate|].
    apply elem_of_cons in Hp as [Hp|Hp]; [discriminate|]. inversion Hp.
  - apply (post_rejects_malformed_requests (tickingClock 1000) stuckEntropy
             sampleURL sampleBase
             (mkCreateBody (Some "https://example.com/"%string) VUndefined
                           (Some "ab_12"%string))); try reflexivity.
    exists (mkUrlObject "https:" "https://example.com/").
    split; [reflexivity|]. in_list.
Defined.

(** X11: POST /shorturls with a custom shortcode that is stored and live is
    answered 409 Conflict; the stored record, its clicks and its analytics
    are untouched. *)
Theorem post_conflict_on_live_shortcode (clock : nat -> Z)
    (entropy : nat -> byte) (URL : string -> option UrlObject)
    (BASE_URL : string) (url code : string) (v : Validity) (s : State)
    (u : UrlEntry) :
  truthy (Some url) = true ->
  validityRejected v = false ->
  acceptedUrl URL url ->
  shortcodeFormat code = true ->
  urls s !! code = Some u ->
  clock (clockReads s) <= expiresAt u ->
  UrlController.createShortUrl clock entropy URL BASE_URL
    (mkCreateBody (Some url) v (Some code)) s
  = (Return (mkResponse 409
               (ErrorJson "Conflict" "Custom shortcode already exists")),
     ticked s).
Proof.
  intros Hurl Hval Hok Hfmt Hu Hlive.
  rewrite post_runs_service by assumption.
  cbn [body_url body_validity body_shortcode orEmpty].
  now rewrite (createShortUrl_custom_live clock entropy URL BASE_URL url
                 (validityArgument v) code s u Hok Hfmt Hu Hlive).
Qed.

Lemma post_conflict_on_live_shortcode_witness :
  UrlController.createShortUrl (tickingClock 1000) stuckEntropy sampleURL
    sampleBase
    (mkCreateBody (Some "https://other.com/"%string) VUndefined
                  (Some "abc123"%string))
    sampleStore
  = (Return (mkResponse 409
               (ErrorJson "Conflict" "Custom shortcode already exists")),
     ticked sampleStore).
Proof.
  apply (post_conflict_on_live_shortcode (tickingClock 1000) stuckEntropy
           sampleURL sampleBase "https://other.com/" "abc123" VUndefined
           sampleStore sampleEntry); try reflexivity.
  - exists (mkUrlObject "https:" "https://other.com/").
    split; [reflexivity|]. in_list.
  - vm_compute. discriminate.
Defined.

(** X12: when the allocator gives up (each of its ten generated codes is
    live), POST /shorturls answers 400 Bad Request with the allocator's
    message, because that message contains the word 'shortcode'; it does
    not answer 500. *)
Theorem post_answers_400_when_allocator_is_exhausted (clock : nat -> Z)
    (entropy : nat -> byte) (URL : string -> option UrlObject)
    (BASE_URL : string) (url : string) (v : Validity)
    (custom : option string) (s : State) :
  truthy (Some url) = true ->
  validityRejected v = false ->
  acceptedUrl URL url ->
  truthy custom = false ->
  (forall attempt, (attempt < 10)%nat ->
     exists u,
       urls s !! drawCode entropy (bytesDrawn s + 6 * attempt) 6 "" = Some u /\
       clock (clockReads s + attempt)%nat <= expiresAt u) ->
  UrlController.createShortUrl clock entropy URL BASE_URL
    (mkCreateBody (Some url) v custom) s
  = (Return (mkResponse 400
               (ErrorJson "Bad Request"
                  "Unable to generate unique shortcode after maximum attempts")),
     exhausted 10 s).
Proof.
  intros Hurl Hval Hok Hcustom Hall.
  rewrite post_runs_service by assumption.
  cbn [body_url body_validity body_shortcode orEmpty].
  now rewrite (createShortUrl_exhausted clock entropy URL BASE_URL url
                 (validityArgument v) custom s Hok Hcustom Hall).
Qed.

Lemma post_answers_400_when_allocator_is_exhausted_witness :
  UrlController.createShortUrl (tickingClock 1000) stuckEntropy sampleURL
    sampleBase
    (mkCreateBody (Some "https://example.com/"%string) VUndefined None)
    crowdedStore
  = (Return (mkResponse 400
               (ErrorJson "Bad Request"
                  "Unable to generate unique shortcode after maximum attempts")),
     exhausted 10 crowdedStore).
Proof.
  apply (post_answers_400_when_allocator_is_exhausted (tickingClock 1000)
           stuckEntropy sampleURL sampleBase "https://example.com/" VUndefined
           None crowdedStore); try reflexivity.
  - exists (mkUrlObject "https:" "https://example.com/").
    split; [reflexivity|]. in_list.
  - intros attempt Hlt.
    exists (mkUrlEntry "aaaaaa" "aaaaaa" "https://example.com/" 9000000 1000 []).
    split; [reflexivity|]. unfold tickingClock. simpl. lia.
Defined.

(** X13: for every request body whose [url] and [shortcode] are strings or
    absent, and whatever the store, the handler of POST /shorturls answers
    201, 400 or 409: every error the service throws on such a body is
    mapped to 400 or 409 by the handler, whose 500 branch is never taken for
    them.  (A [shortcode] of another JSON type is outside [CreateBody]: an
    object that cannot be converted to a string makes the format test throw
    a TypeError, which the handler answers 500.) *)
Theorem post_status_is_201_400_or_409 (clock : nat -> Z)
    (entropy : nat -> byte) (URL : string -> option UrlObject)
    (BASE_URL : string) (body : CreateBody) (s : State) :
  exists response s',
    UrlController.createShortUrl clock entropy URL BASE_URL body s
      = (Return response, s') /\
    status response ∈ [201%nat; 400%nat; 409%nat].
Proof.
  destruct (truthy (body_url body)) eqn:Hurl.
  2:{ eexists. eexists. split.
      - unfold UrlController.createShortUrl, tryCatch. rewrite Hurl.
        reflexivity.
      - simpl. in_list. }
  destruct (validityRejected (body_validity body)) eqn:Hval.
  { destruct (postShortUrl_rejected clock entropy URL BASE_URL body s Hval)
      as (message & ->).
    eexists. eexists. split; [reflexivity|]. simpl. in_list. }
  rewrite post_runs_service by assumption.
  pose proof (createShortUrl_outcome clock entropy URL BASE_URL
                (mkShortUrlData (orEmpty (body_url body))
                                (validityArgument (body_validity body))
                                (body_shortcode body)) s) as Hout.
  destruct (createShortUrl clock entropy URL BASE_URL _ s) as [[r|msg] s'].
  - eexists. eexists. split; [reflexivity|]. simpl. in_list.
  - eexists. eexists. split; [reflexivity|].
    destruct (post_catch_status msg Hout) as [Hstatus _].
    destruct (includes msg "already exists"); [simpl; in_list|].
    destruct (includes msg "shortcode" || includes msg "URL");
      [simpl; in_list|].
    exfalso.
    apply elem_of_cons in Hstatus as [Hstatus|Hstatus]; [discriminate|].
    apply elem_of_cons in Hstatus as [Hstatus|Hstatus]; [discriminate|].
    inversion Hstatus.
Qed.

(** * Further properties of the GET handlers *)

(** X14: the outcomes of GET /:shortcode.  An empty shortcode is answered
    400 and an unknown one 404, the store being left alone.  For a stored
    record the handler reads the clock up to four times: if the record has
    expired at the lookup it is evicted and the answer is 404; if it
    expires between the lookup and the handler's own test the answer is 410
    and the record stays stored, the clock being read a third time for the
    log entry; otherwise the answer is a 302 redirect to
    [originalUrl], with one click recorded if the record is still live at
    [addClick]'s test, and with the record evicted and no click recorded if
    it has expired by then. *)
Theorem redirect_outcomes (clock : nat -> Z) (s : State)
    (req : RedirectRequest) :
  let code := params_shortcode req in
  let n := clockReads s in
  (truthy (Some code) = false ->
   UrlController.redirectToUrl clock req s
   = (Return (mkResponse 400 (ErrorJson "Bad Request" "Shortcode is required")),
      s)) /\
  (truthy (Some code) = true -> urls s !! code = None ->
   UrlController.redirectToUrl clock req s
   = (Return (mkResponse 404 (ErrorJson "Not Found" "Short URL not found")),
      s)) /\
  (forall u a,
      truthy (Some code) = true ->
      urls s !! code = Some u -> analytics s !! code = Some a ->
      (clock n > expiresAt u ->
       UrlController.redirectToUrl clock req s
       = (Return (mkResponse 404
                    (ErrorJson "Not Found" "Short URL not found")),
          evicted code s)) /\
      (clock n <= expiresAt u -> clock (S n) > expiresAt u ->
       UrlController.redirectToUrl clock req s
       = (Return (mkResponse 410 (ErrorJson "Gone" "Short URL has expired")),
          ticked (ticked (ticked s)))) /\
      (clock n <= expiresAt u -> clock (S n) <= expiresAt u ->
       clock (S (S n)) <= expiresAt u ->
       UrlController.redirectToUrl clock req s
       = (Return (mkResponse 302 (Location (originalUrl u))),
          clicked clock code u a (clickDataOf req) (S (S n)) s)) /\
      (clock n <= expiresAt u -> clock (S n) <= expiresAt u ->
       clock (S (S n)) > expiresAt u ->
       UrlController.redirectToUrl clock req s
       = (Return (mkResponse 302 (Location (originalUrl u))),
          evicted code (ticked (ticked s))))).
Proof.
  intros code n. subst code n.
  split; [|split].
  - intros Hempty. unfold UrlController.redirectToUrl, tryCatch.
    now rewrite Hempty.
  - intros Htruthy Hmissing.
    unfold UrlController.redirectToUrl, tryCatch, getUrlByShortcode.
    rewrite Htruthy. cbn [negb]. unfold bind at 1. unfold bind at 1.
    now rewrite (findByShortcode_missing clock _ s Hmissing).
  - intros u a Htruthy Hu Ha.
    assert (Hlookup : clock (clockReads s) <= expiresAt u ->
      UrlController.redirectToUrl clock req s =
      tryCatch
        (let! now := newDate clock in
         if bool_decide (now > expiresAt u) then
           let! currentTime := newDate clock in
           ret (mkResponse 410 (ErrorJson "Gone" "Short URL has expired"))
         else
           recordClick clock (params_shortcode req) (clickDataOf req) ;;;
           ret (mkResponse 302 (Location (originalUrl u))))
        (fun _ =>
           ret (mkResponse 500 (ErrorJson "Internal Server Error"
                                          "Failed to redirect")))
        (ticked s)).
    { intros Hlive.
      unfold UrlController.redirectToUrl, tryCatch, getUrlByShortcode.
      rewrite Htruthy. cbn [negb]. unfold bind at 1. unfold bind at 1.
      rewrite (findByShortcode_live clock _ s u Hu Hlive). reflexivity. }
    split; [|split; [|split]].
    + intros Hpast.
      unfold UrlController.redirectToUrl, tryCatch, getUrlByShortcode.
      rewrite Htruthy. cbn [negb]. unfold bind at 1. unfold bind at 1.
      now rewrite (findByShortcode_expired clock _ s u Hu Hpast).
    + intros Hlive Hlapsed. rewrite Hlookup by exact Hlive.
      unfold tryCatch, bind, newDate, ticked. cbn [clockReads].
      now rewrite bool_decide_eq_true_2 by exact Hlapsed.
    + intros Hlive Hlive1 Hlive2. rewrite Hlookup by exact Hlive.
      unfold tryCatch. unfold bind at 1. unfold newDate at 1, ticked.
      cbn [clockReads urls analytics bytesDrawn].
      rewrite bool_decide_eq_false_2 by lia.
      unfold bind at 1, recordClick.
      rewrite (addClick_live clock _ (clickDataOf req) _ u a) by
        (cbn [urls analytics clockReads]; assumption).
      reflexivity.
    + intros Hlive Hlive1 Hpast2. rewrite Hlookup by exact Hlive.
      unfold tryCatch. unfold bind at 1. unfold newDate at 1, ticked.
      cbn [clockReads urls analytics bytesDrawn].
      rewrite bool_decide_eq_false_2 by lia.
      unfold bind at 1, recordClick.
      rewrite (addClick_expired clock _ (clickDataOf req) _ u) by
        (cbn [urls analytics clockReads]; assumption).
      reflexivity.
Qed.

(** The record of [sampleStore] expires at 5000: a visit at 4999 is
    redirected and counted, a visit whose lookup is at 5000 and whose second
    read is at 5001 is answered 410 after a third read. *)
Lemma redirect_outcomes_witness :
  (UrlController.redirectToUrl (frozenClock 4999) (visit "abc123")
     sampleStore).1
  = Return (mkResponse 302 (Location "https://example.com/")) /\
  UrlController.redirectToUrl (tickingClock 5000) (visit "abc123") sampleStore
  = (Return (mkResponse 410 (ErrorJson "Gone" "Short URL has expired")),
     ticked (ticked (ticked sampleStore))).
Proof.
  split.
  - destruct (redirect_outcomes (frozenClock 4999) sampleStore
                (visit "abc123")) as (_ & _ & Hstored).
    destruct (Hstored sampleEntry (mkAnalytics 0 0) eq_refl eq_refl eq_refl)
      as (_ & _ & Hok & _).
    rewrite Hok; [reflexivity | | |]; vm_compute; discriminate.
  - destruct (redirect_outcomes (tickingClock 5000) sampleStore
                (visit "abc123")) as (_ & _ & Hstored).
    destruct (Hstored sampleEntry (mkAnalytics 0 0) eq_refl eq_refl eq_refl)
      as (_ & Hgone & _).
    apply Hgone; vm_compute; [discriminate | reflexivity].
Defined.

(** X15: on every store reached by store calls, GET /:shortcode answers
    302, 400, 404 or 410 and keeps the store invariant; the handler's 500
    branch is not taken. *)
Theorem redirect_status_on_reachable_stores (clock : nat -> Z)
    (ops : list Op) (req : RedirectRequest) :
  let s := run clock ops emptyStore in
  exists response s',
    UrlController.redirectToUrl clock req s = (Return response, s') /\
    status response ∈ [302%nat; 400%nat; 404%nat; 410%nat] /\
    storeInv s'.
Proof.
  intros s.
  assert (Hinv : storeInv s) by apply run_inv, storeInv_empty.
  unfold UrlController.redirectToUrl, tryCatch, getUrlByShortcode.
  destruct (truthy (Some (params_shortcode req))) eqn:Htruthy; cbn [negb].
  2:{ eexists. eexists. split; [reflexivity|]. split; [simpl; in_list|].
      exact Hinv. }
  unfold bind at 1. unfold bind at 1.
  destruct (urls s !! params_shortcode req) as [u|] eqn:Hu.
  2:{ rewrite (findByShortcode_missing clock _ s Hu). unfold ret at 1.
      eexists. eexists. split; [reflexivity|]. split; [simpl; in_list|].
      exact Hinv. }
  destruct (decide (clock (clockReads s) > expiresAt u)) as [Hpast|Hlive].
  { rewrite (findByShortcode_expired clock _ s u Hu Hpast). unfold ret at 1.
    eexists. eexists. split; [reflexivity|]. split; [simpl; in_list|].
    now apply storeInv_delete. }
  rewrite (findByShortcode_live clock _ s u Hu) by lia. unfold ret at 1.
  unfold bind at 1. unfold newDate at 1, ticked.
  cbn [clockReads urls analytics bytesDrawn].
  case_bool_decide.
  { eexists. eexists. split; [reflexivity|]. split; [simpl; in_list|].
    exact Hinv. }
  unfold bind at 1, recordClick.
  set (s2 := mkState (urls s) (analytics s) (S (S (clockReads s)))
                     (bytesDrawn s)).
  assert (Hinv2 : storeInv s2) by exact Hinv.
  pose proof (addClick_inv clock (params_shortcode req)
                (mkClickData (req_userAgent req) (req_ip req) (req_referer req))
                s2 Hinv2) as Hinv3.
  destruct (storeInv_analytics s2 _ u Hinv2 Hu) as (a & Ha & _).
  destruct (decide (clock (clockReads s2) > expiresAt u)) as [Hpast2|Hlive2].
  - rewrite (addClick_expired clock _ _ s2 u Hu Hpast2) in Hinv3 |- *.
    eexists. eexists. split; [reflexivity|]. split; [simpl; in_list|].
    exact Hinv3.
  - rewrite (addClick_live clock _ _ s2 u a Hu Ha) in Hinv3 |- * by lia.
    eexists. eexists. split; [reflexivity|]. split; [simpl; in_list|].
    exact Hinv3.
Qed.

(** X16: the outcomes of GET /shorturls/:shortcode/analytics.  An empty
    shortcode is answered 400, an unknown one 404; an expired record is
    evicted and answered 404, never 410; a live record is answered 200 with
    its fields, its clicks and the two counters of its analytics entry. *)
Theorem analytics_route_outcomes (clock : nat -> Z) (s : State)
    (code : string) :
  (truthy (Some code) = false ->
   UrlController.getUrlAnalytics clock code s
   = (Return (mkResponse 400 (ErrorJson "Bad Request" "Shortcode is required")),
      s)) /\
  (truthy (Some code) = true -> urls s !! code = None ->
   UrlController.getUrlAnalytics clock code s
   = (Return (mkResponse 404 (ErrorJson "Not Found" "Short URL not found")),
      s)) /\
  (forall u,
      truthy (Some code) = true -> urls s !! code = Some u ->
      clock (clockReads s) > expiresAt u ->
      UrlController.getUrlAnalytics clock code s
      = (Return (mkResponse 404 (ErrorJson "Not Found" "Short URL not found")),
         evicted code s)) /\
  (forall u a,
      truthy (Some code) = true -> urls s !! code = Some u ->
      analytics s !! code = Some a ->
      clock (clockReads s) <= expiresAt u ->
      UrlController.getUrlAnalytics clock code s
      = (Return (mkResponse 200
                   (AnalyticsJson
                      (mkReport code (originalUrl u) (createdAt u)
                                (expiresAt u) (totalClicks a)
                                (uniqueClicks a) (clicks u)))),
         ticked s)).
Proof.
  unfold UrlController.getUrlAnalytics, tryCatch, getUrlAnalytics.
  split; [|split; [|split]].
  - intros ->. reflexivity.
  - intros -> Hmissing. cbn [negb]. unfold bind at 1. unfold bind at 1.
    now rewrite (getAnalytics_missing clock code s Hmissing).
  - intros u -> Hu Hpast. cbn [negb]. unfold bind at 1. unfold bind at 1.
    now rewrite (getAnalytics_expired clock code s u Hu Hpast).
  - intros u a -> Hu Ha Hlive. cbn [negb]. unfold bind at 1. unfold bind at 1.
    now rewrite (getAnalytics_live clock code s u a Hu Ha Hlive).
Qed.

Lemma analytics_route_outcomes_witness :
  UrlController.getUrlAnalytics (frozenClock 6000) "abc123" sampleStore
  = (Return (mkResponse 404 (ErrorJson "Not Found" "Short URL not found")),
     evicted "abc123" sampleStore) /\
  UrlController.getUrlAnalytics (frozenClock 5000) "abc123" sampleStore
  = (Return (mkResponse 200
               (AnalyticsJson
                  (mkReport "abc123" "https://example.com/" 1000 5000 0 0 []))),
     ticked sampleStore).
Proof.
  pose proof (analytics_route_outcomes (frozenClock 6000) sampleStore "abc123")
    as (_ & _ & Hgone & _).
  pose proof (analytics_route_outcomes (frozenClock 5000) sampleStore "abc123")
    as (_ & _ & _ & Hlive).
  split.
  - apply (Hgone sampleEntry); [reflexivity | reflexivity |].
    vm_compute. reflexivity.
  - apply (Hlive sampleEntry (mkAnalytics 0 0));
      [reflexivity | reflexivity | reflexivity |].
    vm_compute. discriminate.
Defined.

(** * Further invariants of the store *)

Lemma uniqueIpCount_bounds (cs : list Click) :
  (uniqueIpCount cs <= length cs)%nat /\
  (cs <> [] -> (0 < uniqueIpCount cs)%nat).
Proof.
  unfold uniqueIpCount. split.
  - induction cs as [|c cs IH].
    + rewrite fmap_nil, list_to_set_nil, size_empty. simpl. lia.
    + rewrite fmap_cons, list_to_set_cons, size_union_alt, size_singleton.
      assert (Hle : (size (list_to_set (ip <$> cs) ∖ {[ip c]} : gset string)
                     <= size (list_to_set (ip <$> cs) : gset string))%nat).
      { apply subseteq_size. apply subseteq_difference_l. reflexivity. }
      simpl. lia.
  - intros Hne. destruct cs as [|c cs]; [congruence|].
    rewrite fmap_cons, list_to_set_cons, size_union_alt, size_singleton. lia.
Qed.

Section WellFormed.

Variable clock : nat -> Z.

Lemma keyed_step s o : keyed s -> keyed (step clock s o).
Proof.
  intros Hk. destruct o as [data|key|key cd|key|]; simpl.
  - destruct data as [key url x].
    destruct (urls s !! key) as [u|] eqn:Hu.
    + erewrite create_present by (simpl; eauto). exact Hk.
    + destruct x as [x|];
        [rewrite create_fresh by exact Hu
        |rewrite create_fresh_default by exact Hu];
        intros k u'; simpl;
        (destruct (decide (k = key)) as [->|Hne];
         [rewrite lookup_insert_eq; intros [= <-]; auto
         |rewrite lookup_insert_ne by congruence; apply Hk]).
  - destruct (urls s !! key) as [u|] eqn:Hu.
    + destruct (decide (clock (clockReads s) > expiresAt u)) as [He|Hl].
      * rewrite (findByShortcode_expired clock key s u Hu He).
        intros k u' Hl. simpl in Hl.
        apply lookup_delete_Some in Hl as [_ Hl]. now apply Hk.
      * rewrite (findByShortcode_live clock key s u Hu) by lia. exact Hk.
    + rewrite (findByShortcode_missing clock key s Hu). exact Hk.
  - unfold addClick. js_unfold.
    destruct (urls s !! key) as [u|] eqn:Hu; simpl; [|exact Hk].
    case_bool_decide; simpl.
    + intros k u' Hl. simpl in Hl.
      apply lookup_delete_Some in Hl as [_ Hl]. now apply Hk.
    + assert (Hins : keyed (mkState
                 (<[key := mkUrlEntry (id u) (shortcode u) (originalUrl u)
                             (expiresAt u) (createdAt u)
                             (clicks u ++
                                [mkClick (clock (S (clockReads s)))
                                   (orEmpty (cd_userAgent cd))
                                   (orEmpty (cd_ip cd))
                                   (orEmpty (cd_referer cd))])]> (urls s))
                 (analytics s) (S (S (clockReads s))) (bytesDrawn s))).
      { intros k u'. simpl.
        destruct (decide (k = key)) as [->|Hne].
        - rewrite lookup_insert_eq. intros [= <-]. simpl. now apply Hk.
        - rewrite lookup_insert_ne by congruence. apply Hk. }
      destruct (analytics s !! key); simpl; exact Hins.
  - unfold getAnalytics. js_unfold.
    destruct (urls s !! key) as [u|] eqn:Hu; simpl; [|exact Hk].
    case_bool_decide; simpl.
    + intros k u' Hl. simpl in Hl.
      apply lookup_delete_Some in Hl as [_ Hl]. now apply Hk.
    + destruct (analytics s !! key); simpl; exact Hk.
  - intros k u Hl. rewrite cleanupExpired_urls in Hl.
    apply map_lookup_filter_Some in Hl as [Hl _]. now apply Hk.
Qed.

Lemma keyed_run ops s : keyed s -> keyed (run clock ops s).
Proof.
  revert s. induction ops as [|o ops IH]; intros s Hk; simpl.
  - exact Hk.
  - apply IH, keyed_step, Hk.
Qed.

End WellFormed.

(** X17: on every store reached by store calls, each record is stored
    under its own shortcode (which is also its [id]), and its analytics
    entry satisfies [uniqueClicks <= totalClicks], with [uniqueClicks] at
    least 1 as soon as there is a click. *)
Theorem reachable_stores_are_well_formed (clock : nat -> Z) (ops : list Op) :
  let s := run clock ops emptyStore in
  forall k u,
    urls s !! k = Some u ->
    shortcode u = k /\ id u = k /\
    exists a,
      analytics s !! k = Some a /\
      (uniqueClicks a <= totalClicks a)%nat /\
      ((0 < totalClicks a)%nat -> (0 < uniqueClicks a)%nat).
Proof.
  intros s k u Hu.
  assert (Hinv : storeInv s) by apply run_inv, storeInv_empty.
  destruct (keyed_run clock ops emptyStore) with (k := k) (u := u)
    as [Hsc Hid].
  { intros k' u' Hl. simpl in Hl. rewrite lookup_empty in Hl. discriminate. }
  { exact Hu. }
  split; [exact Hsc|]. split; [exact Hid|].
  destruct (storeInv_analytics s k u Hinv Hu) as (a & Ha & Ht & Hq).
  exists a. split; [exact Ha|].
  destruct (uniqueIpCount_bounds (clicks u)) as [Hle Hpos].
  rewrite Ht, Hq. split; [exact Hle|].
  intros Hlen. apply Hpos. destruct (clicks u); [simpl in Hlen; lia|discriminate].
Qed.

Lemma reachable_stores_are_well_formed_witness :
  exists a,
    analytics (run (tickingClock 1000) sampleOps emptyStore) !! "abc123"
      = Some a /\
    (uniqueClicks a <= totalClicks a)%nat /\
    ((0 < totalClicks a)%nat -> (0 < uniqueClicks a)%nat).
Proof.
  destruct (reachable_stores_are_well_formed (tickingClock 1000) sampleOps
              "abc123"
              (mkUrlEntry "abc123" "abc123" "https://example.com/" 5000 1000
                 [ clickOf (tickingClock 1000) 2 (click "10.0.0.1");
                   clickOf (tickingClock 1000) 4 (click "10.0.0.2");
                   clickOf (tickingClock 1000) 6 (click "10.0.0.1") ]))
    as (_ & _ & Hanalytics).
  - vm_compute. reflexivity.
  - exact Hanalytics.
Defined.

(** ** Records only grow *)

Lemma grownFrom_refl (u : UrlEntry) : grownFrom u u.
Proof. unfold grownFrom. repeat split; reflexivity. Qed.

Lemma grownFrom_trans (u v w : UrlEntry) :
  grownFrom u v -> grownFrom v w -> grownFrom u w.
Proof.
  unfold grownFrom.
  intros (H1 & H2 & H3 & H4 & H5 & H6) (K1 & K2 & K3 & K4 & K5 & K6).
  repeat split; try congruence. etrans; eauto.
Qed.

Lemma onlyGrown_same (key : string) (s s' : State) :
  urls s' !! key = urls s !! key -> onlyGrown key s s'.
Proof.
  intros Heq u' Hu'. exists u'. split; [congruence | apply grownFrom_refl].
Qed.

Lemma onlyGrown_gone (key : string) (s s' : State) :
  urls s' !! key = None -> onlyGrown key s s'.
Proof. intros Hnone u' Hu'. congruence. Qed.

Lemma onlyGrown_trans (key : string) (s1 s2 s3 : State) :
  onlyGrown key s1 s2 -> onlyGrown key s2 s3 -> onlyGrown key s1 s3.
Proof.
  intros H12 H23 w Hw.
  destruct (H23 w Hw) as (v & Hv & Hvw).
  destruct (H12 v Hv) as (u & Hu & Huv).
  exists u. split; [exact Hu|]. eapply grownFrom_trans; eauto.
Qed.

Lemma step_onlyGrown (clock : nat -> Z) (key : string) (s : State) (o : Op) :
  ~ isCreateOf key o -> onlyGrown key s (step clock s o).
Proof.
  intros Hnc. destruct o as [data|k|k cd|k|]; simpl in *.
  - apply onlyGrown_same. now apply create_frame.
  - destruct (decide (k = key)) as [->|Hne];
      [|apply onlyGrown_same; now apply findByShortcode_frame].
    destruct (urls s !! key) as [u|] eqn:Hu.
    + destruct (decide (clock (clockReads s) > expiresAt u)) as [He|Hl].
      * rewrite (findByShortcode_expired clock key s u Hu He).
        apply onlyGrown_gone. simpl. apply lookup_delete_eq.
      * rewrite (findByShortcode_live clock key s u Hu) by lia.
        now apply onlyGrown_same.
    + rewrite (findByShortcode_missing clock key s Hu).
      now apply onlyGrown_same.
  - destruct (decide (k = key)) as [->|Hne];
      [|apply onlyGrown_same; now apply addClick_frame].
    unfold addClick. js_unfold.
    destruct (urls s !! key) as [u|] eqn:Hu; simpl;
      [|now apply onlyGrown_same].
    case_bool_decide; simpl.
    + apply onlyGrown_gone. simpl. apply lookup_delete_eq.
    + assert (Hgrow : forall an c r,
        onlyGrown key s
          (mkState (<[key := mkUrlEntry (id u) (shortcode u) (originalUrl u)
                               (expiresAt u) (createdAt u)
                               (clicks u ++ [c])]> (urls s)) an r
                   (bytesDrawn s))).
      { intros an c r u' Hu'. simpl in Hu'.
        rewrite lookup_insert_eq in Hu'. injection Hu' as <-.
        exists u. split; [exact Hu|]. unfold grownFrom. simpl.
        repeat split; try reflexivity. now apply prefix_app_r. }
      destruct (analytics s !! key); simpl; apply Hgrow.
  - destruct (decide (k = key)) as [->|Hne];
      [|apply onlyGrown_same; now apply getAnalytics_frame].
    unfold getAnalytics. js_unfold.
    destruct (urls s !! key) as [u|] eqn:Hu; simpl;
      [|now apply onlyGrown_same].
    case_bool_decide; simpl.
    + apply onlyGrown_gone. simpl. apply lookup_delete_eq.
    + destruct (analytics s !! key); simpl; now apply onlyGrown_same.
  - intros u' Hu'. rewrite cleanupExpired_urls in Hu'.
    apply map_lookup_filter_Some in Hu' as [Hu' _].
    exists u'. split; [exact Hu' | apply grownFrom_refl].
Qed.

(** X18: records are append-only.  Over any sequence of store calls that
    does not create the shortcode again, a record that is still stored has
    the [id], [shortcode], [originalUrl], [expiresAt] and [createdAt] it
    had, and its old clicks are a prefix of its clicks: clicks are only
    ever appended, never changed, reordered or removed. *)
Theorem records_only_grow (clock : nat -> Z) (key : string) (ops : list Op)
    (s : State) :
  Forall (fun o => ~ isCreateOf key o) ops ->
  forall u', urls (run clock ops s) !! key = Some u' ->
    exists u, urls s !! key = Some u /\ grownFrom u u'.
Proof.
  intros Hops. revert s.
  induction Hops as [|o ops Ho _ IH]; intros s; simpl.
  - intros u' Hu'. exists u'. split; [exact Hu' | apply grownFrom_refl].
  - apply (onlyGrown_trans key s (step clock s o)).
    + now apply step_onlyGrown.
    + exact (IH (step clock s o)).
Qed.

Lemma records_only_grow_witness :
  exists u,
    urls sampleStore !! "abc123" = Some u /\
    grownFrom u
      (mkUrlEntry "abc123" "abc123" "https://example.com/" 5000 1000
         [ clickOf (tickingClock 1000) 1 (click "10.0.0.1");
           clickOf (tickingClock 1000) 4 (click "10.0.0.2") ]).
Proof.
  apply (records_only_grow (tickingClock 1000) "abc123"
           [ OpAddClick "abc123" (click "10.0.0.1");
             OpFind "abc123";
             OpAddClick "abc123" (click "10.0.0.2");
             OpCleanup ] sampleStore).
  - repeat constructor; simpl; tauto.
  - vm_compute. reflexivity.
Defined.

(** ** Clicks are in chronological order *)

Section Chronology.

Variable clock : nat -> Z.

Lemma readInOrder_weaken (s s' : State) :
  (forall k u, urls s' !! k = Some u -> urls s !! k = Some u) ->
  (clockReads s <= clockReads s')%nat ->
  readInOrder clock s -> readInOrder clock s'.
Proof.
  intros Hsub Hle Hin k u Hu.
  destruct (Hin k u (Hsub k u Hu)) as (reads & Heq & Hsorted & Hbound).
  exists reads. split; [exact Heq|]. split; [exact Hsorted|].
  eapply Forall_impl; [exact Hbound|]. simpl. intros t Ht. lia.
Qed.

Lemma readInOrder_insert (s : State) (key : string) (u : UrlEntry)
    (an : gmap string Analytics) (c : nat) (reads : list nat) :
  readInOrder clock s ->
  (clockReads s <= c)%nat ->
  instants u = clock <$> reads ->
  StronglySorted lt reads ->
  Forall (fun t => (t < c)%nat) reads ->
  readInOrder clock (mkState (<[key := u]> (urls s)) an c (bytesDrawn s)).
Proof.
  intros Hin Hle Heq Hsorted Hbound k u'. simpl.
  destruct (decide (k = key)) as [->|Hne].
  - rewrite lookup_insert_eq. intros [= <-]. eauto.
  - rewrite lookup_insert_ne by congruence. intros Hu'.
    destruct (Hin k u' Hu') as (reads' & Heq' & Hsorted' & Hbound').
    exists reads'. split; [exact Heq'|]. split; [exact Hsorted'|].
    eapply Forall_impl; [exact Hbound'|]. simpl. intros t Ht. lia.
Qed.

Lemma StronglySorted_snoc (reads : list nat) (n : nat) :
  StronglySorted lt reads -> Forall (fun t => (t < n)%nat) reads ->
  StronglySorted lt (reads ++ [n]).
Proof.
  induction 1 as [|x l Hl IH Hx]; intros Hb; simpl.
  - repeat constructor.
  - inversion Hb as [|? ? Hxn Hb']; subst. constructor; [auto|].
    apply Forall_app. split; [exact Hx|]. repeat constructor. exact Hxn.
Qed.

Lemma readInOrder_step (s : State) (o : Op) :
  readInOrder clock s -> readInOrder clock (step clock s o).
Proof.
  intros Hin. destruct o as [data|k|k cd|k|]; simpl.
  - destruct data as [key url x].
    destruct (urls s !! key) as [u|] eqn:Hu.
    + erewrite create_present by (simpl; eauto). exact Hin.
    + destruct x as [x|].
      * rewrite create_fresh by exact Hu. simpl.
        apply (readInOrder_insert s key _ _ _ [clockReads s]);
          auto; repeat constructor.
      * rewrite create_fresh_default by exact Hu. simpl.
        apply (readInOrder_insert s key _ _ _ [S (clockReads s)]);
          auto; repeat constructor.
  - destruct (urls s !! k) as [u|] eqn:Hu.
    + destruct (decide (clock (clockReads s) > expiresAt u)) as [He|Hl].
      * rewrite (findByShortcode_expired clock k s u Hu He).
        apply (readInOrder_weaken s); [|simpl; lia|exact Hin].
        intros k' u' Hl. simpl in Hl. now apply lookup_delete_Some in Hl.
      * rewrite (findByShortcode_live clock k s u Hu) by lia.
        apply (readInOrder_weaken s); [auto|simpl; lia|exact Hin].
    + now rewrite (findByShortcode_missing clock k s Hu).
  - unfold addClick. js_unfold.
    destruct (urls s !! k) as [u|] eqn:Hu; simpl; [|exact Hin].
    case_bool_decide; simpl.
    + apply (readInOrder_weaken s); [|simpl; lia|exact Hin].
      intros k' u' Hl. simpl in Hl. now apply lookup_delete_Some in Hl.
    + destruct (Hin k u Hu) as (reads & Heq & Hsorted & Hbound).
      assert (Hpush : forall an,
        readInOrder clock
          (mkState (<[k := mkUrlEntry (id u) (shortcode u) (originalUrl u)
                             (expiresAt u) (createdAt u)
                             (clicks u ++
                                [mkClick (clock (S (clockReads s)))
                                   (orEmpty (cd_userAgent cd))
                                   (orEmpty (cd_ip cd))
                                   (orEmpty (cd_referer cd))])]> (urls s))
                   an (S (S (clockReads s))) (bytesDrawn s))).
      { intros an.
        apply (readInOrder_insert s k _ _ _ (reads ++ [S (clockReads s)]));
          [exact Hin | lia | | |].
        - unfold instants in *. simpl. rewrite fmap_app, fmap_app.
          simpl. rewrite app_comm_cons, Heq. reflexivity.
        - apply StronglySorted_snoc; [exact Hsorted|].
          eapply Forall_impl; [exact Hbound|]. simpl. intros t Ht. lia.
        - apply Forall_app. split.
          + eapply Forall_impl; [exact Hbound|]. simpl. intros t Ht. lia.
          + repeat constructor. }
      destruct (analytics s !! k); simpl; apply Hpush.
  - unfold getAnalytics. js_unfold.
    destruct (urls s !! k) as [u|] eqn:Hu; simpl; [|exact Hin].
    case_bool_decide; simpl.
    + apply (readInOrder_weaken s); [|simpl; lia|exact Hin].
      intros k' u' Hl. simpl in Hl. now apply lookup_delete_Some in Hl.
    + destruct (analytics s !! k); simpl;
        (apply (readInOrder_weaken s); [auto|simpl; lia|exact Hin]).
  - apply (readInOrder_weaken s); [| |exact Hin].
    + intros k u Hl. rewrite cleanupExpired_urls in Hl.
      now apply map_lookup_filter_Some in Hl.
    + destruct (cleanupExpired_spec clock s) as (s' & -> & Hc & _).
      simpl. lia.
Qed.

Lemma readInOrder_run (ops : list Op) (s : State) :
  readInOrder clock s -> readInOrder clock (run clock ops s).
Proof.
  revert s. induction ops as [|o ops IH]; intros s Hin; simpl.
  - exact Hin.
  - apply IH, readInOrder_step, Hin.
Qed.

Lemma monotone_sorted (reads : list nat) :
  monotone clock -> StronglySorted lt reads ->
  StronglySorted Z.le (clock <$> reads).
Proof.
  intros Hmono. induction 1 as [|x l Hl IH Hx]; simpl.
  - constructor.
  - constructor; [exact IH|].
    apply Forall_fmap. eapply Forall_impl; [exact Hx|].
    simpl. intros t Ht. apply Hmono. lia.
Qed.

End Chronology.

(** X19: with a clock that never runs backwards, on every store reached by
    store calls each record lists its clicks in chronological order, none
    of them earlier than the record's [createdAt]: the sequence
    [createdAt, timestamp of click 1, timestamp of click 2, ...] never
    decreases. *)
Theorem clicks_are_chronological (clock : nat -> Z) (ops : list Op)
    (k : string) (u : UrlEntry) :
  monotone clock ->
  urls (run clock ops emptyStore) !! k = Some u ->
  StronglySorted Z.le (createdAt u :: (timestamp <$> clicks u)).
Proof.
  intros Hmono Hu.
  assert (Hin : readInOrder clock (run clock ops emptyStore)).
  { apply readInOrder_run. intros k' u' Hl. simpl in Hl.
    rewrite lookup_empty in Hl. discriminate. }
  destruct (Hin k u Hu) as (reads & Heq & Hsorted & _).
  unfold instants in Heq. rewrite Heq.
  now apply monotone_sorted.
Qed.

Lemma clicks_are_chronological_witness :
  StronglySorted Z.le [1000; 1002; 1004; 1006].
Proof.
  apply (clicks_are_chronological (tickingClock 1000) sampleOps "abc123"
           (mkUrlEntry "abc123" "abc123" "https://example.com/" 5000 1000
              [ clickOf (tickingClock 1000) 2 (click "10.0.0.1");
                clickOf (tickingClock 1000) 4 (click "10.0.0.2");
                clickOf (tickingClock 1000) 6 (click "10.0.0.1") ])).
  - apply tickingClock_monotone.
  - vm_compute. reflexivity.
Defined.

(** * Properties of the logging middleware *)

Section RetryFacts.

Import LoggingMiddleware.

Variable config : Config.
Variable post : nat -> bool.

Lemma sendLogsWithRetryFrom_spec (remaining attempt : nat) :
  (1 <= attempt)%nat ->
  let d := sendLogsWithRetryFrom config post remaining attempt in
  (attempt <= posts d <= attempt + remaining)%nat /\
  delays d = (fun a => (retryDelay config * a)%nat)
               <$> seq attempt (posts d - attempt) /\
  (forall k, (attempt - 1 <= k < posts d - 1)%nat -> post k = false) /\
  post (posts d - 1) = resolved d /\
  (resolved d = false -> posts d = (attempt + remaining)%nat).
Proof.
  revert attempt. induction remaining as [|fewer IH]; intros attempt Hpos;
    cbn [sendLogsWithRetryFrom];
    destruct (post (attempt - 1)) eqn:Hpost; cbn [posts delays resolved].
  - rewrite Nat.sub_diag.
    split; [lia|]. split; [reflexivity|]. split; [intros k Hk; lia|].
    split; [exact Hpost | discriminate].
  - rewrite Nat.sub_diag.
    split; [lia|]. split; [reflexivity|]. split; [intros k Hk; lia|].
    split; [exact Hpost | intros _; lia].
  - rewrite Nat.sub_diag.
    split; [lia|]. split; [reflexivity|]. split; [intros k Hk; lia|].
    split; [exact Hpost | discriminate].
  - destruct (IH (S attempt)) as (Hposts & Hdelays & Hfailed & Hlast & Hall);
      [lia|].
    cbv zeta in Hdelays, Hposts, Hfailed, Hlast, Hall.
    split; [lia|]. split; [|split; [|split]].
    + rewrite Hdelays.
      replace (posts (sendLogsWithRetryFrom config post fewer (S attempt))
               - attempt)%nat
        with (S (posts (sendLogsWithRetryFrom config post fewer (S attempt))
                 - S attempt)) by lia.
      reflexivity.
    + intros k Hk.
      destruct (decide (k = attempt - 1)%nat) as [->|Hne]; [exact Hpost|].
      apply Hfailed. lia.
    + exact Hlast.
    + intros Hres. rewrite (Hall Hres). lia.
Qed.

End RetryFacts.

(** X20: [sendLogsWithRetry] makes at least one POST and at most
    [retryAttempts] of them (one when [retryAttempts] is 0), stops at the
    first POST that resolves, and sleeps [retryDelay * k] milliseconds
    after the k-th failed POST; it resolves exactly when one of the POSTs
    it is entitled to resolves, and when it rejects it has used them
    all. *)
Theorem sendLogsWithRetry_is_bounded (config : LoggingMiddleware.Config)
    (post : nat -> bool) :
  let d := LoggingMiddleware.sendLogsWithRetry config post in
  let limit := Nat.max 1 (LoggingMiddleware.retryAttempts config) in
  (1 <= LoggingMiddleware.posts d <= limit)%nat /\
  LoggingMiddleware.delays d
    = (fun k => (LoggingMiddleware.retryDelay config * k)%nat)
        <$> seq 1 (LoggingMiddleware.posts d - 1)%nat /\
  (forall k, (k < LoggingMiddleware.posts d - 1)%nat -> post k = false) /\
  post (LoggingMiddleware.posts d - 1)%nat = LoggingMiddleware.resolved d /\
  (LoggingMiddleware.resolved d = true <->
   exists k, (k < limit)%nat /\ post k = true) /\
  (LoggingMiddleware.resolved d = false -> LoggingMiddleware.posts d = limit).
Proof.
  intros d limit. subst d limit. unfold LoggingMiddleware.sendLogsWithRetry.
  destruct (sendLogsWithRetryFrom_spec config post
              (LoggingMiddleware.retryAttempts config - 1) 1)
    as (Hposts & Hdelays & Hfailed & Hlast & Hall); [lia|].
  cbv zeta in *.
  set (d := LoggingMiddleware.sendLogsWithRetryFrom config post _ 1) in *.
  split; [lia|]. split; [exact Hdelays|].
  split; [intros k Hk; apply Hfailed; lia|].
  split; [exact Hlast|]. split; [split|].
  - intros Hres. exists (LoggingMiddleware.posts d - 1)%nat.
    split; [lia|]. now rewrite Hlast.
  - intros (k & Hk & Hpost).
    destruct (LoggingMiddleware.resolved d) eqn:Hres; [reflexivity|].
    specialize (Hall eq_refl).
    destruct (decide (k < LoggingMiddleware.posts d - 1)%nat) as [Hlt|Hge].
    + rewrite (Hfailed k) in Hpost by lia. discriminate.
    + assert (k = LoggingMiddleware.posts d - 1)%nat by lia. subst k.
      congruence.
  - intros Hres. specialize (Hall Hres). lia.
Qed.

(** With three attempts and a delay of 1000 ms: a network whose third POST
    is the first to resolve costs three POSTs and delays of 1000 and
    2000 ms; a dead network costs three POSTs too, and the call rejects. *)
Lemma sendLogsWithRetry_is_bounded_witness :
  LoggingMiddleware.sendLogsWithRetry
    (LoggingMiddleware.mkConfig 10 3 1000) (onlyPost 2)
  = LoggingMiddleware.mkDelivery true 3 [1000; 2000]%nat /\
  (LoggingMiddleware.resolved
     (LoggingMiddleware.sendLogsWithRetry
        (LoggingMiddleware.mkConfig 10 3 1000) noPost) = false ->
   LoggingMiddleware.posts
     (LoggingMiddleware.sendLogsWithRetry
        (LoggingMiddleware.mkConfig 10 3 1000) noPost) = 3%nat).
Proof.
  split; [reflexivity|].
  apply (sendLogsWithRetry_is_bounded
           (LoggingMiddleware.mkConfig 10 3 1000) noPost).
Defined.

Section QueueFacts.

Import LoggingMiddleware.

Context {Entry : Type}.
Variable level : Entry -> string.
Variable config : Config.

Lemma flushLogsBegin_keeps (queue : list Entry) :
  let (queue', batch) := flushLogsBegin queue in
  concat (started batch) ++ queue' = queue /\
  (queue' = [] \/ batch = None /\ queue' = queue).
Proof.
  unfold flushLogsBegin. case_bool_decide as Hlen; simpl.
  - destruct queue; [auto | discriminate].
  - rewrite !app_nil_r. auto.
Qed.

Lemma flushLogsBegin_snoc (queue : list Entry) (e : Entry) :
  flushLogsBegin (queue ++ [e]) = ([], Some (queue ++ [e])).
Proof.
  unfold flushLogsBegin.
  rewrite bool_decide_eq_false_2; [reflexivity|].
  rewrite length_app. simpl. lia.
Qed.

Lemma processLogEntry_keeps (e : Entry) (queue : list Entry) :
  let (queue', batch) := processLogEntry level config e queue in
  concat (started batch) ++ queue' = queue ++ [e] /\
  (queue' = [] \/ (length queue' < batchSize config)%nat) /\
  (level e = "fatal"%string -> queue' = []).
Proof.
  unfold processLogEntry. cbv zeta. rewrite flushLogsBegin_snoc.
  case_bool_decide as Hfatal.
  - simpl. rewrite !app_nil_r. auto.
  - case_bool_decide as Hfull.
    + simpl. rewrite !app_nil_r. split; [reflexivity|]. split; [auto|].
      intros; contradiction.
    + simpl. split; [reflexivity|]. split; [right; lia|].
      intros; contradiction.
Qed.

Lemma concat_delete (l : list (list Entry)) (i : nat) (x : list Entry) :
  l !! i = Some x -> concat l ≡ₚ x ++ concat (delete i l).
Proof.
  revert i. induction l as [|y l IH]; intros [|i] Hi; try discriminate.
  - injection Hi as ->. reflexivity.
  - simpl in Hi |- *. rewrite (IH i Hi).
    rewrite !app_assoc. apply Permutation_app_tail, Permutation_app_comm.
Qed.

Lemma handle_keeps (b : Books Entry) (ev : Event Entry) :
  bookkeeping (handle level config b ev)
    ≡ₚ bookkeeping b ++ loggedEntries [ev].
Proof.
  unfold bookkeeping. destruct ev as [e| |i ok]; simpl.
  - pose proof (processLogEntry_keeps e (logQueue b)) as Hkeep.
    destruct (processLogEntry level config e (logQueue b)) as [queue batch].
    destruct Hkeep as [Hkeep _]. simpl.
    rewrite concat_app, <- !app_assoc, Hkeep. reflexivity.
  - pose proof (flushLogsBegin_keeps (logQueue b)) as Hkeep.
    destruct (flushLogsBegin (logQueue b)) as [queue batch].
    destruct Hkeep as [Hkeep _]. simpl.
    rewrite concat_app, <- !app_assoc, Hkeep, app_nil_r. reflexivity.
  - rewrite app_nil_r.
    destruct (inFlight b !! i) as [logsToSend|] eqn:Hi; [|reflexivity].
    rewrite (concat_delete (inFlight b) i logsToSend Hi).
    destruct ok; simpl; unfold flushLogsFailed.
    + rewrite <- !app_assoc. reflexivity.
    + rewrite <- !app_assoc.
      apply Permutation_app_head.
      rewrite !app_assoc.
      apply Permutation_app_tail, Permutation_app_comm.
Qed.

Lemma handleAll_keeps (events : list (Event Entry)) (b : Books Entry) :
  bookkeeping (handleAll level config events b)
    ≡ₚ bookkeeping b ++ loggedEntries events.
Proof.
  revert b. induction events as [|ev events IH]; intros b.
  - simpl. now rewrite app_nil_r.
  - change (handleAll level config (ev :: events) b)
      with (handleAll level config events (handle level config b ev)).
    rewrite IH, handle_keeps.
    change (ev :: events) with ([ev] ++ events).
    unfold loggedEntries. rewrite omap_app, <- app_assoc. reflexivity.
Qed.

End QueueFacts.

(** X21: the logger neither drops nor duplicates an entry.  Whatever the
    order in which entries are logged, the flush timer fires and the
    flushes in flight resolve or reject, the acknowledged entries, the
    batches in flight and the queue together hold exactly the entries that
    were logged.  Moreover a logged entry leaves the queue empty or shorter
    than [batchSize], and a fatal entry never waits in the queue. *)
Theorem logger_keeps_every_entry {Entry : Type} (level : Entry -> string)
    (config : LoggingMiddleware.Config)
    (events : list (LoggingMiddleware.Event Entry)) :
  bookkeeping
    (LoggingMiddleware.handleAll level config events
       (LoggingMiddleware.mkBooks [] [] []))
    ≡ₚ LoggingMiddleware.loggedEntries events /\
  (forall logEntry queue,
      let queue' :=
        (LoggingMiddleware.processLogEntry level config logEntry queue).1 in
      (queue' = [] \/
       (length queue' < LoggingMiddleware.batchSize config)%nat) /\
      (level logEntry = "fatal"%string -> queue' = [])).
Proof.
  split.
  - rewrite handleAll_keeps. reflexivity.
  - intros e queue.
    pose proof (processLogEntry_keeps level config e queue) as Hkeep.
    destruct (LoggingMiddleware.processLogEntry level config e queue)
      as [queue' batch].
    simpl. tauto.
Qed.

(** * Properties of the file logger *)

Section LoggerFacts.

Context {Metadata : Type}.
Variable clock : nat -> Z.
Variable stringify : Z -> string -> string -> Metadata -> string.

Lemma string_app_assoc (a b c : string) : (a +:+ b) +:+ c = a +:+ (b +:+ c).
Proof.
  induction a as [|x a IH]; [reflexivity|].
  change (String x ((a +:+ b) +:+ c) = String x (a +:+ (b +:+ c))).
  now rewrite IH.
Qed.

Lemma string_app_nil_r (a : string) : a +:+ "" = a.
Proof.
  induction a as [|x a IH]; [reflexivity|].
  change (String x (a +:+ "") = String x a). now rewrite IH.
Qed.

Lemma contentOf_writeToFile (filename target content : string)
    (d : Logger.Disk) :
  contentOf filename (Logger.writeToFile target content d) =
    contentOf filename d +:+
    (if bool_decide (filename = target) then content else "").
Proof.
  unfold contentOf, Logger.writeToFile. simpl.
  case_bool_decide as Heq.
  - subst. now rewrite lookup_insert_eq.
  - rewrite lookup_insert_ne by congruence. now rewrite string_app_nil_r.
Qed.

Lemma bool_decide_in_1 (x a : string) :
  bool_decide (x ∈ [a]) = bool_decide (x = a).
Proof.
  apply bool_decide_ext. rewrite elem_of_cons. split; [|auto].
  intros [H|H]; [exact H | inversion H].
Qed.

Lemma bool_decide_in_2 (x a b : string) :
  bool_decide (x ∈ [a; b]) = bool_decide (x = a) || bool_decide (x = b).
Proof.
  destruct (decide (x = a)) as [->|Hne].
  - rewrite (bool_decide_eq_true_2 (a = a)) by reflexivity.
    rewrite bool_decide_eq_true_2 by apply list_elem_of_here. reflexivity.
  - rewrite (bool_decide_eq_false_2 (x = a)) by exact Hne. simpl.
    apply bool_decide_ext. rewrite !elem_of_cons.
    split; [|auto].
    intros [H|[H|H]]; [contradiction | exact H | inversion H].
Qed.

Lemma perform_spec (filename : string) (d : Logger.Disk)
    (c : LoggerCall Metadata) :
  contentOf filename (perform clock stringify d c) =
    contentOf filename d +:+
    (if bool_decide (filename ∈ targets c)
     then lineOf clock stringify (Logger.diskClockReads d) c else "") /\
  Logger.diskClockReads (perform clock stringify d c)
    = S (Logger.diskClockReads d).
Proof.
  destruct c as [m md|m md|m md|m md]; cbn [perform targets lineOf];
    unfold Logger.info, Logger.error, Logger.warn, Logger.debug,
      Logger.formatMessage; cbv zeta;
    rewrite ?contentOf_writeToFile; (split; [|reflexivity]);
    rewrite ?bool_decide_in_1, ?bool_decide_in_2;
    unfold contentOf at 1; cbn [Logger.files]; fold (contentOf filename d);
    try reflexivity.
  rewrite string_app_assoc. f_equal.
  destruct (bool_decide (filename = "error.log"%string)) eqn:Herr;
    destruct (bool_decide (filename = "app.log"%string)) eqn:Happ;
    cbn [orb]; try reflexivity.
  - apply bool_decide_eq_true_1 in Herr. apply bool_decide_eq_true_1 in Happ.
    congruence.
  - apply string_app_nil_r.
Qed.

Lemma performAll_spec (filename : string) (calls : list (LoggerCall Metadata))
    (d : Logger.Disk) :
  contentOf filename (performAll clock stringify calls d) =
    contentOf filename d +:+
    written clock stringify filename (Logger.diskClockReads d) calls.
Proof.
  revert d. induction calls as [|c calls IH]; intros d; simpl.
  - now rewrite string_app_nil_r.
  - change (fold_left (perform clock stringify) calls
              (perform clock stringify d c))
      with (performAll clock stringify calls (perform clock stringify d c)).
    rewrite IH. destruct (perform_spec filename d c) as [-> ->].
    now rewrite string_app_assoc.
Qed.

End LoggerFacts.

(** X22: the files of the logger are append-only journals of its calls.
    After any sequence of [info], [error], [warn] and [debug] calls the
    content of a log file is what it was, followed by one line per call
    that targets the file, in call order: [app.log] gets the info, error
    and warn lines, [error.log] the error lines, [debug.log] the debug
    lines, and an error call writes the very same line, with one
    timestamp, to [error.log] and to [app.log]. *)
Theorem log_files_are_journals {Metadata : Type} (clock : nat -> Z)
    (stringify : Z -> string -> string -> Metadata -> string)
    (calls : list (LoggerCall Metadata)) (d : Logger.Disk)
    (filename : string) :
  contentOf filename (performAll clock stringify calls d) =
    contentOf filename d +:+
    written clock stringify filename (Logger.diskClockReads d) calls.
Proof. apply performAll_spec. Qed.

(** * Properties of the error handler and of the utilities *)

(** The handler's opening call to the file logger: one clock read, one
    line appended to error.log and to app.log. *)
Lemma globalErrorHandler_logs (clock : nat -> Z)
    (stringify : Z -> string -> string -> ErrorMetadata -> string)
    (req : ErrorRequest) (err : ErrorObject) (d : Logger.Disk) :
  let d1 :=
    Logger.error clock stringify "Global error handler triggered"
      (mkErrorMetadata (ereq_requestId req) (err_message err) (err_stack err)
                       (ereq_url req) (ereq_method req)) d in
  Logger.diskClockReads d1 = S (Logger.diskClockReads d) /\
  forall filename,
    contentOf filename d1 =
      contentOf filename d +:+
      (if bool_decide (filename ∈ ["error.log"; "app.log"]%string)
       then errorLine clock stringify req err d else "").
Proof.
  intros d1. split.
  - apply (perform_spec clock stringify "app.log" d
             (CallError "Global error handler triggered"
                (mkErrorMetadata (ereq_requestId req) (err_message err)
                   (err_stack err) (ereq_url req) (ereq_method req)))).
  - intros filename.
    apply (perform_spec clock stringify filename d
             (CallError "Global error handler triggered"
                (mkErrorMetadata (ereq_requestId req) (err_message err)
                   (err_stack err) (ereq_url req) (ereq_method req)))).
Qed.

(** X23: what [globalErrorHandler] discloses, and where.  The handler first
    writes one line with the error's message and stack to error.log and to
    app.log, whatever [NODE_ENV]; that line carries the first clock reading.
    The answer carries the second: when [NODE_ENV] is 'production', an
    answer with a status of 500 or more has the fixed message 'Something
    went wrong on our end' and no details, whatever the error's own
    message; and the stack and name of the error are part of an answer only
    when [NODE_ENV] is 'development'. *)
Theorem error_answers_do_not_leak (clock : nat -> Z)
    (stringify : Z -> string -> string -> ErrorMetadata -> string)
    (NODE_ENV : option string) (req : ErrorRequest) (err : ErrorObject)
    (d : Logger.Disk) (response : ErrorResponse) (d' : Logger.Disk) :
  ErrorHandler.globalErrorHandler clock stringify NODE_ENV req err d
    = (Return response, d') ->
  (NODE_ENV = Some "production"%string -> er_status response >= 500 ->
   eb_error (er_body response) = "Internal Server Error"%string /\
   eb_message (er_body response) = "Something went wrong on our end"%string /\
   eb_details (er_body response) = NoDetails) /\
  (forall stack name,
      eb_details (er_body response) = DebugDetails stack name ->
      NODE_ENV = Some "development"%string /\
      stack = err_stack err /\ name = err_name err) /\
  eb_timestamp (er_body response) = clock (S (Logger.diskClockReads d)) /\
  Logger.diskClockReads d' = S (S (Logger.diskClockReads d)) /\
  (forall filename,
      contentOf filename d' =
        contentOf filename d +:+
        (if bool_decide (filename ∈ ["error.log"; "app.log"]%string)
         then errorLine clock stringify req err d else "")).
Proof.
  destruct (globalErrorHandler_logs clock stringify req err d)
    as [Hreads Hfiles].
  unfold ErrorHandler.globalErrorHandler.
  set (d1 := Logger.error clock stringify _ _ d) in *.
  assert (Hanswer : forall status error message details,
    ErrorHandler.respond clock status error message details d1
      = (Return response, d') ->
    response = mkErrorResponse status
                 (mkErrorBody error message details
                              (clock (S (Logger.diskClockReads d)))) /\
    Logger.diskClockReads d' = S (S (Logger.diskClockReads d)) /\
    forall filename, contentOf filename d' = contentOf filename d1).
  { intros status error message details.
    unfold ErrorHandler.respond, diskNewDate. rewrite Hreads.
    intros [= <- <-]. repeat split. }
  repeat case_bool_decide;
    try (destruct (err_errors err); [|discriminate]);
    try (destruct (err_keyValue err); [|discriminate]);
    try match goal with
        | |- context [err_isSyntaxError err && ?b && err_hasBody err] =>
            destruct (err_isSyntaxError err && b && err_hasBody err)
        end;
    intros Hrun; apply Hanswer in Hrun as (-> & Hcount & Hsame); cbn;
    (split; [intros Hprod Hstatus; try lia; try congruence; auto|]);
    (split; [intros stack name Hd; try discriminate;
             injection Hd as <- <-; auto|]);
    (split; [reflexivity|]);
    (split; [exact Hcount|]);
    intros filename; rewrite Hsame; apply Hfiles.
Qed.

Lemma error_answers_do_not_leak_witness :
  exists response d',
    ErrorHandler.globalErrorHandler (tickingClock 1000) sampleStringify
       (Some "production"%string) sampleErrorRequest sampleError emptyDisk
      = (Return response, d') /\
    er_status response = 500 /\
    eb_message (er_body response) = "Something went wrong on our end"%string /\
    eb_details (er_body response) = NoDetails /\
    eb_timestamp (er_body response) = 1001 /\
    contentOf "error.log" d' =
      errorLine (tickingClock 1000) sampleStringify sampleErrorRequest
                sampleError emptyDisk.
Proof.
  eexists. eexists. split; [reflexivity|]. split; [reflexivity|].
  destruct (error_answers_do_not_leak (tickingClock 1000) sampleStringify
              (Some "production"%string) sampleErrorRequest sampleError
              emptyDisk _ _ eq_refl)
    as (Hhidden & _ & Htime & _ & Hfiles).
  destruct Hhidden as (_ & Hmessage & Hdetails);
    [reflexivity | vm_compute; discriminate |].
  split; [exact Hmessage|]. split; [exact Hdetails|].
  split; [exact Htime|]. apply (Hfiles "error.log"%string).
Defined.

(** X24: the utility [isValidUrl] and the service's
    [validateAndNormalizeUrl] agree: the first answers [true] exactly for
    the URLs the second normalizes, and [false] exactly for those it
    rejects with 'Invalid URL format'. *)
Theorem isValidUrl_agrees_with_the_service
    (URL : string -> option UrlObject) (url : string) (s : State) :
  (Utils.isValidUrl URL url = true <->
   exists normalized,
     validateAndNormalizeUrl URL url s = (Return normalized, s)) /\
  (Utils.isValidUrl URL url = false <->
   validateAndNormalizeUrl URL url s = (Throw "Invalid URL format", s)).
Proof.
  unfold Utils.isValidUrl, validateAndNormalizeUrl, tryCatch.
  destruct (URL url) as [urlObj|].
  - case_bool_decide; unfold ret, throw; split; split;
      try discriminate; eauto.
    + intros [n Hn]. discriminate.
  - unfold throw. split; split; try discriminate; eauto.
    intros [n Hn]. discriminate.
Qed.

(** ** generateRandomString *)

Lemma characters_append (a b : string) :
  characters (a +:+ b) = characters a ++ characters b.
Proof.
  induction a as [|x a IH]; [reflexivity|].
  change (x :: characters (a +:+ b) = x :: (characters a ++ characters b)).
  now rewrite IH.
Qed.

Lemma get_characters (s : string) (i : nat) :
  (i < String.length s)%nat ->
  exists c, String.get i s = Some c /\ c ∈ characters s.
Proof.
  revert i. induction s as [|x s IH]; intros i Hi; simpl in Hi; [lia|].
  destruct i as [|i]; simpl.
  - exists x. split; [reflexivity | apply list_elem_of_here].
  - destruct (IH i) as (c & Hc & Hin); [lia|].
    exists c. split; [exact Hc | now apply list_elem_of_further].
Qed.

Lemma pick_shape (chars : string) (b : byte) :
  chars <> ""%string ->
  exists c, Utils.pick chars b = String c "" /\ c ∈ characters chars.
Proof.
  intros Hne. unfold Utils.pick.
  rewrite bool_decide_eq_false_2 by (destruct chars; [congruence|discriminate]).
  destruct (get_characters chars
              (Byte.to_nat b mod String.length chars)%nat) as (c & Hc & Hin).
  { apply Nat.mod_upper_bound. destruct chars; [congruence|discriminate]. }
  exists c. unfold charAt. rewrite Hc. auto.
Qed.

Lemma generateRandomStringLoop_shape (entropy : nat -> byte)
    (alphabet : string) (n : nat) (result : string) (s : State) :
  exists out,
    Utils.generateRandomStringLoop entropy alphabet n result s
      = (Return out, drawn n s) /\
    (alphabet <> ""%string ->
     String.length out = (String.length result + n)%nat /\
     (Forall (fun c => c ∈ characters alphabet) (characters result) ->
      Forall (fun c => c ∈ characters alphabet) (characters out))) /\
    (alphabet = ""%string -> out = result +:+ repeated n "undefined") /\
    (alphabet = chars -> out = drawCode entropy (bytesDrawn s) n result).
Proof.
  revert result s. induction n as [|n IH]; intros result s.
  - exists result. split.
    + simpl. unfold ret, drawn. rewrite Nat.add_0_r. now destruct s.
    + split; [intros _; split; [simpl; lia | auto]|].
      split; [intros _; simpl; now rewrite string_app_nil_r | reflexivity].
  - cbn [Utils.generateRandomStringLoop]. unfold bind at 1.
    unfold cryptoRandomByte at 1.
    destruct (IH (result +:+ Utils.pick alphabet (entropy (bytesDrawn s)))
                 (mkState (urls s) (analytics s) (clockReads s)
                          (S (bytesDrawn s))))
      as (out & Hrun & Hshape & Hempty & Hsame).
    exists out. split.
    + rewrite Hrun. unfold drawn. simpl. do 2 f_equal. lia.
    + split; [|split].
      * intros Hne. destruct (Hshape Hne) as [Hlen Hall].
        destruct (pick_shape alphabet (entropy (bytesDrawn s)) Hne)
          as (c & Hc & Hin).
        rewrite Hc in Hlen, Hall.
        rewrite string_length_append in Hlen. simpl in Hlen.
        split; [lia|]. intros Hres. apply Hall.
        rewrite characters_append. apply Forall_app. split; [exact Hres|].
        repeat constructor. exact Hin.
      * intros ->. rewrite (Hempty eq_refl).
        rewrite string_app_assoc. reflexivity.
      * intros ->. rewrite (Hsame eq_refl). reflexivity.
Qed.

(** X25: [generateRandomString(length, chars)] draws exactly [length]
    random bytes.  On a non-empty alphabet it returns [length] characters,
    each taken from the alphabet; on the alphabet of the service it returns
    what [UrlService.generateShortcode] returns from the same bytes; on an
    empty alphabet every iteration appends the text 'undefined'. *)
Theorem generateRandomString_shape (entropy : nat -> byte) (n : nat)
    (alphabet : string) (s : State) :
  exists out,
    Utils.generateRandomString entropy n alphabet s = (Return out, drawn n s) /\
    (alphabet <> ""%string ->
     String.length out = n /\
     Forall (fun c => c ∈ characters alphabet) (characters out)) /\
    (alphabet = ""%string -> out = repeated n "undefined") /\
    (alphabet = chars ->
     generateShortcode entropy n s = (Return out, drawn n s)).
Proof.
  destruct (generateRandomStringLoop_shape entropy alphabet n "" s)
    as (out & Hrun & Hshape & Hempty & Hsame).
  exists out. split; [exact Hrun|]. split; [|split].
  - intros Hne. destruct (Hshape Hne) as [Hlen Hall].
    split; [exact Hlen | apply Hall; constructor].
  - exact Hempty.
  - intros Heq. rewrite (Hsame Heq). apply generateShortcode_spec.
Qed.

Lemma generateRandomString_shape_witness :
  (Utils.generateRandomString stuckEntropy 3 "xyz" emptyStore).1
    = Return "xxx"%string /\
  (Utils.generateRandomString stuckEntropy 2 "" emptyStore).1
    = Return "undefinedundefined"%string.
Proof.
  destruct (generateRandomString_shape stuckEntropy 2 "" emptyStore)
    as (out & Hrun & _ & Hempty & _).
  split; [reflexivity|]. rewrite Hrun, (Hempty eq_refl). reflexivity.
Defined.

(** * Shorten, follow, read the analytics *)

Lemma redirectToUrl_live (clock : nat -> Z) (s : State)
    (req : RedirectRequest) (u : UrlEntry) (a : Analytics) :
  truthy (Some (params_shortcode req)) = true ->
  urls s !! params_shortcode req = Some u ->
  analytics s !! params_shortcode req = Some a ->
  clock (clockReads s) <= expiresAt u ->
  clock (S (clockReads s)) <= expiresAt u ->
  clock (S (S (clockReads s))) <= expiresAt u ->
  UrlController.redirectToUrl clock req s
  = (Return (mkResponse 302 (Location (originalUrl u))),
     clicked clock (params_shortcode req) u a (clickDataOf req)
             (S (S (clockReads s))) s).
Proof.
  intros Htruthy Hu Ha Hlive Hlive1 Hlive2.
  unfold UrlController.redirectToUrl, tryCatch, getUrlByShortcode.
  rewrite Htruthy. cbn [negb]. unfold bind at 1. unfold bind at 1.
  rewrite (findByShortcode_live clock _ s u Hu Hlive).
  unfold ret at 1. unfold bind at 1. unfold newDate at 1, ticked.
  cbn [clockReads urls analytics bytesDrawn].
  rewrite bool_decide_eq_false_2 by lia.
  unfold bind at 1, recordClick.
  rewrite (addClick_live clock _ (clickDataOf req) _ u a) by
    (cbn [urls analytics clockReads]; assumption).
  reflexivity.
Qed.

Lemma uniqueIpCount_one (c : Click) : uniqueIpCount [c] = 1%nat.
Proof.
  unfold uniqueIpCount.
  rewrite fmap_cons, fmap_nil, list_to_set_cons, list_to_set_nil.
  rewrite union_empty_r_L. apply size_singleton.
Qed.

(** X26: the three handlers compose.  After [UrlController.createShortUrl]
    has handled a body with a valid URL and a free custom shortcode (a
    string), [UrlController.redirectToUrl] run for that shortcode while the
    record is live answers with a redirect (302) to the normalized URL and
    records one click carrying the request's ip, user agent and referer,
    and [UrlController.getUrlAnalytics] run next reports that URL with
    [totalClicks = 1], [uniqueClicks = 1] and that single click.  The
    statement is about the handlers: which of them the router runs for a
    path is not part of it. *)
Theorem shorten_follow_analyse (clock : nat -> Z) (entropy : nat -> byte)
    (URL : string -> option UrlObject) (BASE_URL : string)
    (url code : string) (urlObj : UrlObject) (v : Validity)
    (req : RedirectRequest) (s : State) :
  validityRejected v = false ->
  truthy (Some url) = true ->
  URL url = Some urlObj ->
  protocol urlObj ∈ ["http:"; "https:"]%string ->
  shortcodeFormat code = true ->
  urls s !! code = None ->
  params_shortcode req = code ->
  let n := clockReads s in
  let expires := clock n + windowMinutes v * 60 * 1000 in
  clock (2 + n)%nat <= expires -> clock (3 + n)%nat <= expires ->
  clock (4 + n)%nat <= expires -> clock (6 + n)%nat <= expires ->
  let s1 := (UrlController.createShortUrl clock entropy URL BASE_URL
               (mkCreateBody (Some url) v (Some code)) s).2 in
  let s2 := (UrlController.redirectToUrl clock req s1).2 in
  (UrlController.redirectToUrl clock req s1).1
    = Return (mkResponse 302 (Location (href urlObj))) /\
  (UrlController.getUrlAnalytics clock code s2).1
    = Return (mkResponse 200
                (AnalyticsJson
                   (mkReport code (href urlObj) (clock (1 + n)%nat) expires
                             1 1 [clickOf clock (5 + n) (clickDataOf req)]))).
Proof.
  intros Hval Hurl Hparse Hproto Hfmt Hfree Hreq n expires H2 H3 H4 H6 s1 s2.
  subst s2 s1.
  rewrite (postShortUrl_accepted clock entropy URL BASE_URL url urlObj v code s
             Hval Hurl Hparse Hproto Hfmt Hfree).
  cbv zeta. cbn [snd].
  set (fresh := mkUrlEntry code code (href urlObj) expires (clock (S n)) []).
  set (s1 := mkState _ _ _ _).
  assert (Htruthy : truthy (Some (params_shortcode req)) = true)
    by (rewrite Hreq; now apply shortcodeFormat_truthy).
  assert (Hu1 : urls s1 !! params_shortcode req = Some fresh)
    by (rewrite Hreq; apply lookup_insert_eq).
  assert (Ha1 : analytics s1 !! params_shortcode req = Some (mkAnalytics 0 0))
    by (rewrite Hreq; apply lookup_insert_eq).
  rewrite (redirectToUrl_live clock s1 req fresh (mkAnalytics 0 0)
             Htruthy Hu1 Ha1) by (subst s1 fresh; simpl; assumption).
  split; [reflexivity|]. cbn [snd].
  unfold UrlController.getUrlAnalytics, tryCatch, getUrlAnalytics.
  rewrite (shortcodeFormat_truthy code Hfmt). cbn [negb].
  unfold bind at 1. unfold bind at 1.
  rewrite (getAnalytics_live clock code _
             (pushClick fresh (clickOf clock (S (S (S (clockReads s1))))
                                       (clickDataOf req)))
             (mkAnalytics 1
                (uniqueIpCount
                   (clicks (pushClick fresh
                              (clickOf clock (S (S (S (clockReads s1))))
                                       (clickDataOf req))))))).
  - unfold ret. cbn [fst pushClick clicks app totalClicks uniqueClicks
                       originalUrl createdAt expiresAt].
    subst fresh. cbn [clicks app originalUrl createdAt expiresAt].
    rewrite uniqueIpCount_one. reflexivity.
  - unfold clicked. rewrite Hreq. simpl. apply lookup_insert_eq.
  - unfold clicked. rewrite Hreq. simpl. apply lookup_insert_eq.
  - subst s1 fresh. simpl. exact H6.
Qed.

Lemma shorten_follow_analyse_witness :
  (UrlController.getUrlAnalytics (tickingClock 1000) "abc12"
     (UrlController.redirectToUrl (tickingClock 1000) (visit "abc12")
        (UrlController.createShortUrl (tickingClock 1000) stuckEntropy
           sampleURL sampleBase (sampleBody VUndefined) emptyStore).2).2).1
  = Return (mkResponse 200
              (AnalyticsJson
                 (mkReport "abc12" "https://example.com/" 1001 1801000 1 1
                    [mkClick 1005 "curl/8" "10.0.0.1" ""]))).
Proof.
  apply (shorten_follow_analyse (tickingClock 1000) stuckEntropy sampleURL
           sampleBase "https://example.com/" "abc12"
           (mkUrlObject "https:" "https://example.com/") VUndefined
           (visit "abc12") emptyStore); try reflexivity;
    try (vm_compute; discriminate).
  apply list_elem_of_further, list_elem_of_here.
Defined.
